(** * The order controller of the Stripe payments demo (store.js)

    A shallow embedding of [public/javascripts/store.js]: the [Store] class
    with its catalog, quantity map, line items and payment-intent
    reference, the page elements it writes to, and the network requests it
    issues.  Asynchronous methods are terms of a small free monad
    ([Task]) whose nodes are the suspension points of the source
    ([await fetch(...)], [await promise]); an event loop resumes them. *)

From Stdlib Require Import ZArith List String Ascii Bool Lia DecimalString.
From Stdlib Require DecimalN.
From stdpp Require Import gmap strings list.

Local Open Scope string_scope.
Local Open Scope list_scope.
Local Open Scope Z_scope.
Set Warnings "-register-all".

(** ** JavaScript values used by the controller *)

Module JS.

(** A JavaScript number as the controller meets it.  Quantities are
    results of [parseInt], prices are whole amounts, and the controller
    only adds and multiplies: every number it holds is an integer-valued
    double, an infinity or NaN.  [Int z] is the double of value [z]; the
    operations round as IEEE 754 does ([round_double]), so they stay
    within the doubles.  -0 is identified with 0: the controller prints,
    tests and serializes both alike. *)
Inductive Number := NaN | Int (z : Z) | Inf (negative : bool).

(** The double nearest to an integer, ties to even; an integer of
    magnitude 2^1024 - 2^970 or more rounds to an infinity. *)
Definition round_double (z : Z) : Number :=
  let a := Z.abs z in
  if a <? 2 ^ 53 then Int z
  else
    let e := Z.log2 a - 52 in
    let q := Z.shiftr a e in
    let r := a - Z.shiftl q e in
    let half := Z.shiftl 1 (e - 1) in
    let q' := if (half <? r) || ((r =? half) && Z.odd q) then q + 1 else q in
    let m := Z.shiftl q' e in
    if 2 ^ 1024 <=? m then Inf (z <? 0) else Int (Z.sgn z * m).

(** The integers every double up to them represents exactly. *)
Definition max_safe_integer : Z := 2 ^ 53 - 1.

(** A possibly [undefined] number is an [option Number]. *)
Definition truthy (q : option Number) : bool :=
  match q with
  | Some (Int z) => negb (z =? 0)
  | Some (Inf _) => true
  | _ => false
  end.

(** ToNumber: [undefined] converts to NaN. *)
Definition to_number (q : option Number) : Number :=
  match q with
  | Some n => n
  | None => NaN
  end.

Definition add (a b : Number) : Number :=
  match a, b with
  | Int x, Int y => round_double (x + y)
  | Inf s, Int _ | Int _, Inf s => Inf s
  | Inf s, Inf t => if Bool.eqb s t then Inf s else NaN
  | _, _ => NaN
  end.

Definition mul (a b : Number) : Number :=
  match a, b with
  | Int x, Int y => round_double (x * y)
  | Inf s, Int y | Int y, Inf s => if y =? 0 then NaN else Inf (xorb s (y <? 0))
  | Inf s, Inf t => Inf (xorb s t)
  | _, _ => NaN
  end.

(** [q ? q : 0] *)
Definition or_zero (q : option Number) : Number :=
  if truthy q then to_number q else Int 0.

(** Opaque payload values (a payment intent, a backend error, a token). *)
Inductive Value :=
| VUndefined
| VNull
| VBool (b : bool)
| VNumber (n : Number)
| VString (s : string)
| VArray (l : list Value)
| VObject (fields : list (string * Value)).

Definition truthy_value (v : Value) : bool :=
  match v with
  | VUndefined | VNull => false
  | VBool b => b
  | VNumber n => truthy (Some n)
  | VString s => negb (String.eqb s "")
  | VArray _ | VObject _ => true
  end.

(** Thrown values: [Error] objects with their [message]. *)
Record Exn := mkExn { exn_name : string; message : string }.

Definition TypeError (m : string) : Exn := mkExn "TypeError" m.
Definition RangeError (m : string) : Exn := mkExn "RangeError" m.
Definition Error (m : string) : Exn := mkExn "Error" m.

(** The result of an expression that may throw. *)
Inductive Res (A : Type) := Ok (a : A) | Raise (e : Exn).
Arguments Ok {A} a.
Arguments Raise {A} e.

(** [data.field]: reading a property of [null] or [undefined] throws, a
    missing property is [undefined]. *)
Fixpoint assoc (k : string) (l : list (string * Value)) : Value :=
  match l with
  | [] => VUndefined
  | (k', v) :: l' => if String.eqb k k' then v else assoc k l'
  end.

Definition get_field (v : Value) (f : string) : Res Value :=
  match v with
  | VUndefined =>
      Raise (TypeError ("Cannot read properties of undefined (reading '" +:+ f +:+ "')"))
  | VNull =>
      Raise (TypeError ("Cannot read properties of null (reading '" +:+ f +:+ "')"))
  | VObject fields => Ok (assoc f fields)
  | _ => Ok VUndefined
  end.

(** *** parseInt (ECMAScript 19.2.5, radix undefined) *)

Definition is_whitespace (c : ascii) : bool :=
  let n := nat_of_ascii c in
  ((9 <=? n) && (n <=? 13))%nat || (n =? 32)%nat.

Fixpoint trim_start (s : string) : string :=
  match s with
  | String c s' => if is_whitespace c then trim_start s' else s
  | EmptyString => EmptyString
  end.

Definition digit_value (radix : Z) (c : ascii) : option Z :=
  let n := Z.of_nat (nat_of_ascii c) in
  let d :=
    if (48 <=? n) && (n <=? 57) then Some (n - 48)
    else if (97 <=? n) && (n <=? 122) then Some (n - 87)
    else if (65 <=? n) && (n <=? 90) then Some (n - 55)
    else None in
  match d with
  | Some v => if v <? radix then Some v else None
  | None => None
  end.

(** The longest prefix of digits; [None] when it is empty. *)
Fixpoint parse_digits (radix : Z) (acc : option Z) (s : string) : option Z :=
  match s with
  | String c s' =>
      match digit_value radix c with
      | Some d => parse_digits radix (Some (radix * default 0 acc + d)) s'
      | None => acc
      end
  | EmptyString => acc
  end.

(** The result is the double nearest to the integer the digits denote
    (an engine may approximate digits after the twentieth; the common
    ones round correctly). *)
Definition parseInt (input : string) : Number :=
  let s := trim_start input in
  let '(negative, s) :=
    match s with
    | String "-" r => (true, r)
    | String "+" r => (false, r)
    | _ => (false, s)
    end in
  let '(radix, s) :=
    match s with
    | String "0" (String "x" r) => (16, r)
    | String "0" (String "X" r) => (16, r)
    | _ => (10, s)
    end in
  match parse_digits radix None s with
  | None => NaN
  | Some n => round_double (if negative : bool then - n else n)
  end.

(** *** Number::toString (radix 10), on the numbers above *)

Definition digits (n : Z) : string :=
  NilZero.string_of_uint (N.to_uint (Z.to_N n)).

Definition rounds_to (a v : Z) : bool :=
  match round_double v with
  | Int a' => a' =? a
  | _ => false
  end.

(** The decimal with the fewest significant digits that rounds to the
    double [a], as a multiple of a power of ten; of two such decimals the
    one nearer to [a].  [n] is the number of digits of [a], [k] the
    number of significant digits tried. *)
Fixpoint shortest (fuel : nat) (k n a : Z) : Z :=
  match fuel with
  | O => a
  | S fuel' =>
      let p := 10 ^ (n - k) in
      let lo := a / p * p in
      let hi := lo + p in
      match rounds_to a lo, rounds_to a hi with
      | true, true =>
          if a - lo <? hi - a then lo
          else if hi - a <? a - lo then hi
          else if Z.even (a / p) then lo else hi
      | true, false => lo
      | false, true => hi
      | false, false => shortest fuel' (k + 1) n a
      end
  end.

Fixpoint drop_zeros (l : list ascii) : list ascii :=
  match l with
  | "0"%char :: l' => drop_zeros l'
  | _ => l
  end.

Definition shortest_decimal (a : Z) : Z :=
  shortest 21 1 (Z.of_nat (String.length (digits a))) a.

(** [1.1805916207174113e+21]: the notation of a decimal from 10^21 on. *)
Definition exponent_notation (v : Z) : string :=
  let ds := digits v in
  let e := Z.of_nat (String.length ds) - 1 in
  match rev (drop_zeros (rev (list_ascii_of_string ds))) with
  | [] => EmptyString
  | [c] => String c EmptyString +:+ "e+" +:+ digits e
  | c :: r => String c (String "." (string_of_list_ascii r)) +:+ "e+" +:+ digits e
  end.

(** Up to 2^53 - 1 a double prints as the integer it is; beyond, as the
    shortest decimal that rounds to it, in full below 10^21 and with an
    exponent from there on. *)
Definition to_string (n : Number) : string :=
  match n with
  | NaN => "NaN"
  | Inf negative => (if negative then "-" else "") +:+ "Infinity"
  | Int z =>
      let a := Z.abs z in
      (if z <? 0 then "-" else "")
      +:+ (if a <=? max_safe_integer then digits a
           else
             let v := shortest_decimal a in
             if v <? 10 ^ 21 then digits v else exponent_notation v)
  end.

(** *** Number.prototype.toFixed(2), on the numbers above: every digit
        of the number and two decimals below 10^21, [toString] from there
        on and for NaN and the infinities *)

Definition toFixed2 (n : Number) : string :=
  match n with
  | Int z =>
      if Z.abs z <? 10 ^ 21
      then (if z <? 0 then "-" else "") +:+ digits (Z.abs z) +:+ ".00"
      else to_string n
  | _ => to_string n
  end.

(** *** Intl.NumberFormat(['en-US'], {style: 'currency', currency,
        currencyDisplay: 'symbol'}).format(price)

    The platform's formatter on the strings [toFixed2] produces: the
    string is read as a decimal at its exact value (ECMA-402 from its
    10th edition on), an infinity or NaN; a decimal is printed with its
    sign, the currency symbol, the integer part in groups of three and as
    many fraction digits as the currency has.  Currency codes are
    case-insensitive.  The prices that reach the formatter have a zero
    fraction, so no digit is ever rounded away. *)

Definition upper (c : ascii) : ascii :=
  let n := nat_of_ascii c in
  if ((97 <=? n) && (n <=? 122))%nat then ascii_of_nat (n - 32) else c.

Fixpoint uppercase (s : string) : string :=
  match s with
  | String c s' => String (upper c) (uppercase s')
  | EmptyString => EmptyString
  end.

Definition is_alpha (c : ascii) : bool :=
  let n := nat_of_ascii (upper c) in ((65 <=? n) && (n <=? 90))%nat.

Definition is_digit (c : ascii) : bool :=
  let n := nat_of_ascii c in ((48 <=? n) && (n <=? 57))%nat.

Definition well_formed_currency (code : string) : bool :=
  match code with
  | String a (String b (String c EmptyString)) => is_alpha a && is_alpha b && is_alpha c
  | _ => false
  end.

(** The symbols of the en-US locale that differ from the currency code,
    and the currencies that do not have two fraction digits. *)
Definition en_US_symbols : list (string * string) :=
  [ ("USD", "$"); ("EUR", "€"); ("GBP", "£"); ("JPY", "¥"); ("CAD", "CA$");
    ("AUD", "A$"); ("MXN", "MX$"); ("INR", "₹"); ("CNY", "CN¥"); ("NZD", "NZ$");
    ("HKD", "HK$"); ("BRL", "R$"); ("KRW", "₩"); ("ILS", "₪"); ("VND", "₫");
    ("TWD", "NT$"); ("PHP", "₱"); ("XAF", "FCFA"); ("XOF", "F CFA"); ("XCD", "EC$");
    ("XPF", "CFPF") ].

Definition minor_units : list (string * nat) :=
  [ ("BIF", 0); ("CLP", 0); ("DJF", 0); ("GNF", 0); ("ISK", 0); ("JPY", 0); ("KMF", 0);
    ("KRW", 0); ("PYG", 0); ("RWF", 0); ("UGX", 0); ("VND", 0); ("VUV", 0); ("XAF", 0);
    ("XOF", 0); ("XPF", 0);
    ("BHD", 3); ("IQD", 3); ("JOD", 3); ("KWD", 3); ("LYD", 3); ("OMR", 3); ("TND", 3);
    ("CLF", 4); ("UYW", 4) ]%nat.

Fixpoint lookup_code {V} (code : string) (table : list (string * V)) : option V :=
  match table with
  | [] => None
  | (c, v) :: table' => if String.eqb c code then Some v else lookup_code code table'
  end.

Definition currency_symbol (code : string) : string :=
  let c := uppercase code in
  match lookup_code c en_US_symbols with
  | Some symbol => symbol
  | None => c
  end.

Definition fraction_digits (code : string) : nat :=
  match lookup_code (uppercase code) minor_units with
  | Some d => d
  | None => 2%nat
  end.

(** U+00A0, which the formatter puts between a symbol that ends in a
    letter and a digit. *)
Definition nbsp : string := String (ascii_of_nat 194) (String (ascii_of_nat 160) EmptyString).

Fixpoint last_char (s : string) : option ascii :=
  match s with
  | EmptyString => None
  | String c EmptyString => Some c
  | String _ s' => last_char s'
  end.

Definition spacing (symbol number : string) : string :=
  match last_char symbol with
  | Some c =>
      if is_alpha c then
        match number with
        | String d _ => if is_digit d then nbsp else ""
        | EmptyString => ""
        end
      else ""
  | None => ""
  end.

(** Commas between groups of three, counted from the right. *)
Fixpoint group_rev (n : nat) (rev_digits : list ascii) : list ascii :=
  match rev_digits with
  | [] => []
  | c :: rest =>
      match n, rest with
      | 2%nat, _ :: _ => c :: ","%char :: group_rev 0 rest
      | _, _ => c :: group_rev (S n) rest
      end
  end.

Definition group3 (s : string) : string :=
  string_of_list_ascii (rev (group_rev 0 (rev (list_ascii_of_string s)))).

(** [s] up to the first [c], and the rest from [c] on. *)
Fixpoint split_at (c : ascii) (s : string) : string * string :=
  match s with
  | String c' r =>
      if Ascii.eqb c' c then (EmptyString, s)
      else let '(i, f) := split_at c r in (String c' i, f)
  | EmptyString => (EmptyString, EmptyString)
  end.

Definition split_point (s : string) : string * string := split_at "." s.

Fixpoint all_digits (s : string) : bool :=
  match s with
  | String c s' => is_digit c && all_digits s'
  | EmptyString => true
  end.

Definition zeros (n : nat) : string := string_of_list_ascii (repeat "0"%char n).

Fixpoint take_string (n : nat) (s : string) : string :=
  match n, s with
  | S n', String c s' => String c (take_string n' s')
  | _, _ => EmptyString
  end.

Fixpoint drop_string (n : nat) (s : string) : string :=
  match n, s with
  | S n', String _ s' => drop_string n' s'
  | _, _ => s
  end.

(** What the formatter reads in a string. *)
Inductive Reading :=
| RNaN
| RInfinity (negative : bool)
| RDecimal (negative : bool) (int_part fraction : string).

(** digits[.digits][e+digits], or [Infinity] *)
Definition read_unsigned (negative : bool) (unsigned : string) : Reading :=
  if String.eqb unsigned "Infinity" then RInfinity negative
  else
    let '(mantissa, exponent) := split_at "e" unsigned in
    let '(int_part, point_fraction) := split_point mantissa in
    let fraction := drop_string 1 point_fraction in
    let shift :=
      match exponent with
      | EmptyString => Some 0%nat
      | String _ (String "+" ds) =>
          if all_digits ds && negb (String.eqb ds "")
          then Some (Z.to_nat (default 0 (parse_digits 10 None ds))) else None
      | _ => None
      end in
    match shift with
    | Some e =>
        if all_digits int_part && all_digits fraction
           && negb (String.eqb int_part "" && String.eqb fraction "")
        then
          let every := int_part +:+ fraction +:+ zeros e in
          let point := (String.length int_part + e)%nat in
          RDecimal negative
                   (digits (default 0 (parse_digits 10 None (take_string point every))))
                   (drop_string point (int_part +:+ fraction))
        else RNaN
    | None => RNaN
    end.

Definition read_price (price : string) : Reading :=
  match price with
  | String "-" r => read_unsigned true r
  | _ => read_unsigned false price
  end.

Definition format (currency : option string) (price : string) : Res string :=
  match currency with
  | None => Raise (TypeError "Currency code is required with currency style.")
  | Some code =>
      if well_formed_currency code then
        let symbol := currency_symbol code in
        let d := fraction_digits code in
        match read_price price with
        | RNaN => Ok (symbol +:+ "NaN")
        | RInfinity negative => Ok ((if negative then "-" else "") +:+ symbol +:+ "∞")
        | RDecimal negative int_part fraction =>
            let number :=
              group3 int_part
              +:+ (if (d =? 0)%nat then "" else "." +:+ take_string d (fraction +:+ zeros d)) in
            Ok ((if negative then "-" else "") +:+ symbol +:+ spacing symbol number +:+ number)
        end
      else Raise (RangeError ("Invalid currency code : " +:+ code))
  end.

End JS.
Import JS.


(** ** Data model *)

(** A SKU, a product and the catalog as the backend serves them
    ([/products], [/products/:id/skus]). *)
Record Sku := {
  sku_id : string;
  sku_price : Z;             (* a whole amount, as the body of the response has it *)
  sku_currency : string;
  sku_description : string   (* sku.attributes.description *)
}.

(** [sku.price] as the page holds it: [JSON.parse] has read the number of
    the body as the nearest double. *)
Definition price_of (sku : Sku) : Number := round_double (sku_price sku).

Record Skus := { skus_data : list Sku }.

Record Product := {
  product_id : string;
  product_name : string;
  product_skus : option Skus   (* absent on newer API versions *)
}.

Record ProductList := { list_data : list Product }.

Record Config := {
  stripePublishableKey : string;
  config_currency : string
}.

(** An element of [this.lineItems]. *)
Record LineItem := {
  li_product : string;
  li_sku : string;
  li_quantity : option Number
}.

(** An element of the list [getLineItems] builds. *)
Record Item := {
  item_type : string;
  item_parent : string;
  item_quantity : option Number
}.

(** A plain object used as a dictionary: its own properties in creation
    order.  [Object.entries] lists array-index keys first, in ascending
    order, then the other keys in creation order. *)
Definition JsObject (V : Type) := list (string * V).

Fixpoint obj_get {V} (k : string) (o : JsObject V) : option V :=
  match o with
  | [] => None
  | (k', v) :: o' => if String.eqb k' k then Some v else obj_get k o'
  end.

Fixpoint obj_set {V} (k : string) (v : V) (o : JsObject V) : JsObject V :=
  match o with
  | [] => [(k, v)]
  | (k', v') :: o' =>
      if String.eqb k' k then (k', v) :: o' else (k', v') :: obj_set k v o'
  end.

Definition array_index (k : string) : option Z :=
  match NilZero.uint_of_string k with
  | Some u =>
      let n := Z.of_N (N.of_uint u) in
      if String.eqb (digits n) k && (n <? 2 ^ 32 - 1) then Some n else None
  | None => None
  end.

Fixpoint insert_index {V} (n : Z) (e : string * V) (l : list (Z * (string * V)))
  : list (Z * (string * V)) :=
  match l with
  | [] => [(n, e)]
  | (m, e') :: l' =>
      if n <? m then (n, e) :: l else (m, e') :: insert_index n e l'
  end.

Fixpoint index_entries {V} (o : JsObject V) : list (Z * (string * V)) :=
  match o with
  | [] => []
  | (k, v) :: o' =>
      match array_index k with
      | Some n => insert_index n (k, v) (index_entries o')
      | None => index_entries o'
      end
  end.

Definition entries {V} (o : JsObject V) : list (string * V) :=
  map snd (index_entries o)
  ++ List.filter (fun e => match array_index (fst e) with None => true | Some _ => false end) o.

(** The fields of the [Store] instance. *)
Record Store := {
  lineItems : list LineItem;
  products : JsObject Product;
  quantity : gmap string Number;
  config : option Config;                (* null until getConfig succeeds *)
  productsFetchPromise : option nat;     (* null, or a promise *)
  paymentIntent : Value
}.

(** The part of the page the controller reads and writes.  The static
    elements of the page ([#order-items], [#order-total] with its
    [data-subtotal] and [data-total] nodes and its [.demo] notice,
    [#payment-form] with its submit button) are present; the line-item
    blocks are the children [displayPaymentSummary] appends, each with
    its [quantity-input-<id>] and [price-<id>] elements. *)
Record LineItemElement := {
  el_product : string;   (* the <id> of quantity-input-<id> and price-<id> *)
  el_name : string;
  el_value : string;     (* the input's value *)
  el_count : string;
  el_price : string;     (* innerText of price-<id> *)
  el_sku : string
}.

Record Dom := {
  demo_display : string;
  order_items : list LineItemElement;
  data_subtotal : string;
  data_total : string;
  submit_label : string
}.

(** Requests to the backend. *)
Inductive Request :=
| GET_config
| GET_products
| GET_product_skus (product_id : string)
| POST_payment_intents (currency : string) (items : list Item)
| POST_shipping_change (paymentIntent : Value) (items : list Item) (shippingOption : Value)
| POST_charges (source : Value) (amount : Number) (currency : string) (metadata : Value).

(** What the body of a response decodes to, by endpoint. *)
Definition Payload (req : Request) : Type :=
  match req with
  | GET_config => Config
  | GET_products => ProductList
  | GET_product_skus _ => Skus
  | POST_payment_intents _ _ => Value
  | POST_shipping_change _ _ _ => Value
  | POST_charges _ _ _ _ => Value
  end.

(** How a promise settles. *)
Inductive Settled (T : Type) := Rejects (e : Exn) | Resolves (v : T).
Arguments Rejects {T} e.
Arguments Resolves {T} v.

(** A response carries the outcome of [response.json()]: the body is
    read in the step in which the response arrives. *)
Record Response (T : Type) := { json : Settled T }.
Arguments json {T} r.

(** Everything the controller's code can read or write. *)
Record Heap := {
  store : Store;                 (* window.store, the one instance *)
  dom : Dom;
  requests : list Request;       (* requests issued so far, oldest first *)
  promises : list bool;          (* promises created by [new Promise]: resolved? *)
  console : list string
}.

Definition set_lineItems v (s : Store) : Store :=
  {| lineItems := v; products := products s; quantity := quantity s; config := config s;
     productsFetchPromise := productsFetchPromise s; paymentIntent := paymentIntent s |}.
Definition set_products v (s : Store) : Store :=
  {| lineItems := lineItems s; products := v; quantity := quantity s; config := config s;
     productsFetchPromise := productsFetchPromise s; paymentIntent := paymentIntent s |}.
Definition set_quantity v (s : Store) : Store :=
  {| lineItems := lineItems s; products := products s; quantity := v; config := config s;
     productsFetchPromise := productsFetchPromise s; paymentIntent := paymentIntent s |}.
Definition set_config v (s : Store) : Store :=
  {| lineItems := lineItems s; products := products s; quantity := quantity s; config := v;
     productsFetchPromise := productsFetchPromise s; paymentIntent := paymentIntent s |}.
Definition set_productsFetchPromise v (s : Store) : Store :=
  {| lineItems := lineItems s; products := products s; quantity := quantity s; config := config s;
     productsFetchPromise := v; paymentIntent := paymentIntent s |}.
Definition set_paymentIntent v (s : Store) : Store :=
  {| lineItems := lineItems s; products := products s; quantity := quantity s; config := config s;
     productsFetchPromise := productsFetchPromise s; paymentIntent := v |}.

Definition set_demo_display v (d : Dom) : Dom :=
  {| demo_display := v; order_items := order_items d; data_subtotal := data_subtotal d;
     data_total := data_total d; submit_label := submit_label d |}.
Definition set_order_items v (d : Dom) : Dom :=
  {| demo_display := demo_display d; order_items := v; data_subtotal := data_subtotal d;
     data_total := data_total d; submit_label := submit_label d |}.
Definition set_data_subtotal v (d : Dom) : Dom :=
  {| demo_display := demo_display d; order_items := order_items d; data_subtotal := v;
     data_total := data_total d; submit_label := submit_label d |}.
Definition set_data_total v (d : Dom) : Dom :=
  {| demo_display := demo_display d; order_items := order_items d;
     data_subtotal := data_subtotal d; data_total := v; submit_label := submit_label d |}.
Definition set_submit_label v (d : Dom) : Dom :=
  {| demo_display := demo_display d; order_items := order_items d;
     data_subtotal := data_subtotal d; data_total := data_total d; submit_label := v |}.

Definition with_store (f : Store -> Store) (h : Heap) : Heap :=
  {| store := f (store h); dom := dom h; requests := requests h; promises := promises h;
     console := console h |}.
Definition with_dom (f : Dom -> Dom) (h : Heap) : Heap :=
  {| store := store h; dom := f (dom h); requests := requests h; promises := promises h;
     console := console h |}.
Definition with_requests (f : list Request -> list Request) (h : Heap) : Heap :=
  {| store := store h; dom := dom h; requests := f (requests h); promises := promises h;
     console := console h |}.
Definition with_promises (f : list bool -> list bool) (h : Heap) : Heap :=
  {| store := store h; dom := dom h; requests := requests h; promises := f (promises h);
     console := console h |}.
Definition with_console (f : list string -> list string) (h : Heap) : Heap :=
  {| store := store h; dom := dom h; requests := requests h; promises := promises h;
     console := f (console h) |}.

(** ** Tasks: the code between suspension points

    A method body is a tree: it returns, throws, reads or writes the
    heap, issues a request and waits for the response ([await fetch]),
    waits for a promise, or calls an asynchronous function without
    waiting for it ([Spawn]: the callee runs up to its first [await],
    then the caller goes on). *)
Inductive Task (A : Type) : Type :=
| Ret (a : A)
| Throw (e : Exn)
| Get (k : Heap -> Task A)
| Modify (f : Heap -> Heap) (k : Task A)
| Fetch (req : Request) (k : Settled (Response (Payload req)) -> Task A)
| Await (p : nat) (k : Task A)
| Spawn (t : Task unit) (k : Task A).
Arguments Ret {A} a.
Arguments Throw {A} e.
Arguments Get {A} k.
Arguments Modify {A} f k.
Arguments Fetch {A} req k.
Arguments Await {A} p k.
Arguments Spawn {A} t k.

Fixpoint bind {A B} (t : Task A) (f : A -> Task B) : Task B :=
  match t with
  | Ret a => f a
  | Throw e => Throw e
  | Get k => Get (fun h => bind (k h) f)
  | Modify g k => Modify g (bind k f)
  | Fetch req k => Fetch req (fun r => bind (k r) f)
  | Await p k => Await p (bind k f)
  | Spawn t' k => Spawn t' (bind k f)
  end.

Notation "'let*' x ':=' t 'in' k" := (bind t (fun x => k))
  (at level 10, x name, t at level 100, k at level 200).

(** [try { t } catch (err) { handler err }] *)
Fixpoint try_catch {A} (t : Task A) (handler : Exn -> Task A) : Task A :=
  match t with
  | Ret a => Ret a
  | Throw e => handler e
  | Get k => Get (fun h => try_catch (k h) handler)
  | Modify g k => Modify g (try_catch k handler)
  | Fetch req k => Fetch req (fun r => try_catch (k r) handler)
  | Await p k => Await p (try_catch k handler)
  | Spawn t' k => Spawn t' (try_catch k handler)
  end.

Definition liftR {A} (r : Res A) : Task A :=
  match r with
  | Ok a => Ret a
  | Raise e => Throw e
  end.

Definition this : Task Store := Get (fun h => Ret (store h)).
Definition document : Task Dom := Get (fun h => Ret (dom h)).
Definition update_this (f : Store -> Store) : Task unit := Modify (with_store f) (Ret tt).
Definition update_document (f : Dom -> Dom) : Task unit := Modify (with_dom f) (Ret tt).

(** [await fetch(req)]: a rejection is thrown at the [await]. *)
Definition fetch (req : Request) : Task (Response (Payload req)) :=
  Fetch req (fun r =>
    match r with
    | Rejects e => Throw e
    | Resolves response => Ret response
    end).

(** [await response.json()] *)
Definition await_json {T} (response : Response T) : Task T :=
  match json response with
  | Rejects e => Throw e
  | Resolves v => Ret v
  end.

(** *** Running a task up to its next suspension point *)

Inductive Outcome (A : Type) :=
| Returned (a : A)
| Threw (e : Exn)
| OnFetch (req : Request) (k : Settled (Response (Payload req)) -> Task A)
| OnPromise (p : nat) (k : Task A).
Arguments Returned {A} a.
Arguments Threw {A} e.
Arguments OnFetch {A} req k.
Arguments OnPromise {A} p k.

(** A suspended asynchronous call, waiting for a response or a promise. *)
Inductive Job :=
| JFetch (req : Request) (k : Settled (Response (Payload req)) -> Task unit)
| JPromise (p : nat) (k : Task unit).

(** What remains of an asynchronous call after its first run: nothing when
    it finished (a thrown exception rejects the promise it returned, which
    nobody holds). *)
Definition suspended (o : Outcome unit) : list Job :=
  match o with
  | OnFetch req k => [JFetch req k]
  | OnPromise p k => [JPromise p k]
  | Returned _ | Threw _ => []
  end.

Record Run (A : Type) := {
  heap_after : Heap;
  spawned : list Job;
  outcome : Outcome A
}.
Arguments heap_after {A} r.
Arguments spawned {A} r.
Arguments outcome {A} r.

Fixpoint exec (A : Type) (t : Task A) (h : Heap) {struct t} : Run A :=
  match t with
  | Ret a => {| heap_after := h; spawned := []; outcome := Returned a |}
  | Throw e => {| heap_after := h; spawned := []; outcome := Threw e |}
  | Get k => exec A (k h) h
  | Modify f k => exec A k (f h)
  | Fetch req k =>
      {| heap_after := with_requests (fun l => l ++ [req]) h;
         spawned := [];
         outcome := OnFetch req k |}
  | Await p k => {| heap_after := h; spawned := []; outcome := OnPromise p k |}
  | Spawn t' k =>
      let r1 := exec unit t' h in
      let r2 := exec A k (heap_after r1) in
      {| heap_after := heap_after r2;
         spawned := spawned r1 ++ suspended (outcome r1) ++ spawned r2;
         outcome := outcome r2 |}
  end.
Arguments exec {A} t h.

(** ** The [Store] class *)

(** What the network operations hand back: [undefined], an object
    [{error: ...}], or a payload. *)
Inductive Result (T : Type) :=
| RUndefined
| RError (error : Value)
| RData (data : T).
Arguments RUndefined {T}.
Arguments RError {T} error.
Arguments RData {T} data.

(** [product.skus.data[0]], and the exception the next property read
    ([reading]) throws when there is none. *)
Definition first_sku (p : Product) (reading : string) : Res Sku :=
  match product_skus p with
  | None => Raise (TypeError "Cannot read properties of undefined (reading 'data')")
  | Some skus =>
      match skus_data skus with
      | sku :: _ => Ok sku
      | [] =>
          Raise (TypeError ("Cannot read properties of undefined (reading '" +:+ reading +:+ "')"))
      end
  end.

(** [this.products[product].skus.data[0].price] *)
Definition unit_price (s : Store) (product : string) : Res Number :=
  match obj_get product (products s) with
  | None => Raise (TypeError "Cannot read properties of undefined (reading 'skus')")
  | Some p =>
      match first_sku p "price" with
      | Ok sku => Ok (price_of sku)
      | Raise e => Raise e
      end
  end.

(** Compute the total for the payment based on the line items. *)
Definition getPaymentTotal (s : Store) : Res Number :=
  fold_left
    (fun acc item =>
       match acc with
       | Raise e => Raise e
       | Ok total =>
           match unit_price s (li_product item) with
           | Ok price => Ok (add total (mul (or_zero (li_quantity item)) price))
           | Raise e => Raise e
           end
       end)
    (lineItems s) (Ok (Int 0)).

(** Expose the line items for the payment. *)
Definition getLineItems (s : Store) : list Item :=
  map (fun item =>
         {| item_type := "sku"; item_parent := li_sku item; item_quantity := li_quantity item |})
      (lineItems s).

Fixpoint includes (s sub : string) : bool :=
  if String.prefix sub s then true
  else match s with
       | String _ s' => includes s' sub
       | EmptyString => false
       end.

(** Retrieve the configuration from the API. *)
Definition getConfig : Task (Result Config) :=
  try_catch
    (let* response := fetch GET_config in
     let* config := await_json response in
     let* _ := (if includes (stripePublishableKey config) "live"
                then update_document (set_demo_display "none")
                else Ret tt) in
     let* _ := update_this (set_config (Some config)) in
     Ret (RData config))
    (fun err => Ret (RError (VString (message err)))).

(** [product.skus = skus] *)
Definition set_product_skus (skus : Skus) (p : Product) : Product :=
  {| product_id := product_id p; product_name := product_name p; product_skus := Some skus |}.

(** Retrieve the SKUs of a product. *)
Definition loadSkus (product_id : string) : Task (Result unit) :=
  try_catch
    (let* response := fetch (GET_product_skus product_id) in
     let* skus := await_json response in
     let* s := this in
     match obj_get product_id (products s) with
     | None => Throw (TypeError "Cannot set properties of undefined (setting 'skus')")
     | Some p =>
         let* _ := update_this (fun s =>
                     set_products (obj_set product_id (set_product_skus skus p) (products s)) s) in
         Ret RUndefined
     end)
    (fun err => Ret (RError (VString (message err)))).

(** [new Promise(async resolve => ...)]: the promise is created pending,
    the executor runs up to its first [await]; an exception in the
    asynchronous executor settles nothing. *)
Definition new_Promise (executor : nat -> Task unit) : Task nat :=
  Get (fun h =>
    let p := length (promises h) in
    Modify (with_promises (fun l => l ++ [false])) (Spawn (executor p) (Ret p))).

Definition resolve (p : nat) : Task unit :=
  Modify (with_promises (fun l => <[p := true]> l)) (Ret tt).

(** [await x] where [x] is a promise or null. *)
Definition await (x : option nat) : Task unit :=
  match x with
  | Some p => Await p (Ret tt)
  | None => Ret tt
  end.

(** The [for (const product of products)] loop of [loadProducts]. *)
Fixpoint loadProducts_each (prods : list Product) : Task unit :=
  match prods with
  | [] => Ret tt
  | product :: rest =>
      let* _ := update_this (fun s =>
                  set_products (obj_set (product_id product) product (products s)) s) in
      let* _ := update_this (fun s =>
                  set_quantity (<[product_id product := Int 0]> (quantity s)) s) in
      let* _ := match product_skus product with
                | None => let* _ := loadSkus (product_id product) in Ret tt
                | Some _ => Ret tt
                end in
      loadProducts_each rest
  end.

Definition loadProducts_executor (p : nat) : Task unit :=
  let* productsResponse := fetch GET_products in
  let* body := await_json productsResponse in
  let prods := list_data body in
  match prods with
  | [] => Throw (JS.Error
      "No products on Stripe account! Make sure the setup script has run properly.")
  | _ :: _ =>
      let* _ := loadProducts_each prods in
      resolve p
  end.

(** Load the product details. *)
Definition loadProducts : Task (option nat) :=
  let* s := this in
  let* _ := match productsFetchPromise s with
            | None =>
                let* p := new_Promise loadProducts_executor in
                update_this (set_productsFetchPromise (Some p))
            | Some _ => Ret tt
            end in
  let* s := this in
  Ret (productsFetchPromise s).

(** Create the PaymentIntent with the cart details. *)
Definition createPaymentIntent (currency : string) (items : list Item) : Task (Result Value) :=
  if forallb (fun i => negb (truthy (item_quantity i))) items then
    (* skip when all quantity of items are zero *)
    Ret RUndefined
  else
    try_catch
      (let* response := fetch (POST_payment_intents currency items) in
       let* data := await_json response in
       let* intent := liftR (get_field data "paymentIntent") in
       let* _ := update_this (set_paymentIntent intent) in
       let* error := liftR (get_field data "error") in
       if truthy_value error then Ret (RError error) else Ret (RData data))
      (fun err => Ret (RError (VString (message err)))).

Definition updatePaymentIntentWithShippingCost
    (paymentIntent : Value) (items : list Item) (shippingOption : Value)
  : Task (Result Value) :=
  try_catch
    (let* response := fetch (POST_shipping_change paymentIntent items shippingOption) in
     let* data := await_json response in
     let* error := liftR (get_field data "error") in
     if truthy_value error then Ret (RError error) else Ret (RData data))
    (fun err => Ret (RError (VString (message err)))).

(** Format a price (assuming a two-decimal currency like EUR or USD). *)
Definition formatPrice (amount : Number) (currency : option string) : Res string :=
  let price := toFixed2 amount in
  format currency price.

(** [document.getElementById] for [quantity-input-<id>] and [price-<id>]:
    the first line-item block rendered for [id], or null. *)
Definition getElementById (id : string) (d : Dom) : option LineItemElement :=
  List.find (fun el => String.eqb (el_product el) id) (order_items d).

Fixpoint update_first {A} (p : A -> bool) (f : A -> A) (l : list A) : list A :=
  match l with
  | [] => []
  | x :: l' => if p x then f x :: l' else x :: update_first p f l'
  end.

Definition set_el_price (text : string) (el : LineItemElement) : LineItemElement :=
  {| el_product := el_product el; el_name := el_name el; el_value := el_value el;
     el_count := el_count el; el_price := text; el_sku := el_sku el |}.

Definition set_el_value (v : string) (el : LineItemElement) : LineItemElement :=
  {| el_product := el_product el; el_name := el_name el; el_value := v;
     el_count := el_count el; el_price := el_price el; el_sku := el_sku el |}.

(** [priceElement.innerText = text] *)
Definition set_price_text (id text : string) (d : Dom) : Dom :=
  set_order_items
    (update_first (fun el => String.eqb (el_product el) id) (set_el_price text) (order_items d)) d.

Definition rerenderTotal (currency : option string) : Task string :=
  let* s := this in
  let* paymentTotal := liftR (getPaymentTotal s) in
  let* displayTotal := liftR (formatPrice (or_zero (Some paymentTotal)) currency) in
  let* _ := update_document (set_data_subtotal displayTotal) in
  let* _ := update_document (set_data_total displayTotal) in
  Ret displayTotal.

Definition updateButtonLabel (amount : string) : Task unit :=
  let label := "Pay " +:+ amount in
  update_document (set_submit_label label).

(** The value of a number input whose [value] attribute is [${q}]: the
    text [toString] gives for a finite number; [undefined], [NaN] and
    [Infinity] are no valid floating-point numbers and leave the input
    empty. *)
Definition number_attribute (q : option Number) : string :=
  match q with
  | Some (Int z) => to_string (Int z)
  | _ => ""
  end.

(** The loop of [displayPaymentSummary] over [Object.entries(this.products)]. *)
Fixpoint displayPaymentSummary_each (es : list (string * Product)) (currency : option string)
  : Task (option string) :=
  match es with
  | [] => Ret currency
  | (id, product) :: rest =>
      let* s := this in
      let quantity_ := quantity s !! id in
      let* sku := liftR (first_sku product "price") in
      let* skuPrice := liftR (formatPrice (price_of sku) (Some (sku_currency sku))) in
      let* lineItemPrice :=
        liftR (formatPrice (mul (price_of sku) (to_number quantity_))
                           (Some (sku_currency sku))) in
      let lineItem :=
        {| el_product := product_id product;
           el_name := product_name product;
           el_value := number_attribute (quantity s !! product_id product);
           el_count := " x " +:+ skuPrice;
           el_price := lineItemPrice;
           el_sku := sku_description sku |} in
      let* _ := update_document (fun d => set_order_items (order_items d ++ [lineItem]) d) in
      let* _ := update_this (fun s =>
                  set_lineItems
                    (lineItems s ++ [{| li_product := product_id product;
                                        li_sku := sku_id sku;
                                        li_quantity := quantity_ |}]) s) in
      displayPaymentSummary_each rest (Some (sku_currency sku))
  end.

(** Manipulate the DOM to display the payment summary on the right panel. *)
Definition displayPaymentSummary : Task unit :=
  let* promise := loadProducts in
  let* _ := await promise in
  let* s := this in
  let* currency := displayPaymentSummary_each (entries (products s)) None in
  let* _ := rerenderTotal currency in
  Ret tt.

(** The loop of [updateTotal] over [Object.entries(this.products)]. *)
Fixpoint updateTotal_each (es : list (string * Product)) (currency : option string)
  : Task (option string) :=
  match es with
  | [] => Ret currency
  | (id, product) :: rest =>
      let* sku := liftR (first_sku product "currency") in
      let* s := this in
      let quantity_ := quantity s !! id in
      let currency := Some (sku_currency sku) in
      let* d := document in
      let priceElement := getElementById id d in
      let itemTotal := mul (price_of sku) (to_number quantity_) in
      let* displayItemTotal := liftR (formatPrice (or_zero (Some itemTotal)) currency) in
      let* _ := match priceElement with
                | Some _ => update_document (set_price_text id displayItemTotal)
                | None =>
                    Throw (TypeError "Cannot set properties of null (setting 'innerText')")
                end in
      updateTotal_each rest currency
  end.

Definition updateTotal : Task unit :=
  let* s := this in
  let* currency := updateTotal_each (entries (products s)) None in
  let* displayedTotal := rerenderTotal currency in
  updateButtonLabel displayedTotal.

Definition set_li_quantity (q : option Number) (item : LineItem) : LineItem :=
  {| li_product := li_product item; li_sku := li_sku item; li_quantity := q |}.

Definition updateQuantity (id : string) : Task unit :=
  let* d := document in
  let* input := match getElementById id d with
                | Some el => Ret el
                | None => Throw (TypeError "Cannot read properties of null (reading 'value')")
                end in
  let quantity_ := parseInt (el_value input) in
  let* _ := update_this (fun s =>
              set_quantity (<[id := or_zero (Some quantity_)]> (quantity s)) s) in
  (* targetItem = this.lineItems.find(...); if (targetItem) targetItem.quantity = quantity *)
  let* _ := update_this (fun s =>
              set_lineItems
                (update_first (fun item => String.eqb (li_product item) id)
                              (set_li_quantity (Some quantity_)) (lineItems s)) s) in
  let* _ := updateTotal in
  (* create payment intent whenever quantity is changed *)
  let* s := this in
  let* cfg := match config s with
              | Some c => Ret c
              | None => Throw (TypeError "Cannot read properties of null (reading 'currency')")
              end in
  let items := getLineItems s in
  Spawn (let* _ := createPaymentIntent (config_currency cfg) items in Ret tt) (Ret tt).

Definition console_error (line : string) : Task unit :=
  Modify (with_console (fun l => l ++ [line])) (Ret tt).

Definition createCharge (token metadata : Value) : Task (Result Value) :=
  let* s := this in
  let* amount := liftR (getPaymentTotal s) in
  try_catch (A := Result Value)
    (let* s := this in
     let* cfg := match config s with
                 | Some c => Ret c
                 | None =>
                     Throw (TypeError "Cannot read properties of null (reading 'currency')")
                 end in
     let* response := fetch (POST_charges token amount (config_currency cfg) metadata) in
     let* result := await_json (T := Value) response in
     Ret (RData result))
    (fun e =>
       let* _ := console_error "failed to create a charge" in
       Ret RUndefined).

(** The object before the constructor has assigned its fields. *)
Definition blank : Heap :=
  {| store := {| lineItems := []; products := []; quantity := ∅; config := None;
                 productsFetchPromise := None; paymentIntent := VUndefined |};
     dom := {| demo_display := ""; order_items := []; data_subtotal := "";
               data_total := ""; submit_label := "" |};
     requests := []; promises := []; console := [] |}.

(** [window.store = new Store()] *)
Definition constructor : Task unit :=
  let* _ := update_this (set_lineItems []) in
  let* _ := update_this (set_products []) in
  let* _ := update_this (set_quantity ∅) in
  let* _ := update_this (set_config None) in
  let* _ := update_this (set_productsFetchPromise None) in
  Spawn displayPaymentSummary (update_this (set_paymentIntent VNull)).

(** ** The event loop

    One thread: an event runs a piece of code to its next suspension
    point.  The events are a user edit of a quantity input, the settling
    of a pending request, the resumption of code waiting for a resolved
    promise, and a method call from another script of the page. *)

Record World := {
  heap : Heap;
  jobs : list Job   (* suspended asynchronous calls *)
}.

(** Run [t] as a macrotask.  An exception that reaches the top is reported
    by the browser and otherwise lost; what was written stays written. *)
Definition run (t : Task unit) (w : World) : World :=
  let r := exec t (heap w) in
  {| heap := heap_after r;
     jobs := jobs w ++ spawned r ++ suspended (outcome r) |}.

(** How the network settles a request: by endpoint, a payload of the
    endpoint's type. *)
Inductive Answer :=
| AConfig (r : Settled (Response Config))
| AProducts (r : Settled (Response ProductList))
| ASkus (r : Settled (Response Skus))
| AValue (r : Settled (Response Value)).

Definition answer_for (req : Request) (a : Answer)
  : option (Settled (Response (Payload req))) :=
  match req return option (Settled (Response (Payload req))) with
  | GET_config => match a with AConfig r => Some r | _ => None end
  | GET_products => match a with AProducts r => Some r | _ => None end
  | GET_product_skus _ => match a with ASkus r => Some r | _ => None end
  | POST_payment_intents _ _ => match a with AValue r => Some r | _ => None end
  | POST_shipping_change _ _ _ => match a with AValue r => Some r | _ => None end
  | POST_charges _ _ _ _ => match a with AValue r => Some r | _ => None end
  end.

Inductive Call :=
| call_getConfig
| call_loadSkus (product_id : string)
| call_loadProducts
| call_createPaymentIntent (currency : string) (items : list Item)
| call_updatePaymentIntentWithShippingCost
    (paymentIntent : Value) (items : list Item) (shippingOption : Value)
| call_displayPaymentSummary
| call_updateQuantity (id : string)
| call_updateTotal
| call_rerenderTotal (currency : option string)
| call_updateButtonLabel (amount : string)
| call_createCharge (token metadata : Value).

Definition discard {A} (t : Task A) : Task unit := let* _ := t in Ret tt.

Definition call_task (c : Call) : Task unit :=
  match c with
  | call_getConfig => discard getConfig
  | call_loadSkus id => discard (loadSkus id)
  | call_loadProducts => discard loadProducts
  | call_createPaymentIntent currency items => discard (createPaymentIntent currency items)
  | call_updatePaymentIntentWithShippingCost intent items option_ =>
      discard (updatePaymentIntentWithShippingCost intent items option_)
  | call_displayPaymentSummary => displayPaymentSummary
  | call_updateQuantity id => updateQuantity id
  | call_updateTotal => updateTotal
  | call_rerenderTotal currency => discard (rerenderTotal currency)
  | call_updateButtonLabel amount => updateButtonLabel amount
  | call_createCharge token metadata => discard (createCharge token metadata)
  end.

Inductive Event :=
| Input (id raw : string)
| Settle (i : nat) (a : Answer)
| Wake (i : nat)
| External (c : Call).

(** The user types [raw] into [quantity-input-<id>]; its [oninput]
    handler is [store.updateQuantity('<id>')]. *)
Definition set_input_value (id raw : string) (d : Dom) : Dom :=
  set_order_items
    (update_first (fun el => String.eqb (el_product el) id) (set_el_value raw) (order_items d)) d.

Definition without_job (i : nat) (w : World) : World :=
  {| heap := heap w; jobs := delete i (jobs w) |}.

(** [None]: the event cannot happen in [w]. *)
Definition fire (e : Event) (w : World) : option World :=
  match e with
  | Input id raw =>
      match getElementById id (dom (heap w)) with
      | Some _ =>
          Some (run (updateQuantity id)
                    {| heap := with_dom (set_input_value id raw) (heap w); jobs := jobs w |})
      | None => None
      end
  | Settle i a =>
      match jobs w !! i with
      | Some (JFetch req k) =>
          match answer_for req a with
          | Some r => Some (run (k r) (without_job i w))
          | None => None
          end
      | _ => None
      end
  | Wake i =>
      match jobs w !! i with
      | Some (JPromise p k) =>
          match promises (heap w) !! p with
          | Some true => Some (run k (without_job i w))
          | _ => None
          end
      | _ => None
      end
  | External c => Some (run (call_task c) w)
  end.

(** The page after its script has run [window.store = new Store()]. *)
Definition boot : World := run constructor {| heap := blank; jobs := [] |}.

Inductive reachable : World -> Prop :=
| reachable_boot : reachable boot
| reachable_fire e w w' : reachable w -> fire e w = Some w' -> reachable w'.

(** ** What the specification says, in its own words *)

(** The integer a quantity stands for; input that is not a number counts
    as zero (spec, section 3). *)
Definition quantity_value (q : option Number) : Z :=
  match q with
  | Some (Int z) => z
  | _ => 0
  end.

(** "sku[p].price", "exactly one SKU per product is used (skus[0])": the
    price of the first SKU of the product stored under [id], read off the
    catalog. *)
Definition first_sku_price (catalog : JsObject Product) (id : string) : option Z :=
  match obj_get id catalog with
  | Some product =>
      match product_skus product with
      | Some skus =>
          match skus_data skus with
          | sku :: _ => Some (sku_price sku)
          | [] => None
          end
      | None => None
      end
  | None => None
  end.

(** "the sum of quantity x unit price across all line items", in the
    integers. *)
Definition line_total (catalog : JsObject Product) (item : LineItem) : Z :=
  quantity_value (li_quantity item) * default 0 (first_sku_price catalog (li_product item)).

Definition sum_of_line_items (catalog : JsObject Product) (items : list LineItem) : Z :=
  fold_right Z.add 0 (map (line_total catalog) items).

(** The range in which doubles compute that sum exactly: every line item
    names a product of the catalog with a first SKU, its quantity is not
    an infinity, its price is a safe integer, and the magnitudes of the
    line totals add up to a safe integer. *)
Definition exact_item (catalog : JsObject Product) (item : LineItem) : Prop :=
  (exists price,
     first_sku_price catalog (li_product item) = Some price
     /\ Z.abs price <= max_safe_integer)
  /\ forall negative, li_quantity item <> Some (Inf negative).

Definition magnitude (catalog : JsObject Product) (items : list LineItem) : Z :=
  fold_right Z.add 0 (map (fun item => Z.abs (line_total catalog item)) items).

Definition exact_range (catalog : JsObject Product) (items : list LineItem) : Prop :=
  Forall (exact_item catalog) items /\ magnitude catalog items <= max_safe_integer.

(** ** Settling a suspended call *)

(** A failed network call: [fetch] rejects, or the response arrives and
    [response.json()] rejects. *)
Definition failed {T} (e : Exn) (at_json : bool) : Settled (Response T) :=
  if at_json then Resolves {| json := Rejects e |} else Rejects e.

Definition respond {T} (v : T) : Settled (Response T) :=
  Resolves {| json := Resolves v |}.

(** Resume a call suspended on a request, in heap [h], with a failure. *)
Definition fail_request {A} (o : Outcome A) (e : Exn) (at_json : bool) (h : Heap)
  : option (Run A) :=
  match o with
  | OnFetch req k => Some (exec (k (failed e at_json)) h)
  | _ => None
  end.

(** Resume a call suspended on a request, in heap [h], with an answer. *)
Definition settle {A} (o : Outcome A) (a : Answer) (h : Heap) : option (Run A) :=
  match o with
  | OnFetch req k =>
      match answer_for req a with
      | Some r => Some (exec (k r) h)
      | None => None
      end
  | _ => None
  end.

Definition finished {A} (h : Heap) (a : A) : Run A :=
  {| heap_after := h; spawned := []; outcome := Returned a |}.

(** ** A sample session

    One product with a single SKU at 1000 usd.  The catalog arrives, the
    summary is rendered, the page's script fetches the configuration. *)

Definition shirt_sku : Sku :=
  {| sku_id := "sku_shirt"; sku_price := 1000; sku_currency := "usd";
     sku_description := "Small" |}.

Definition shirt : Product :=
  {| product_id := "shirt"; product_name := "Shirt";
     product_skus := Some {| skus_data := [shirt_sku] |} |}.

Definition test_config : Config :=
  {| stripePublishableKey := "pk_test_123"; config_currency := "usd" |}.

Definition page_ready : list Event :=
  [ Settle 0 (AProducts (respond {| list_data := [shirt] |}));
    Wake 0;
    External call_getConfig;
    Settle 0 (AConfig (respond test_config)) ].

(** A second product, served without its SKUs; when they cannot be
    loaded, [displayPaymentSummary] renders the first product and throws
    at the second. *)
Definition pins : Product :=
  {| product_id := "pins"; product_name := "Pins"; product_skus := None |}.

Definition half_rendered : list Event :=
  [ Settle 0 (AProducts (respond {| list_data := [shirt; pins] |}));
    Settle 1 (ASkus (Rejects (TypeError "Failed to fetch")));
    Wake 0;
    External call_getConfig;
    Settle 0 (AConfig (respond test_config)) ].

(** A product whose price, a JSON number of 1024 bits, is read as
    Infinity. *)
Definition gem : Product :=
  {| product_id := "gem"; product_name := "Gem";
     product_skus := Some {| skus_data := [ {| sku_id := "sku_gem"; sku_price := 2 ^ 1024;
                                               sku_currency := "usd";
                                               sku_description := "Large" |} ] |} |}.

Definition gem_shown : list Event :=
  [ Settle 0 (AProducts (respond {| list_data := [gem] |})); Wake 0 ].

(** The world after [evs] (an event that cannot happen ends the run), and
    whether every event of [evs] can happen in turn. *)
Fixpoint after (evs : list Event) (w : World) : World :=
  match evs with
  | [] => w
  | e :: evs' =>
      match fire e w with
      | Some w' => after evs' w'
      | None => w
      end
  end.

Fixpoint enabled (evs : list Event) (w : World) : bool :=
  match evs with
  | [] => true
  | e :: evs' =>
      match fire e w with
      | Some w' => enabled evs' w'
      | None => false
      end
  end.

(** ** The effect of an edit *)

(** What [updateQuantity] writes to the controller: the coerced quantity
    in the map, the parsed quantity in the first line item of the
    product.  The page is re-rendered as far as [updateTotal] gets, and at
    most one request is issued. *)
Definition edited (id : string) (q : Number) (s : Store) : Store :=
  set_lineItems
    (update_first (fun item => String.eqb (li_product item) id)
                  (set_li_quantity (Some q)) (lineItems s))
    (set_quantity (<[id := or_zero (Some q)]> (quantity s)) s).

(** ** A page that can be re-rendered *)

(** The currency [updateTotal] ends its loop with. *)
Definition last_currency (es : list (string * Product)) (c : option string) : option string :=
  fold_left
    (fun c e =>
       match first_sku (snd e) "currency" with
       | Ok sku => Some (sku_currency sku)
       | Raise _ => c
       end)
    es c.

Definition present {A} (o : option A) : bool :=
  match o with
  | Some _ => true
  | None => false
  end.

(** The product has a first SKU in a well-formed currency, and its price
    element is on the page. *)
Definition entry_ok (d : Dom) (e : string * Product) : bool :=
  match first_sku (snd e) "currency" with
  | Ok sku =>
      well_formed_currency (sku_currency sku)
      && present (getElementById (fst e) d)
  | Raise _ => false
  end.

Definition priced (s : Store) (item : LineItem) : bool :=
  match unit_price s (li_product item) with
  | Ok _ => true
  | Raise _ => false
  end.

(** The line item is priced, and at a finite price. *)
Definition finite_price (s : Store) (item : LineItem) : bool :=
  match unit_price s (li_product item) with
  | Ok (Int _) => true
  | _ => false
  end.

(** The state [displayPaymentSummary] leaves when it succeeds: a catalog
    that is not empty, every product rendered, every line item priced. *)
Definition renderable (h : Heap) : bool :=
  let es := entries (products (store h)) in
  match es with [] => false | _ :: _ => true end
  && forallb (entry_ok (dom h)) es
  && forallb (priced (store h)) (lineItems (store h)).

Definition all_zero (items : list Item) : bool :=
  forallb (fun i => negb (truthy (item_quantity i))) items.

(** ** Rendering code

    [renders t]: [t] is synchronous and writes to the page only. *)

Inductive renders : forall A, Task A -> Prop :=
| renders_Ret A (a : A) : renders A (Ret a)
| renders_Throw A e : renders A (Throw e)
| renders_Get A k : (forall h, renders A (k h)) -> renders A (Get k)
| renders_Modify A f k : renders A k -> renders A (Modify (with_dom f) k).
Arguments renders {A} t.

(** ** Invariants of the event loop

    [preserves P t]: started in a heap that satisfies [P], the task [t]
    keeps [P] at every write and at every request, now and whenever it is
    resumed. *)

Inductive preserves (P : Heap -> Prop) : forall A, Task A -> Prop :=
| preserves_Ret A (a : A) : preserves P A (Ret a)
| preserves_Throw A e : preserves P A (Throw e)
| preserves_Get A k : (forall h, P h -> preserves P A (k h)) -> preserves P A (Get k)
| preserves_Modify A f k :
    (forall h, P h -> P (f h)) -> preserves P A k -> preserves P A (Modify f k)
| preserves_Fetch A req k :
    (forall h, P h -> P (with_requests (fun l => l ++ [req]) h)) ->
    (forall r, preserves P A (k r)) ->
    preserves P A (Fetch req k)
| preserves_Await A p k : preserves P A k -> preserves P A (Await p k)
| preserves_Spawn A t k :
    preserves P unit t -> preserves P A k -> preserves P A (Spawn t k).
Arguments preserves P {A} t.

Definition job_ok (P : Heap -> Prop) (j : Job) : Prop :=
  match j with
  | JFetch req k => forall r, preserves P (k r)
  | JPromise p k => preserves P k
  end.

Definition outcome_ok (P : Heap -> Prop) {A} (o : Outcome A) : Prop :=
  match o with
  | OnFetch req k => forall r, preserves P (k r)
  | OnPromise p k => preserves P k
  | Returned _ | Threw _ => True
  end.

Definition world_ok (P : Heap -> Prop) (w : World) : Prop :=
  P (heap w) /\ Forall (job_ok P) (jobs w).

(** What an invariant has to be stable under: the writes of the methods
    other than [loadProducts], which alone fetches the catalog and writes
    the memoized promise. *)
Record stable (P : Heap -> Prop) : Prop := {
  stable_dom : forall f h, P h -> P (with_dom f h);
  stable_console : forall f h, P h -> P (with_console f h);
  stable_promises : forall f h, P h -> P (with_promises f h);
  stable_requests :
    forall req h, req <> GET_products -> P h -> P (with_requests (fun l => l ++ [req]) h);
  stable_lineItems :
    forall f h, P h -> P (with_store (fun s => set_lineItems (f s) s) h);
  stable_products :
    forall f h, P h -> P (with_store (fun s => set_products (f s) s) h);
  stable_quantity :
    forall id n h,
      n <> NaN ->
      P h -> P (with_store (fun s => set_quantity (<[id := n]> (quantity s)) s) h);
  stable_config : forall c h, P h -> P (with_store (set_config c) h);
  stable_paymentIntent : forall v h, P h -> P (with_store (set_paymentIntent v) h)
}.

(** ** A first edit, answered by the backend *)

Definition intent_created : Value :=
  VObject [("paymentIntent", VObject [("id", VString "pi_1"); ("amount", VNumber (Int 1000))])].

Definition first_edit : list Event :=
  page_ready ++ [Input "shirt" "1"; Settle 0 (AValue (respond intent_created))].

(** ** Predicates on the heap *)

Definition number_quantities (h : Heap) : Prop :=
  forall id q, quantity (store h) !! id = Some q -> q <> NaN.

Definition catalog_requests (h : Heap) : nat :=
  length (List.filter (fun r => match r with GET_products => true | _ => false end)
                      (requests h)).

Definition memoized (h : Heap) : Prop :=
  productsFetchPromise (store h) <> None /\ catalog_requests h = 1%nat.

(** ** Notions for the further properties *)

(** The request a suspended call waits for. *)
Definition awaiting {A} (o : Outcome A) : option Request :=
  match o with
  | OnFetch req _ => Some req
  | _ => None
  end.

(** Resume a call suspended on a promise, in heap [h]. *)
Definition wake {A} (o : Outcome A) (h : Heap) : option (Run A) :=
  match o with
  | OnPromise p k => Some (exec k h)
  | _ => None
  end.

(** A quantity the controller treats as none: undefined, NaN or 0. *)
Definition no_quantity (q : option Number) : Prop :=
  q = None \/ q = Some NaN \/ q = Some (Int 0).

(** A quantity the controller treats as one: a number other than NaN
    and 0, the infinities included. *)
Definition some_quantity (q : option Number) : Prop :=
  (exists z, q = Some (Int z) /\ z <> 0) \/ (exists negative, q = Some (Inf negative)).

(** The catalog has arrived and is on the page; the configuration has not
    been asked for. *)
Definition catalog_shown : list Event :=
  [ Settle 0 (AProducts (respond {| list_data := [shirt] |}));
    Wake 0 ].

(** What the loop of [loadProducts] writes for one product, and for a
    list of products. *)
Definition record_product (s : Store) (product : Product) : Store :=
  set_quantity (<[product_id product := Int 0]> (quantity s))
    (set_products (obj_set (product_id product) product (products s)) s).

Definition recorded (prods : list Product) (s : Store) : Store :=
  fold_left record_product prods s.

Definition has_skus (product : Product) : bool := present (product_skus product).

(** What the user has typed: the inputs of the page with their values. *)
Definition inputs (d : Dom) : list (string * string) :=
  map (fun el => (el_product el, el_value el)) (order_items d).

(** What an invariant of the page has to be stable under for the code
    that repaints it: writes to the controller and the logs, the price
    texts, the totals and the button label. *)
Record repaint_stable (P : Heap -> Prop) : Prop := {
  repaint_store : forall f h, P h -> P (with_store f h);
  repaint_requests : forall f h, P h -> P (with_requests f h);
  repaint_price : forall id text h, P h -> P (with_dom (set_price_text id text) h);
  repaint_subtotal : forall text h, P h -> P (with_dom (set_data_subtotal text) h);
  repaint_total : forall text h, P h -> P (with_dom (set_data_total text) h);
  repaint_label : forall text h, P h -> P (with_dom (set_submit_label text) h)
}.

(** The part of the heap [updateTotal] has no business with. *)
Definition unpainted (h : Heap) : Store * list Request * list bool * list string
                                  * list (string * string) * string :=
  (store h, requests h, promises h, console h, inputs (dom h), demo_display (dom h)).

(** The line item [displayPaymentSummary] pushes for an entry of the
    catalog. *)
Definition line_item_of (s : Store) (e : string * Product) : LineItem :=
  {| li_product := product_id (snd e);
     li_sku := match first_sku (snd e) "price" with
               | Ok sku => sku_id sku
               | Raise _ => ""
               end;
     li_quantity := quantity s !! fst e |}.

(** An entry of the catalog that can be displayed: it is stored under the
    id of its product, the product has a first SKU in a well-formed
    currency, and the id leads to a priced product. *)
Definition listed (s : Store) (e : string * Product) : bool :=
  String.eqb (product_id (snd e)) (fst e)
  && match first_sku (snd e) "price" with
     | Ok sku => well_formed_currency (sku_currency sku)
     | Raise _ => false
     end
  && match unit_price s (fst e) with
     | Ok _ => true
     | Raise _ => false
     end.

(** A product id that is not an array index: [Object.entries] lists such
    keys in the order of their creation. *)
Definition plain_id (id : string) : bool :=
  match array_index id with
  | None => true
  | Some _ => false
  end.

(** A product the summary can show: it carries a first SKU in a
    well-formed currency. *)
Definition sellable (product : Product) : bool :=
  match first_sku product "price" with
  | Ok sku => well_formed_currency (sku_currency sku)
  | Raise _ => false
  end.

(** The line item of a product that has just been loaded. *)
Definition first_line_item (product : Product) : LineItem :=
  {| li_product := product_id product;
     li_sku := match first_sku product "price" with
               | Ok sku => sku_id sku
               | Raise _ => ""
               end;
     li_quantity := Some (Int 0) |}.

(** The number a string of decimal digits denotes, read from the left. *)
Fixpoint uint_value (acc : Z) (u : Decimal.uint) : Z :=
  match u with
  | Decimal.Nil => acc
  | Decimal.D0 u => uint_value (10 * acc + 0) u
  | Decimal.D1 u => uint_value (10 * acc + 1) u
  | Decimal.D2 u => uint_value (10 * acc + 2) u
  | Decimal.D3 u => uint_value (10 * acc + 3) u
  | Decimal.D4 u => uint_value (10 * acc + 4) u
  | Decimal.D5 u => uint_value (10 * acc + 5) u
  | Decimal.D6 u => uint_value (10 * acc + 6) u
  | Decimal.D7 u => uint_value (10 * acc + 7) u
  | Decimal.D8 u => uint_value (10 * acc + 8) u
  | Decimal.D9 u => uint_value (10 * acc + 9) u
  end.

(** ** A page whose catalog never arrives *)

(** The promise of [loadProducts] is stored and pending, and nothing of
    the catalog has been recorded or rendered. *)
Definition stalled (p : nat) (h : Heap) : Prop :=
  productsFetchPromise (store h) = Some p
  /\ promises h !! p = Some false
  /\ products (store h) = []
  /\ lineItems (store h) = []
  /\ order_items (dom h) = [].

(** A suspended call that cannot end the stall: it waits for the pending
    promise, or whatever it does when resumed keeps the stall. *)
Definition job_stalled (p : nat) (j : Job) : Prop :=
  match j with
  | JFetch req k => forall r, preserves (stalled p) (k r)
  | JPromise q k => q = p \/ preserves (stalled p) k
  end.

Definition world_stalled (p : nat) (w : World) : Prop :=
  stalled p (heap w) /\ Forall (job_stalled p) (jobs w).

(** The worlds that follow a world. *)
Inductive follows (w0 : World) : World -> Prop :=
| follows_here : follows w0 w0
| follows_fire e w w' : follows w0 w -> fire e w = Some w' -> follows w0 w'.

(** The catalog arrives empty. *)
Definition empty_catalog : list Event :=
  [ Settle 0 (AProducts (respond {| list_data := [] |})) ].

(** * Properties *)

(** ** The JavaScript substrate on examples *)

Example parseInt_3 : parseInt "3" = Int 3. Proof. reflexivity. Qed.
Example parseInt_neg : parseInt "-3" = Int (-3). Proof. reflexivity. Qed.
Example parseInt_float : parseInt "1.5e3" = Int 1. Proof. reflexivity. Qed.
Example parseInt_empty : parseInt "" = NaN. Proof. reflexivity. Qed.
Example parseInt_text : parseInt "abc" = NaN. Proof. reflexivity. Qed.
Example parseInt_hex : parseInt " 0x1f" = Int 31. Proof. reflexivity. Qed.
Example toFixed2_3000 : toFixed2 (Int 3000) = "3000.00". Proof. reflexivity. Qed.
Example round_double_odd : round_double (2 ^ 53 + 1) = Int (2 ^ 53).
Proof. vm_compute. reflexivity. Qed.
Example round_double_overflow : round_double (10 ^ 309) = Inf false.
Proof. vm_compute. reflexivity. Qed.
Example mul_zero_infinity : mul (Int 0) (Inf false) = NaN. Proof. reflexivity. Qed.
Example to_string_2_60 : to_string (Int (2 ^ 60)) = "1152921504606847000".
Proof. vm_compute. reflexivity. Qed.
Example to_string_2_70 : to_string (Int (2 ^ 70)) = "1.1805916207174113e+21".
Proof. vm_compute. reflexivity. Qed.
Example toFixed2_2_60 : toFixed2 (Int (2 ^ 60)) = "1152921504606846976.00".
Proof. vm_compute. reflexivity. Qed.
Example format_usd : format (Some "usd") "1234567.00" = Ok "$1,234,567.00".
Proof. reflexivity. Qed.
Example format_neg : format (Some "usd") "-30.00" = Ok "-$30.00".
Proof. reflexivity. Qed.
Example format_100 : format (Some "eur") "100.00" = Ok "€100.00".
Proof. reflexivity. Qed.
Example format_NaN : formatPrice NaN (Some "usd") = Ok "$NaN".
Proof. reflexivity. Qed.
Example format_undefined : formatPrice (Int 0) None
  = Raise (TypeError "Currency code is required with currency style.").
Proof. reflexivity. Qed.
Example entries_order :
  map fst (entries [("b", 1); ("10", 2); ("a", 3); ("2", 4); ("01", 5)])
  = ["2"; "10"; "b"; "a"; "01"].
Proof. reflexivity. Qed.

(** ** Running composed tasks *)

Lemma run_eta {A} (r : Run A) :
  {| heap_after := heap_after r; spawned := spawned r; outcome := outcome r |} = r.
Proof. destruct r; reflexivity. Qed.

Lemma exec_bind {A B} (t : Task A) (f : A -> Task B) (h : Heap) :
  exec (bind t f) h =
  let r := exec t h in
  match outcome r with
  | Returned a =>
      let r' := exec (f a) (heap_after r) in
      {| heap_after := heap_after r'; spawned := spawned r ++ spawned r';
         outcome := outcome r' |}
  | Threw e => {| heap_after := heap_after r; spawned := spawned r; outcome := Threw e |}
  | OnFetch req k =>
      {| heap_after := heap_after r; spawned := spawned r;
         outcome := OnFetch req (fun x => bind (k x) f) |}
  | OnPromise p k =>
      {| heap_after := heap_after r; spawned := spawned r;
         outcome := OnPromise p (bind k f) |}
  end.
Proof.
  revert B f h. induction t; intros B g h0; simpl; auto.
  - apply eq_sym, run_eta.
  - rewrite IHt2. simpl.
    destruct (outcome (exec t2 (heap_after (exec t1 h0)))); simpl;
      rewrite <- ?app_assoc; reflexivity.
Qed.

(** A step that neither suspends nor spawns. *)
Lemma exec_bind_finished {A B} (t : Task A) (f : A -> Task B) h h' a :
  exec t h = finished h' a -> exec (bind t f) h = exec (f a) h'.
Proof.
  intros E. rewrite exec_bind, E. simpl. apply run_eta.
Qed.

Lemma exec_bind_threw {A B} (t : Task A) (f : A -> Task B) h h' e :
  exec t h = {| heap_after := h'; spawned := []; outcome := Threw e |} ->
  exec (bind t f) h = {| heap_after := h'; spawned := []; outcome := Threw e |}.
Proof.
  intros E. rewrite exec_bind, E. reflexivity.
Qed.

(** ** Sessions *)

Lemma reachable_after (evs : list Event) (w : World) :
  reachable w -> enabled evs w = true -> reachable (after evs w).
Proof.
  revert w. induction evs as [|e evs IH]; intros w Hw Hrun; simpl in *; [assumption|].
  destruct (fire e w) as [w1|] eqn:Hfire; [|discriminate].
  apply IH; [|assumption]. apply (reachable_fire e w w1); assumption.
Qed.

(** ** createPaymentIntent *)

Lemma all_zero_skips (items : list Item) :
  Forall (fun i => item_quantity i = Some (Int 0)) items ->
  forallb (fun i => negb (truthy (item_quantity i))) items = true.
Proof.
  induction 1 as [|i items Hi _ IH]; simpl.
  - reflexivity.
  - rewrite Hi, IH. reflexivity.
Qed.

(** C7: when every item's quantity is zero, [createPaymentIntent] returns
    (undefined) at once: the heap, which holds the list of requests
    issued, the stored payment intent and every other field of the
    controller and of the page, is unchanged, and nothing is left
    suspended. *)
Theorem createPaymentIntent_all_zero (h : Heap) (currency : string) (items : list Item) :
  Forall (fun i => item_quantity i = Some (Int 0)) items ->
  exec (createPaymentIntent currency items) h = finished h RUndefined.
Proof.
  intros Hzero. unfold createPaymentIntent.
  rewrite (all_zero_skips items Hzero). reflexivity.
Qed.

Lemma createPaymentIntent_all_zero_witness :
  let items := [ {| item_type := "sku"; item_parent := "sku_1"; item_quantity := Some (Int 0) |};
                 {| item_type := "sku"; item_parent := "sku_2"; item_quantity := Some (Int 0) |} ] in
  exec (createPaymentIntent "usd" items) blank = finished blank RUndefined.
Proof.
  intros items. apply (createPaymentIntent_all_zero blank "usd" items).
  repeat constructor.
Defined.

(** C10: the request is issued whenever some item has a quantity; when
    the backend answers it with a payload whose [error] field is truthy,
    the call returns [{error}], and by then [store.paymentIntent] holds
    the payload's [paymentIntent] field ([undefined] when the payload has
    none), whatever it held before: the reference is overwritten
    although the operation failed.  Nothing else is written. *)
Theorem createPaymentIntent_backend_error
    (h h' : Heap) (currency : string) (items : list Item) (data intent error : Value) :
  forallb (fun i => negb (truthy (item_quantity i))) items = false ->
  get_field data "paymentIntent" = Ok intent ->
  get_field data "error" = Ok error ->
  truthy_value error = true ->
  requests (heap_after (exec (createPaymentIntent currency items) h))
    = requests h ++ [POST_payment_intents currency items]
  /\ exists r,
       settle (outcome (exec (createPaymentIntent currency items) h)) (AValue (respond data)) h'
       = Some r
       /\ outcome r = Returned (RError error)
       /\ spawned r = []
       /\ paymentIntent (store (heap_after r)) = intent
       /\ lineItems (store (heap_after r)) = lineItems (store h')
       /\ products (store (heap_after r)) = products (store h')
       /\ quantity (store (heap_after r)) = quantity (store h')
       /\ config (store (heap_after r)) = config (store h')
       /\ productsFetchPromise (store (heap_after r)) = productsFetchPromise (store h')
       /\ dom (heap_after r) = dom h'
       /\ requests (heap_after r) = requests h'
       /\ promises (heap_after r) = promises h'
       /\ console (heap_after r) = console h'.
Proof.
  intros Hsome Hintent Herror Htruthy. unfold createPaymentIntent.
  rewrite Hsome. simpl. split; [reflexivity|].
  rewrite Hintent. simpl. rewrite Herror. simpl. rewrite Htruthy.
  eexists. split; [reflexivity|]. repeat split.
Qed.

Lemma createPaymentIntent_backend_error_witness :
  let items := [ {| item_type := "sku"; item_parent := "sku_1"; item_quantity := Some (Int 2) |} ] in
  let data := VObject [("error", VString "card_declined")] in
  let h' := with_store (set_paymentIntent (VString "pi_1")) blank in
  requests (heap_after (exec (createPaymentIntent "usd" items) blank))
    = requests blank ++ [POST_payment_intents "usd" items]
  /\ exists r,
       settle (outcome (exec (createPaymentIntent "usd" items) blank)) (AValue (respond data)) h'
       = Some r
       /\ outcome r = Returned (RError (VString "card_declined"))
       /\ spawned r = []
       /\ paymentIntent (store (heap_after r)) = VUndefined
       /\ lineItems (store (heap_after r)) = lineItems (store h')
       /\ products (store (heap_after r)) = products (store h')
       /\ quantity (store (heap_after r)) = quantity (store h')
       /\ config (store (heap_after r)) = config (store h')
       /\ productsFetchPromise (store (heap_after r)) = productsFetchPromise (store h')
       /\ dom (heap_after r) = dom h'
       /\ requests (heap_after r) = requests h'
       /\ promises (heap_after r) = promises h'
       /\ console (heap_after r) = console h'.
Proof.
  intros items data h'.
  apply (createPaymentIntent_backend_error blank h' "usd" items data VUndefined
           (VString "card_declined")); reflexivity.
Defined.

(** ** Failing network calls *)




(** [loadProducts] has no handler either: when the request to
    [/products] is rejected the executor ends with the exception, nothing
    is left to resolve the promise, and the promise stays pending. *)
Lemma loadProducts_rejected_stays_pending :
  let w := after [Settle 0 (AProducts (Rejects (TypeError "Failed to fetch")))] boot in
  productsFetchPromise (store (heap w)) = Some 0%nat
  /\ promises (heap w) = [false]
  /\ length (jobs w) = 1%nat
  /\ fire (Wake 0) w = None.
Proof. repeat split; reflexivity. Qed.

(** ** getPaymentTotal *)

Lemma round_double_safe (z : Z) :
  Z.abs z <= max_safe_integer -> round_double z = Int z.
Proof.
  unfold round_double, max_safe_integer. intros H.
  destruct (Z.ltb_spec (Z.abs z) (2 ^ 53)); [reflexivity|lia].
Qed.

Lemma or_zero_finite (q : option Number) :
  (forall negative, q <> Some (Inf negative)) -> or_zero q = Int (quantity_value q).
Proof.
  intros Hfinite. destruct q as [[|z|negative]|]; try reflexivity.
  - unfold or_zero; simpl. destruct (Z.eqb_spec z 0); subst; reflexivity.
  - destruct (Hfinite negative). reflexivity.
Qed.

Lemma or_zero_not_NaN (q : option Number) : or_zero q <> NaN.
Proof.
  destruct q as [[|z|negative]|]; unfold or_zero; simpl; try discriminate.
  destruct (z =? 0); discriminate.
Qed.

Lemma unit_price_first (s : Store) (id : string) (price : Z) :
  first_sku_price (products s) id = Some price ->
  unit_price s id = Ok (round_double price).
Proof.
  unfold first_sku_price, unit_price, first_sku, price_of.
  destruct (obj_get id (products s)) as [product|]; [|discriminate].
  destruct (product_skus product) as [skus|]; [|discriminate].
  destruct (skus_data skus) as [|sku rest]; [discriminate|].
  intros E. inversion E. reflexivity.
Qed.

Lemma sum_of_line_items_app catalog l1 l2 :
  sum_of_line_items catalog (l1 ++ l2)
  = sum_of_line_items catalog l1 + sum_of_line_items catalog l2.
Proof.
  unfold sum_of_line_items. induction l1 as [|x l1 IH]; simpl; [reflexivity|].
  rewrite IH. lia.
Qed.

Lemma magnitude_app catalog l1 l2 :
  magnitude catalog (l1 ++ l2) = magnitude catalog l1 + magnitude catalog l2.
Proof.
  unfold magnitude. induction l1 as [|x l1 IH]; simpl; [reflexivity|].
  rewrite IH. lia.
Qed.

Lemma magnitude_nonneg catalog items : 0 <= magnitude catalog items.
Proof.
  unfold magnitude. induction items as [|x items IH]; simpl; lia.
Qed.

(** The accumulator of the [reduce], as long as it is computed exactly. *)
Lemma reduce_total (s : Store) (items : list LineItem) (acc : Z) :
  Forall (exact_item (products s)) items ->
  Z.abs acc + magnitude (products s) items <= max_safe_integer ->
  fold_left
    (fun acc item =>
       match acc with
       | Raise e => Raise e
       | Ok total =>
           match unit_price s (li_product item) with
           | Ok p => Ok (add total (mul (or_zero (li_quantity item)) p))
           | Raise e => Raise e
           end
       end)
    items (Ok (Int acc))
  = Ok (Int (acc + sum_of_line_items (products s) items)).
Proof.
  revert acc. induction items as [|item items IH]; intros acc Hexact Hrange.
  - simpl. unfold sum_of_line_items; simpl. f_equal. f_equal. lia.
  - apply Forall_cons in Hexact. destruct Hexact as [[(price & Hprice & Hsafe) Hfinite] Hexact].
    pose proof (magnitude_nonneg (products s) items) as Hrest.
    assert (Hitem : line_total (products s) item = quantity_value (li_quantity item) * price).
    { unfold line_total. rewrite Hprice. reflexivity. }
    assert (Hmag : magnitude (products s) (item :: items)
                   = Z.abs (quantity_value (li_quantity item) * price)
                     + magnitude (products s) items).
    { unfold magnitude. simpl. rewrite Hitem. reflexivity. }
    rewrite Hmag in Hrange.
    cbn [fold_left]. rewrite (unit_price_first s _ price Hprice).
    rewrite (round_double_safe price Hsafe), (or_zero_finite _ Hfinite).
    cbn [mul add]. rewrite (round_double_safe (quantity_value (li_quantity item) * price)) by lia.
    cbn [add]. rewrite round_double_safe by lia.
    rewrite IH; [|assumption|lia].
    f_equal. f_equal. unfold sum_of_line_items. simpl. rewrite Hitem. lia.
Qed.

Lemma getPaymentTotal_sum (s : Store) :
  exact_range (products s) (lineItems s) ->
  getPaymentTotal s = Ok (Int (sum_of_line_items (products s) (lineItems s))).
Proof.
  intros [Hexact Hrange]. unfold getPaymentTotal.
  rewrite (reduce_total s (lineItems s) 0 Hexact) by (simpl; lia). reflexivity.
Qed.

(** C1, as the code has it: the total is computed in doubles.  As long as
    every line item names a product of the catalog with a first SKU at a
    safe integer price, no quantity is an infinity and the magnitudes of
    the line totals add up to a safe integer, [getPaymentTotal] returns
    the sum over the line items of quantity times the price of the
    product's first SKU, a quantity that is not a number counting as
    zero; and a line item whose quantity is zero adds nothing: the total
    is the same without it. *)
Theorem getPaymentTotal_is_sum (s : Store) :
  exact_range (products s) (lineItems s) ->
  getPaymentTotal s = Ok (Int (sum_of_line_items (products s) (lineItems s)))
  /\ forall l1 item l2,
       lineItems s = l1 ++ item :: l2 ->
       li_quantity item = Some (Int 0) ->
       getPaymentTotal s = getPaymentTotal (set_lineItems (l1 ++ l2) s).
Proof.
  intros Hrange. split; [apply getPaymentTotal_sum, Hrange|].
  intros l1 item l2 Hsplit Hzero.
  rewrite (getPaymentTotal_sum s Hrange).
  rewrite (getPaymentTotal_sum (set_lineItems (l1 ++ l2) s)).
  - simpl. rewrite Hsplit, !sum_of_line_items_app. do 2 f_equal.
    replace (sum_of_line_items (products s) (item :: l2))
      with (line_total (products s) item + sum_of_line_items (products s) l2) by reflexivity.
    unfold line_total. rewrite Hzero. simpl. lia.
  - destruct Hrange as [Hexact Hmag]. rewrite Hsplit in Hexact, Hmag. simpl. split.
    + apply Forall_app in Hexact. destruct Hexact as [H1 H2]. apply Forall_cons in H2.
      apply Forall_app. split; [exact H1|apply H2].
    + rewrite magnitude_app in *.
      replace (magnitude (products s) (item :: l2))
        with (Z.abs (line_total (products s) item) + magnitude (products s) l2) in Hmag
        by reflexivity.
      lia.
Qed.

Lemma getPaymentTotal_is_sum_witness :
  let s := {| lineItems := [ {| li_product := "shirt"; li_sku := "sku_shirt";
                                li_quantity := Some (Int 3) |};
                             {| li_product := "shirt"; li_sku := "sku_shirt";
                                li_quantity := Some (Int 0) |} ];
              products := [("shirt", shirt)]; quantity := ∅; config := None;
              productsFetchPromise := None; paymentIntent := VNull |} in
  getPaymentTotal s = Ok (Int 3000).
Proof.
  intros s.
  assert (Hrange : exact_range (products s) (lineItems s)).
  { split.
    - repeat constructor; try (intros negative; discriminate);
        exists 1000; (split; [reflexivity|vm_compute; discriminate]).
    - vm_compute. discriminate. }
  exact (proj1 (getPaymentTotal_is_sum s Hrange)).
Defined.

(** C1 as stated fails beyond the safe integers: typing 9007199254740991
    into the quantity input of the sample session (one SKU at 1000) leaves
    a line item whose quantity times price is 9007199254740991000, but
    [getPaymentTotal] returns the nearest double, 9007199254740990976. *)
Lemma total_is_rounded :
  let w := after (page_ready ++ [Input "shirt" "9007199254740991"]) boot in
  reachable w
  /\ lineItems (store (heap w))
     = [ {| li_product := "shirt"; li_sku := "sku_shirt";
            li_quantity := Some (Int 9007199254740991) |} ]
  /\ sum_of_line_items (products (store (heap w))) (lineItems (store (heap w)))
     = 9007199254740991000
  /\ getPaymentTotal (store (heap w)) = Ok (Int 9007199254740990976)
  /\ getPaymentTotal (store (heap w))
     <> Ok (Int (sum_of_line_items (products (store (heap w))) (lineItems (store (heap w))))).
Proof.
  intros w. split; [|split; [|split; [|split]]].
  - apply (reachable_after (page_ready ++ [Input "shirt" "9007199254740991"]) boot
             reachable_boot).
    vm_compute. reflexivity.
  - vm_compute. reflexivity.
  - vm_compute. reflexivity.
  - vm_compute. reflexivity.
  - vm_compute. discriminate.
Qed.

Lemma reduce_raise (s : Store) (items : list LineItem) (e : Exn) :
  fold_left
    (fun acc item =>
       match acc with
       | Raise e => Raise e
       | Ok total =>
           match unit_price s (li_product item) with
           | Ok p => Ok (add total (mul (or_zero (li_quantity item)) p))
           | Raise e => Raise e
           end
       end)
    items (Raise e)
  = Raise e.
Proof. induction items as [|item items IH]; simpl; auto. Qed.

(** The [reduce] returns when every line item is priced, and otherwise
    throws what the first line item without a price throws. *)
Lemma reduce_cases (s : Store) (items : list LineItem) (acc : Number) :
  match
    fold_left
      (fun acc item =>
         match acc with
         | Raise e => Raise e
         | Ok total =>
             match unit_price s (li_product item) with
             | Ok p => Ok (add total (mul (or_zero (li_quantity item)) p))
             | Raise e => Raise e
             end
         end)
      items (Ok acc)
  with
  | Ok n => forallb (priced s) items = true
  | Raise e =>
      exists l1 item l2,
        items = l1 ++ item :: l2
        /\ forallb (priced s) l1 = true
        /\ unit_price s (li_product item) = Raise e
  end.
Proof.
  revert acc. induction items as [|item items IH]; intros acc; simpl; [reflexivity|].
  unfold priced at 1. destruct (unit_price s (li_product item)) as [p|e] eqn:Hp.
  - specialize (IH (add acc (mul (or_zero (li_quantity item)) p))).
    destruct (fold_left _ items _) as [n|e]; [exact IH|].
    destruct IH as (l1 & item' & l2 & -> & Hl1 & He).
    exists (item :: l1), item', l2. repeat split; [|exact He].
    simpl. unfold priced at 1. rewrite Hp. exact Hl1.
  - rewrite reduce_raise. exists [], item, items. repeat split. exact Hp.
Qed.

Lemma getPaymentTotal_priced (s : Store) :
  forallb (priced s) (lineItems s) = true ->
  exists n, getPaymentTotal s = Ok n.
Proof.
  intros Hp. unfold getPaymentTotal.
  pose proof (reduce_cases s (lineItems s) (Int 0)) as H.
  destruct (fold_left _ (lineItems s) _) as [n|e]; [eauto|].
  destruct H as (l1 & item & l2 & Hsplit & _ & He).
  rewrite Hsplit, forallb_app in Hp. apply andb_true_iff in Hp. destruct Hp as [_ Hp].
  simpl in Hp. unfold priced at 1 in Hp. rewrite He in Hp. discriminate.
Qed.

(** ** Rendering code *)

Lemma renders_bind {A B} (t : Task A) (f : A -> Task B) :
  renders t -> (forall a, renders (f a)) -> renders (bind t f).
Proof.
  intros Ht Hf. induction Ht; simpl; try constructor; auto.
Qed.

Lemma renders_liftR {A} (r : Res A) : renders (liftR r).
Proof. destruct r; constructor. Qed.

Lemma renders_this : renders this.
Proof. repeat constructor. Qed.

Lemma renders_document : renders document.
Proof. repeat constructor. Qed.

Lemma renders_update_document f : renders (update_document f).
Proof. repeat constructor. Qed.

Create HintDb renders.
#[local] Hint Resolve renders_liftR renders_this renders_document renders_update_document
  : renders.
#[local] Hint Constructors renders : renders.

Ltac renders_step :=
  first
    [ apply renders_Get; intros ?
    | apply renders_Modify
    | apply renders_bind; [|intros ?]
    | match goal with
      | |- renders (match ?x with _ => _ end) => destruct x
      end
    | solve [auto with renders] ].

Lemma renders_rerenderTotal currency : renders (rerenderTotal currency).
Proof. unfold rerenderTotal. repeat renders_step. Qed.

Lemma renders_updateButtonLabel amount : renders (updateButtonLabel amount).
Proof. unfold updateButtonLabel. auto with renders. Qed.

Lemma renders_updateTotal_each es currency : renders (updateTotal_each es currency).
Proof.
  revert currency. induction es as [|[id product] es IH]; intros currency; simpl.
  - constructor.
  - repeat renders_step.
Qed.

Lemma renders_updateTotal : renders updateTotal.
Proof.
  unfold updateTotal. apply renders_bind; [apply renders_this|intros s].
  apply renders_bind; [apply renders_updateTotal_each|intros currency].
  apply renders_bind; [apply renders_rerenderTotal|intros total].
  apply renders_updateButtonLabel.
Qed.

(** Rendering code runs to completion and leaves everything but the page
    as it was. *)
Lemma renders_exec {A} (t : Task A) (h : Heap) :
  renders t ->
  exists d' res,
    exec t h = {| heap_after := with_dom (fun _ => d') h; spawned := []; outcome := res |}
    /\ ((exists a, res = Returned a) \/ (exists e, res = Threw e)).
Proof.
  intros Ht. revert h. induction Ht; intros h0; simpl.
  - exists (dom h0), (Returned a). split; [destruct h0; reflexivity|eauto].
  - exists (dom h0), (Threw e). split; [destruct h0; reflexivity|eauto].
  - auto.
  - destruct (IHHt (with_dom f h0)) as (d' & res & E & Hres).
    exists d', res. split; [rewrite E; reflexivity|assumption].
Qed.

(** ** updateQuantity *)

Lemma updateQuantity_heap (h : Heap) (id : string) (el : LineItemElement) :
  getElementById id (dom h) = Some el ->
  exists d' rq,
    heap_after (exec (updateQuantity id) h)
    = {| store := edited id (parseInt (el_value el)) (store h); dom := d'; requests := rq;
         promises := promises h; console := console h |}
    /\ (rq = requests h
        \/ exists currency items, rq = requests h ++ [POST_payment_intents currency items]).
Proof.
  intros Hel. unfold updateQuantity.
  pose proof renders_updateTotal as Hut. revert Hut. generalize updateTotal as ut.
  intros ut Hut. simpl. rewrite Hel. simpl.
  rewrite exec_bind.
  match goal with |- context [exec ut ?h2] =>
    destruct (renders_exec ut h2 Hut) as (d' & res & E & Hres); rewrite E
  end.
  destruct Hres as [[a ->]|[e ->]]; simpl.
  - destruct (config (store h)) as [cfg|]; simpl.
    + unfold createPaymentIntent.
      destruct (forallb _ _); simpl; eexists _, _; (split; [reflexivity|]); eauto.
    + eexists _, _; (split; [reflexivity|]); eauto.
  - eexists _, _; (split; [reflexivity|]); eauto.
Qed.

Lemma find_update_first {A} (p : A -> bool) (f : A -> A) (l : list A) (x : A) :
  List.find p l = Some x ->
  p (f x) = true ->
  List.find p (update_first p f l) = Some (f x).
Proof.
  intros Hfind Hp. induction l as [|y l IH]; simpl in *; [discriminate|].
  destruct (p y) eqn:Hy.
  - inversion Hfind; subst. simpl. rewrite Hp. reflexivity.
  - simpl. rewrite Hy. auto.
Qed.

(** C5, the code at a non-numeric input: the quantity map receives 0, but
    the line item of the product receives NaN, the raw result of
    [parseInt], not 0; [getLineItems] hands that NaN on to the backend
    request. *)
Theorem updateQuantity_non_numeric
    (h : Heap) (id : string) (el : LineItemElement) (item : LineItem) :
  getElementById id (dom h) = Some el ->
  parseInt (el_value el) = NaN ->
  List.find (fun item => String.eqb (li_product item) id) (lineItems (store h)) = Some item ->
  let s' := store (heap_after (exec (updateQuantity id) h)) in
  quantity s' !! id = Some (Int 0)
  /\ List.find (fun item => String.eqb (li_product item) id) (lineItems s')
     = Some (set_li_quantity (Some NaN) item)
  /\ In {| item_type := "sku"; item_parent := li_sku item; item_quantity := Some NaN |}
        (getLineItems s').
Proof.
  intros Hel Hnan Hitem s'.
  destruct (updateQuantity_heap h id el Hel) as (d' & rq & E & _).
  subst s'. rewrite E, Hnan. simpl.
  assert (Hfind : List.find (fun item => String.eqb (li_product item) id)
                    (update_first (fun item => String.eqb (li_product item) id)
                       (set_li_quantity (Some NaN)) (lineItems (store h)))
                  = Some (set_li_quantity (Some NaN) item)).
  { apply find_update_first; [assumption|]. simpl.
    apply find_some in Hitem. apply Hitem. }
  split; [apply lookup_insert_eq|]. split; [assumption|].
  apply find_some in Hfind. destruct Hfind as [Hin _].
  unfold getLineItems. simpl.
  apply (in_map (fun item => {| item_type := "sku"; item_parent := li_sku item;
                                item_quantity := li_quantity item |})) in Hin.
  exact Hin.
Qed.

Lemma updateQuantity_non_numeric_witness :
  let h := with_dom (set_input_value "shirt" "") (heap (after page_ready boot)) in
  let s' := store (heap_after (exec (updateQuantity "shirt") h)) in
  quantity s' !! "shirt" = Some (Int 0)
  /\ List.find (fun item => String.eqb (li_product item) "shirt") (lineItems s')
     = Some {| li_product := "shirt"; li_sku := "sku_shirt"; li_quantity := Some NaN |}
  /\ In {| item_type := "sku"; item_parent := "sku_shirt"; item_quantity := Some NaN |}
        (getLineItems s').
Proof.
  intros h.
  apply (updateQuantity_non_numeric h "shirt"
           {| el_product := "shirt"; el_name := "Shirt"; el_value := "";
              el_count := " x $1,000.00"; el_price := "$0.00"; el_sku := "Small" |}
           {| li_product := "shirt"; li_sku := "sku_shirt"; li_quantity := Some (Int 0) |});
    reflexivity.
Defined.

(** ** Re-rendering the page *)

Lemma formatPrice_ok (n : Number) (c : string) :
  well_formed_currency c = true -> exists text, formatPrice n (Some c) = Ok text.
Proof.
  intros Hc. unfold formatPrice, format. rewrite Hc.
  destruct (read_price (toFixed2 n)); eauto.
Qed.

Lemma map_update_first {A B} (g : A -> B) (p : A -> bool) (f : A -> A) (l : list A) :
  (forall x, g (f x) = g x) -> map g (update_first p f l) = map g l.
Proof.
  intros Hg. induction l as [|x l IH]; simpl; [reflexivity|].
  destruct (p x); simpl; congruence.
Qed.

Lemma find_by_product (id : string) (l l' : list LineItemElement) :
  map el_product l' = map el_product l ->
  present (List.find (fun el => String.eqb (el_product el) id) l')
  = present (List.find (fun el => String.eqb (el_product el) id) l).
Proof.
  revert l'. induction l as [|x l IH]; intros [|x' l'] E; simpl in *; try discriminate.
  - reflexivity.
  - inversion E as [[Ex El]]. rewrite Ex.
    destruct (String.eqb (el_product x) id); auto.
Qed.

Lemma forallb_eq {A} (p q : A -> bool) (l : list A) :
  (forall x, p x = q x) -> forallb p l = forallb q l.
Proof.
  intros E. induction l as [|x l IH]; simpl; [reflexivity|]. rewrite E, IH. reflexivity.
Qed.

Lemma entry_ok_same_products (d d' : Dom) (e : string * Product) :
  map el_product (order_items d') = map el_product (order_items d) ->
  entry_ok d' e = entry_ok d e.
Proof.
  intros E. unfold entry_ok, getElementById.
  rewrite (find_by_product (fst e) _ _ E). reflexivity.
Qed.

Lemma last_currency_ok (d : Dom) (es : list (string * Product)) (c0 : option string) :
  forallb (entry_ok d) es = true ->
  (es <> [] \/ exists c, c0 = Some c /\ well_formed_currency c = true) ->
  exists c, last_currency es c0 = Some c /\ well_formed_currency c = true.
Proof.
  revert c0. induction es as [|e es IH]; intros c0 Hok Hc; simpl in *.
  - destruct Hc as [Hne|Hc]; [contradiction|assumption].
  - apply andb_true_iff in Hok. destruct Hok as [He Hes].
    unfold last_currency in *. simpl. unfold entry_ok in He.
    destruct (first_sku (snd e) "currency") as [sku|]; [|discriminate].
    apply andb_true_iff in He. destruct He as [Hwf _].
    apply IH; [assumption|]. right. eauto.
Qed.

(** The loop of [updateTotal] on a renderable page. *)
Lemma updateTotal_each_ok (es : list (string * Product)) (h : Heap) (c0 : option string) :
  forallb (entry_ok (dom h)) es = true ->
  exists d',
    exec (updateTotal_each es c0) h
    = finished (with_dom (fun _ => d') h) (last_currency es c0)
    /\ map el_product (order_items d') = map el_product (order_items (dom h)).
Proof.
  revert h c0. induction es as [|[id product] es IH]; intros h c0 Hok.
  - exists (dom h). split; [destruct h; reflexivity|reflexivity].
  - simpl in Hok. apply andb_true_iff in Hok. destruct Hok as [He Hes].
    unfold entry_ok in He. simpl in He.
    destruct (first_sku product "currency") as [sku|] eqn:Hsku; [|discriminate].
    apply andb_true_iff in He. destruct He as [Hwf Hel].
    destruct (getElementById id (dom h)) as [el|] eqn:Hfind; [|discriminate].
    destruct (formatPrice
                (or_zero (Some (mul (price_of sku)
                                    (to_number (quantity (store h) !! id)))))
                (Some (sku_currency sku))) as [text|] eqn:Htext.
    2:{ destruct (formatPrice_ok
                    (or_zero (Some (mul (price_of sku)
                                        (to_number (quantity (store h) !! id)))))
                    _ Hwf) as [t Ht]. congruence. }
    set (h1 := with_dom (set_price_text id text) h).
    assert (Hsame : map el_product (order_items (dom h1)) = map el_product (order_items (dom h))).
    { simpl. apply map_update_first. reflexivity. }
    destruct (IH h1 (Some (sku_currency sku))) as (d' & E & Hd').
    { rewrite <- Hes. apply forallb_eq. intros e. apply entry_ok_same_products, Hsame. }
    exists d'. split; [|congruence].
    cbn [updateTotal_each]. rewrite Hsku. cbn [liftR bind this document exec].
    rewrite Htext. cbn [liftR bind exec]. rewrite Hfind.
    cbn [update_document bind exec]. fold h1. rewrite E.
    unfold last_currency. simpl. rewrite Hsku. reflexivity.
Qed.

(** [updateTotal] on a renderable page: it completes, and the subtotal,
    the total and the button show the formatted payment total. *)
Lemma updateTotal_ok (h : Heap) :
  renderable h = true ->
  exists d' total currency text,
    exec updateTotal h = finished (with_dom (fun _ => d') h) tt
    /\ getPaymentTotal (store h) = Ok total
    /\ last_currency (entries (products (store h))) None = Some currency
    /\ formatPrice (or_zero (Some total)) (Some currency) = Ok text
    /\ data_subtotal d' = text
    /\ data_total d' = text
    /\ submit_label d' = "Pay " +:+ text
    /\ map el_product (order_items d') = map el_product (order_items (dom h)).
Proof.
  unfold renderable. intros Hr.
  apply andb_true_iff in Hr. destruct Hr as [Hr Hpriced].
  apply andb_true_iff in Hr. destruct Hr as [Hne Hentries].
  destruct (updateTotal_each_ok _ h None Hentries) as (d1 & Eloop & Hsame).
  destruct (last_currency_ok (dom h) _ None Hentries) as (currency & Hcur & Hwf).
  { left. destruct (entries (products (store h))); [discriminate|congruence]. }
  destruct (getPaymentTotal_priced _ Hpriced) as [z Hz].
  destruct (formatPrice_ok (or_zero (Some z)) currency Hwf) as [text Htext].
  exists (set_submit_label ("Pay " +:+ text)
            (set_data_total text (set_data_subtotal text d1))), z, currency, text.
  split; [|repeat split; try assumption; exact Hsame].
  unfold updateTotal. cbn [this bind exec].
  rewrite (exec_bind_finished _ _ _ _ _ Eloop). rewrite Hcur.
  unfold rerenderTotal. cbn [this bind exec with_dom store].
  rewrite Hz. cbn [liftR bind exec]. rewrite Htext. reflexivity.
Qed.

Lemma unit_price_edited (id : string) (q : Number) (s : Store) (p : string) :
  unit_price (edited id q s) p = unit_price s p.
Proof. reflexivity. Qed.

Lemma renderable_edited (id : string) (q : Number) (h : Heap) :
  renderable h = true -> renderable (with_store (edited id q) h) = true.
Proof.
  unfold renderable. simpl. intros Hr.
  apply andb_true_iff in Hr. destruct Hr as [Hr Hpriced]. rewrite Hr. simpl.
  rewrite forallb_forall in *. intros item Hin.
  apply in_map with (f := li_product) in Hin.
  rewrite map_update_first in Hin by reflexivity.
  apply in_map_iff in Hin. destruct Hin as (item0 & Eprod & Hin0).
  specialize (Hpriced item0 Hin0). unfold priced in *.
  rewrite unit_price_edited, <- Eprod. exact Hpriced.
Qed.

Lemma renderable_ext (h h' : Heap) :
  store h' = store h ->
  map el_product (order_items (dom h')) = map el_product (order_items (dom h)) ->
  renderable h' = renderable h.
Proof.
  intros Es Ed. unfold renderable. rewrite Es.
  rewrite (forallb_eq (entry_ok (dom h')) (entry_ok (dom h)))
    by (intros e; apply entry_ok_same_products, Ed).
  reflexivity.
Qed.

(** [updateQuantity] on a renderable page: the page shows the formatted
    total of the edited controller; with the configuration loaded the
    call returns and the payment intent request is issued unless every
    quantity is zero, without it the call throws after rendering. *)
Lemma updateQuantity_ok (h : Heap) (id : string) (el : LineItemElement) :
  getElementById id (dom h) = Some el ->
  renderable h = true ->
  let r := exec (updateQuantity id) h in
  let s' := edited id (parseInt (el_value el)) (store h) in
  let items := getLineItems s' in
  exists d' total currency text,
    heap_after r
    = {| store := s'; dom := d';
         requests :=
           match config (store h) with
           | Some cfg =>
               if all_zero items then requests h
               else requests h ++ [POST_payment_intents (config_currency cfg) items]
           | None => requests h
           end;
         promises := promises h; console := console h |}
    /\ outcome r
       = match config (store h) with
         | Some _ => Returned tt
         | None => Threw (TypeError "Cannot read properties of null (reading 'currency')")
         end
    /\ getPaymentTotal s' = Ok total
    /\ last_currency (entries (products (store h))) None = Some currency
    /\ formatPrice (or_zero (Some total)) (Some currency) = Ok text
    /\ data_subtotal d' = text
    /\ data_total d' = text
    /\ submit_label d' = "Pay " +:+ text
    /\ renderable (heap_after r) = true.
Proof.
  intros Hel Hr r s' items.
  destruct (updateTotal_ok _ (renderable_edited id (parseInt (el_value el)) h Hr))
    as (d' & z & currency & text & Eut & Hz & Hcur & Htext & Hsub & Htot & Hlabel & Hsame).
  exists d', z, currency, text.
  assert (E : exists sp,
             r = {| heap_after :=
                      {| store := s'; dom := d';
                         requests :=
                           match config (store h) with
                           | Some cfg =>
                               if all_zero items then requests h
                               else requests h
                                    ++ [POST_payment_intents (config_currency cfg) items]
                           | None => requests h
                           end;
                         promises := promises h; console := console h |};
                    spawned := sp;
                    outcome :=
                      match config (store h) with
                      | Some _ => Returned tt
                      | None =>
                          Threw (TypeError "Cannot read properties of null (reading 'currency')")
                      end |}).
  { subst r. unfold updateQuantity. cbn [document bind exec]. rewrite Hel.
    cbn [bind exec update_this]. revert Eut. generalize updateTotal as ut. intros ut Eut.
    cbn [bind exec].
    match goal with |- context [exec (bind ut ?f) ?h2] =>
      change h2 with (with_store (edited id (parseInt (el_value el))) h);
      rewrite (exec_bind_finished ut f _ _ _ Eut)
    end.
    cbn [this bind exec with_dom store with_store edited set_lineItems set_quantity config].
    destruct (config (store h)) as [cfg|]; cbn [bind exec].
    - fold (edited id (parseInt (el_value el)) (store h)). fold s'. fold items.
      unfold createPaymentIntent. fold (all_zero items).
      destruct (all_zero items); eexists; reflexivity.
    - eexists; reflexivity. }
  destruct E as (sp & E). rewrite E. cbn [heap_after outcome].
  repeat split; try assumption.
  rewrite <- (renderable_edited id (parseInt (el_value el)) h Hr).
  apply renderable_ext; [reflexivity|exact Hsame].
Qed.

(** The currency [updateTotal] ends its loop with is that of the first
    SKU of the last product of the catalog. *)
Lemma last_currency_last (d : Dom) (es : list (string * Product)) (c0 : option string) :
  forallb (entry_ok d) es = true ->
  es <> [] ->
  exists e sku,
    last es = Some e
    /\ first_sku (snd e) "currency" = Ok sku
    /\ last_currency es c0 = Some (sku_currency sku).
Proof.
  revert c0. induction es as [|e es IH]; intros c0 Hok Hne; [contradiction|].
  simpl in Hok. apply andb_true_iff in Hok. destruct Hok as [He Hes].
  unfold entry_ok in He.
  destruct (first_sku (snd e) "currency") as [sku|] eqn:Hsku; [|discriminate].
  destruct es as [|e' es].
  - exists e, sku. unfold last_currency. simpl. rewrite Hsku. auto.
  - destruct (IH (Some (sku_currency sku)) Hes) as (e1 & sku1 & Hlast & Hsku1 & Hcur);
      [discriminate|].
    exists e1, sku1. rewrite last_cons_cons. split; [exact Hlast|]. split; [exact Hsku1|].
    unfold last_currency in *. cbn [fold_left] in *. rewrite Hsku. exact Hcur.
Qed.

(** C9, as the code has it: on a page that [displayPaymentSummary] has
    rendered in full (a catalog that is not empty, every product with a
    first SKU in a well-formed currency and its price element on the
    page, every line item priced), after a quantity change the subtotal
    and the total on the page and the amount on the button are the
    payment total of the controller as it now is, formatted by
    [formatPrice] in the currency of the first SKU of the last product
    of the catalog, a total that is NaN being shown as 0; and the page is
    rendered in full again, so the same holds after the next change. *)
Theorem updateQuantity_rerenders_total (h : Heap) (id : string) (el : LineItemElement) :
  getElementById id (dom h) = Some el ->
  renderable h = true ->
  let h' := heap_after (exec (updateQuantity id) h) in
  (exists total e sku text,
     getPaymentTotal (store h') = Ok total
     /\ last (entries (products (store h'))) = Some e
     /\ first_sku (snd e) "currency" = Ok sku
     /\ formatPrice (or_zero (Some total)) (Some (sku_currency sku)) = Ok text
     /\ (total <> NaN -> formatPrice total (Some (sku_currency sku)) = Ok text)
     /\ data_subtotal (dom h') = text
     /\ data_total (dom h') = text
     /\ submit_label (dom h') = "Pay " +:+ text)
  /\ renderable h' = true.
Proof.
  intros Hel Hr h'.
  destruct (updateQuantity_ok h id el Hel Hr)
    as (d' & total & currency & text & E & _ & Htotal & Hcur & Htext & Hsub & Htot & Hlabel & Hr').
  split; [|exact Hr'].
  assert (Hr0 := Hr). unfold renderable in Hr0.
  apply andb_true_iff in Hr0. destruct Hr0 as [Hr0 _].
  apply andb_true_iff in Hr0. destruct Hr0 as [Hne Hentries].
  destruct (last_currency_last (dom h) _ None Hentries) as (e & sku & Hlast & Hsku & Hcur').
  { destruct (entries (products (store h))); [discriminate|discriminate]. }
  assert (currency = sku_currency sku) by congruence. subst currency.
  exists total, e, sku, text. subst h'. rewrite E. cbn [store dom].
  repeat split; try assumption.
  intros Hnan. rewrite <- Htext. f_equal.
  destruct total as [|z|negative]; [contradiction| |reflexivity].
  unfold or_zero. simpl. destruct (Z.eqb_spec z 0); subst; reflexivity.
Qed.

Lemma updateQuantity_rerenders_total_witness :
  let h := with_dom (set_input_value "shirt" "2") (heap (after page_ready boot)) in
  let h' := heap_after (exec (updateQuantity "shirt") h) in
  (exists total e sku text,
     getPaymentTotal (store h') = Ok total
     /\ last (entries (products (store h'))) = Some e
     /\ first_sku (snd e) "currency" = Ok sku
     /\ formatPrice (or_zero (Some total)) (Some (sku_currency sku)) = Ok text
     /\ (total <> NaN -> formatPrice total (Some (sku_currency sku)) = Ok text)
     /\ data_subtotal (dom h') = text
     /\ data_total (dom h') = text
     /\ submit_label (dom h') = "Pay " +:+ text)
  /\ renderable h' = true.
Proof.
  intros h.
  apply (updateQuantity_rerenders_total h "shirt"
           {| el_product := "shirt"; el_name := "Shirt"; el_value := "2";
              el_count := " x $1,000.00"; el_price := "$0.00"; el_sku := "Small" |});
    reflexivity.
Defined.

(** C9 as stated fails on a page that is rendered in part: when the
    SKUs of the second product could not be loaded, the first product is
    on the page with its quantity input; typing 2 there makes the payment
    total 2000, but [updateTotal] throws at the second product before it
    reaches the totals: the subtotal, the total and the button keep their
    text, which is not the formatted total. *)
Lemma edit_on_a_page_rendered_in_part :
  let w := after half_rendered boot in
  reachable w
  /\ exists w',
       fire (Input "shirt" "2") w = Some w'
       /\ getPaymentTotal (store (heap w')) = Ok (Int 2000)
       /\ formatPrice (Int 2000) (Some "usd") = Ok "$2,000.00"
       /\ data_subtotal (dom (heap w')) = ""
       /\ data_total (dom (heap w')) = ""
       /\ submit_label (dom (heap w')) = "".
Proof.
  intros w. split.
  - apply (reachable_after half_rendered boot reachable_boot). vm_compute. reflexivity.
  - eexists. split; [vm_compute; reflexivity|].
    repeat split; vm_compute; reflexivity.
Qed.

(** ** Payment intents across edits *)

(** What [updateQuantity] does once it has found the input. *)
Lemma updateQuantity_run (h : Heap) (id : string) (el : LineItemElement) :
  getElementById id (dom h) = Some el ->
  let r := exec (updateQuantity id) h in
  let h1 := with_store (edited id (parseInt (el_value el))) h in
  let items := getLineItems (store h1) in
  exists d',
    heap_after (exec updateTotal h1) = with_dom (fun _ => d') h1
    /\ heap_after r
       = {| store := store h1; dom := d';
            requests :=
              match outcome (exec updateTotal h1), config (store h) with
              | Returned _, Some cfg =>
                  if all_zero items then requests h
                  else requests h ++ [POST_payment_intents (config_currency cfg) items]
              | _, _ => requests h
              end;
            promises := promises h; console := console h |}
    /\ outcome r
       = match outcome (exec updateTotal h1), config (store h) with
         | Returned _, Some _ => Returned tt
         | Returned _, None =>
             Threw (TypeError "Cannot read properties of null (reading 'currency')")
         | Threw e, _ => Threw e
         | _, _ => outcome r
         end.
Proof.
  intros Hel r h1 items.
  destruct (renders_exec updateTotal h1 renders_updateTotal) as (d' & res & E & Hres).
  exists d'. rewrite E. cbn [heap_after outcome]. split; [reflexivity|].
  subst r. unfold updateQuantity. cbn [document bind exec]. rewrite Hel.
  cbn [bind exec update_this]. revert E. generalize updateTotal as ut. intros ut E.
  cbn [bind exec].
  match goal with |- context [exec (bind ut ?f) ?h2] =>
    change h2 with h1; rewrite (exec_bind ut f h1), E
  end.
  cbn [outcome heap_after spawned].
  destruct Hres as [[a ->]|[e ->]]; [|split; reflexivity].
  cbn [this bind exec with_dom store with_store h1].
  change (config (edited id (parseInt (el_value el)) (store h))) with (config (store h)).
  destruct (config (store h)) as [cfg|]; cbn [bind exec heap_after outcome spawned];
    [|split; reflexivity].
  change (getLineItems (edited id (parseInt (el_value el)) (store h))) with items.
  unfold createPaymentIntent. fold (all_zero items).
  destruct (all_zero items); split; reflexivity.
Qed.

(** C3, as the code has it: an edit never looks at the stored payment
    intent.  An edit whose repaint ([updateTotal]) completes, as it does
    on every page rendered in full, and that finds the configuration
    loaded issues a request to create an intent, [POST /payment_intents]
    with the configured currency and the current line items, whenever a
    line item is left with a quantity, whatever [store.paymentIntent]
    holds; it issues nothing when every quantity is zero, when the
    repaint throws or when the configuration is not loaded.  In each case
    the stored reference is left as it is (the response will overwrite
    it). *)
Theorem updateQuantity_creates_intent (h : Heap) (id : string) (el : LineItemElement) :
  getElementById id (dom h) = Some el ->
  let r := exec (updateQuantity id) h in
  let h1 := with_store (edited id (parseInt (el_value el))) h in
  let items := getLineItems (store (heap_after r)) in
  paymentIntent (store (heap_after r)) = paymentIntent (store h)
  /\ requests (heap_after r)
     = match outcome (exec updateTotal h1), config (store h) with
       | Returned _, Some cfg =>
           if all_zero items then requests h
           else requests h ++ [POST_payment_intents (config_currency cfg) items]
       | _, _ => requests h
       end
  /\ (renderable h = true -> outcome (exec updateTotal h1) = Returned tt).
Proof.
  intros Hel r h1 items.
  destruct (updateQuantity_run h id el Hel) as (d' & _ & E & _).
  subst items r. rewrite E. cbn [store heap_after requests]. split; [reflexivity|].
  split; [reflexivity|].
  intros Hr.
  destruct (updateTotal_ok _ (renderable_edited id (parseInt (el_value el)) h Hr))
    as (d1 & total & currency & text & Eut & _).
  fold h1 in Eut. rewrite Eut. reflexivity.
Qed.

Lemma updateQuantity_creates_intent_witness :
  let h := with_dom (set_input_value "shirt" "2") (heap (after first_edit boot)) in
  let r := exec (updateQuantity "shirt") h in
  let h1 := with_store (edited "shirt" (parseInt "2")) h in
  let items := getLineItems (store (heap_after r)) in
  paymentIntent (store (heap_after r)) = paymentIntent (store h)
  /\ requests (heap_after r)
     = match outcome (exec updateTotal h1), config (store h) with
       | Returned _, Some cfg =>
           if all_zero items then requests h
           else requests h ++ [POST_payment_intents (config_currency cfg) items]
       | _, _ => requests h
       end
  /\ (renderable h = true -> outcome (exec updateTotal h1) = Returned tt).
Proof.
  intros h.
  apply (updateQuantity_creates_intent h "shirt"
           {| el_product := "shirt"; el_name := "Shirt"; el_value := "2";
              el_count := " x $1,000.00"; el_price := "$1,000.00"; el_sku := "Small" |});
    vm_compute; reflexivity.
Defined.

(** C3 as stated fails: in the sample session the first edit creates an
    intent, the backend's answer is stored as [store.paymentIntent], and
    the next edit issues a second creation request. *)
Lemma second_edit_creates_again :
  let w := after first_edit boot in
  reachable w
  /\ paymentIntent (store (heap w))
     = VObject [("id", VString "pi_1"); ("amount", VNumber (Int 1000))]
  /\ exists w',
       fire (Input "shirt" "2") w = Some w'
       /\ requests (heap w')
          = requests (heap w)
            ++ [ POST_payment_intents "usd"
                   [ {| item_type := "sku"; item_parent := "sku_shirt";
                        item_quantity := Some (Int 2) |} ] ].
Proof.
  intros w. split; [|split].
  - apply (reachable_after first_edit boot reachable_boot). vm_compute. reflexivity.
  - vm_compute. reflexivity.
  - eexists. split; vm_compute; reflexivity.
Qed.

(** ** One product at 1000 usd, quantity 3 *)

Lemma entries_singleton {V} (id : string) (v : V) : entries [(id, v)] = [(id, v)].
Proof.
  unfold entries. simpl. destruct (array_index id); reflexivity.
Qed.

(** C2, as the code has it: with one product whose single SKU costs 1000
    usd, setting its quantity to 3 makes the payment total 3000, and the
    page shows that total as [formatPrice] renders it: the amount with two
    decimals, not divided by 100, that is "$3,000.00". *)
Theorem one_product_quantity_three
    (h : Heap) (id : string) (product : Product) (item : LineItem) (el : LineItemElement)
    (sku : Sku) :
  products (store h) = [(id, product)] ->
  product_skus product = Some {| skus_data := [sku] |} ->
  sku_price sku = 1000 ->
  sku_currency sku = "usd" ->
  lineItems (store h) = [item] ->
  li_product item = id ->
  order_items (dom h) = [el] ->
  el_product el = id ->
  parseInt (el_value el) = Int 3 ->
  let h' := heap_after (exec (updateQuantity id) h) in
  quantity (store h') !! id = Some (Int 3)
  /\ getPaymentTotal (store h') = Ok (Int 3000)
  /\ formatPrice (Int 3000) (Some "usd") = Ok "$3,000.00"
  /\ data_subtotal (dom h') = "$3,000.00"
  /\ data_total (dom h') = "$3,000.00"
  /\ submit_label (dom h') = "Pay $3,000.00".
Proof.
  intros Hproducts Hskus Hprice Hcurrency Hitems Hitem Hdom Hel Hq h'.
  assert (Hfirst : forall reading, first_sku product reading = Ok sku).
  { intros reading. unfold first_sku. rewrite Hskus. reflexivity. }
  assert (Hfind : getElementById id (dom h) = Some el).
  { unfold getElementById. rewrite Hdom. simpl. rewrite Hel, String.eqb_refl. reflexivity. }
  assert (Hunit : unit_price (store h) id = Ok (Int 1000)).
  { unfold unit_price. rewrite Hproducts. simpl. rewrite String.eqb_refl, Hfirst.
    unfold price_of. rewrite Hprice. reflexivity. }
  assert (Hr : renderable h = true).
  { unfold renderable. rewrite Hproducts, entries_singleton, Hitems.
    cbn [forallb]. unfold entry_ok, priced. cbn [fst snd].
    rewrite Hfirst, Hcurrency, Hfind, Hitem, Hunit. reflexivity. }
  destruct (updateQuantity_ok h id el Hfind Hr)
    as (d' & z & currency & text & E & _ & Hz & Hcur & Htext & Hsub & Htot & Hlabel & _).
  assert (Htotal : getPaymentTotal (edited id (parseInt (el_value el)) (store h))
                   = Ok (Int 3000)).
  { unfold getPaymentTotal. simpl. rewrite Hitems. simpl.
    rewrite Hitem, String.eqb_refl. simpl.
    rewrite unit_price_edited, Hitem, Hunit, Hq. reflexivity. }
  assert (z = Int 3000) by congruence. subst z.
  assert (currency = "usd").
  { rewrite Hproducts, entries_singleton in Hcur. unfold last_currency in Hcur.
    simpl in Hcur. rewrite Hfirst in Hcur. congruence. }
  subst currency.
  assert (Ht : text = "$3,000.00").
  { assert (Hf : formatPrice (Int 3000) (Some "usd") = Ok "$3,000.00") by reflexivity.
    change (or_zero (Some (Int 3000))) with (Int 3000) in Htext. congruence. }
  rewrite Ht in *. subst h'. rewrite E. cbn [store dom].
  split; [|repeat split; assumption].
  unfold edited. cbn [quantity set_lineItems set_quantity]. rewrite Hq.
  apply lookup_insert_eq.
Qed.

Lemma one_product_quantity_three_witness :
  let h := with_dom (set_input_value "shirt" "3") (heap (after page_ready boot)) in
  let h' := heap_after (exec (updateQuantity "shirt") h) in
  quantity (store h') !! "shirt" = Some (Int 3)
  /\ getPaymentTotal (store h') = Ok (Int 3000)
  /\ formatPrice (Int 3000) (Some "usd") = Ok "$3,000.00"
  /\ data_subtotal (dom h') = "$3,000.00"
  /\ data_total (dom h') = "$3,000.00"
  /\ submit_label (dom h') = "Pay $3,000.00".
Proof.
  intros h.
  apply (one_product_quantity_three h "shirt" shirt
           {| li_product := "shirt"; li_sku := "sku_shirt"; li_quantity := Some (Int 0) |}
           {| el_product := "shirt"; el_name := "Shirt"; el_value := "3";
              el_count := " x $1,000.00"; el_price := "$0.00"; el_sku := "Small" |}
           shirt_sku);
    reflexivity.
Defined.

(** C2 as stated fails in its last part: in the sample session, with the
    quantity set to 3, the total is 3000 and the page shows "$3,000.00";
    neither [formatPrice] nor the page yields "$30.00". *)
Lemma quantity_three_is_not_30_dollars :
  let w := after (page_ready ++ [Input "shirt" "3"]) boot in
  reachable w
  /\ getPaymentTotal (store (heap w)) = Ok (Int 3000)
  /\ formatPrice (Int 3000) (Some "usd") <> Ok "$30.00"
  /\ data_total (dom (heap w)) <> "$30.00"
  /\ submit_label (dom (heap w)) <> "Pay $30.00".
Proof.
  intros w. split; [|split; [|split; [|split]]].
  - apply (reachable_after (page_ready ++ [Input "shirt" "3"]) boot reachable_boot). vm_compute. reflexivity.
  - vm_compute. reflexivity.
  - vm_compute. discriminate.
  - vm_compute. discriminate.
  - vm_compute. discriminate.
Qed.

(** ** Invariants of the event loop *)

Section Invariant.

Variable P : Heap -> Prop.

Lemma preserves_bind {A B} (t : Task A) (f : A -> Task B) :
  preserves P t -> (forall a, preserves P (f a)) -> preserves P (bind t f).
Proof.
  intros Ht Hf. induction Ht; simpl; try (constructor; auto; fail); auto.
Qed.

Lemma preserves_try_catch {A} (t : Task A) (handler : Exn -> Task A) :
  preserves P t -> (forall e, preserves P (handler e)) -> preserves P (try_catch t handler).
Proof.
  intros Ht Hh. induction Ht; simpl; try (constructor; auto; fail); auto.
Qed.

Lemma suspended_ok (o : Outcome unit) : outcome_ok P o -> Forall (job_ok P) (suspended o).
Proof.
  destruct o; simpl; intros H; repeat constructor; assumption.
Qed.

Lemma preserves_exec {A} (t : Task A) :
  preserves P t ->
  forall h, P h ->
    P (heap_after (exec t h))
    /\ Forall (job_ok P) (spawned (exec t h))
    /\ outcome_ok P (outcome (exec t h)).
Proof.
  induction 1 as [A a|A e|A k Hk IH|A f k Hf Hk IH|A req k Hreq Hk IH|A p k Hk IH
                 |A t k Ht IHt Hk IHk]; intros h0 Ph; simpl.
  - repeat split; auto.
  - repeat split; auto.
  - apply IH; assumption.
  - apply IH, Hf, Ph.
  - repeat split; auto.
  - repeat split; auto.
  - destruct (IHt h0 Ph) as (P1 & J1 & O1).
    destruct (IHk _ P1) as (P2 & J2 & O2).
    repeat split; auto.
    apply Forall_app; split; [assumption|].
    apply Forall_app; split; [apply suspended_ok; assumption|assumption].
Qed.

Lemma run_ok (t : Task unit) (w : World) :
  preserves P t -> world_ok P w -> world_ok P (run t w).
Proof.
  intros Ht [Ph Hjobs].
  destruct (preserves_exec t Ht (heap w) Ph) as (P1 & J1 & O1).
  split; simpl; [assumption|].
  apply Forall_app; split; [assumption|].
  apply Forall_app; split; [assumption|apply suspended_ok; assumption].
Qed.

Lemma without_job_ok (i : nat) (w : World) : world_ok P w -> world_ok P (without_job i w).
Proof.
  intros [Ph Hjobs]. split; simpl; [assumption|].
  apply Forall_delete. assumption.
Qed.

Lemma preserves_liftR {A} (r : Res A) : preserves P (liftR r).
Proof. destruct r; constructor. Qed.

Lemma preserves_await_json {T} (response : Response T) : preserves P (await_json response).
Proof. unfold await_json. destruct (json response); constructor. Qed.

Hypothesis S : stable P.

Ltac stability :=
  intros; simpl;
  first
    [ assumption
    | apply (stable_dom P S); assumption
    | apply (stable_console P S); assumption
    | apply (stable_promises P S); assumption
    | apply (stable_requests P S); [discriminate|assumption]
    | apply (stable_lineItems P S); assumption
    | apply (stable_products P S); assumption
    | apply (stable_quantity P S); [first [discriminate|apply or_zero_not_NaN]|assumption]
    | apply (stable_config P S); assumption
    | apply (stable_paymentIntent P S); assumption ].

Ltac preserves_step :=
  first
    [ apply preserves_Ret
    | apply preserves_Throw
    | assumption
    | apply preserves_liftR
    | apply preserves_await_json
    | apply preserves_Get; intros ? ?
    | apply preserves_Modify; [solve [stability]|]
    | apply preserves_Fetch; [solve [stability]|intros ?]
    | apply preserves_Await
    | apply preserves_Spawn
    | apply preserves_bind; [|intros ?]
    | apply preserves_try_catch; [|intros ?]
    | match goal with
      | |- preserves _ (match ?x with _ => _ end) => destruct x
      end ].

Lemma preserves_getConfig : preserves P getConfig.
Proof. unfold getConfig. repeat preserves_step. Qed.

Lemma preserves_loadSkus id : preserves P (loadSkus id).
Proof. unfold loadSkus. repeat preserves_step. Qed.

Lemma preserves_createPaymentIntent currency items :
  preserves P (createPaymentIntent currency items).
Proof. unfold createPaymentIntent. repeat preserves_step. Qed.

Lemma preserves_updatePaymentIntentWithShippingCost intent items option_ :
  preserves P (updatePaymentIntentWithShippingCost intent items option_).
Proof. unfold updatePaymentIntentWithShippingCost. repeat preserves_step. Qed.

Lemma preserves_rerenderTotal currency : preserves P (rerenderTotal currency).
Proof. unfold rerenderTotal. repeat preserves_step. Qed.

Lemma preserves_updateButtonLabel amount : preserves P (updateButtonLabel amount).
Proof. unfold updateButtonLabel. repeat preserves_step. Qed.

Lemma preserves_updateTotal_each es currency : preserves P (updateTotal_each es currency).
Proof.
  revert currency. induction es as [|[id product] es IH]; intros currency; simpl.
  - constructor.
  - repeat preserves_step. apply IH.
Qed.

Lemma preserves_updateTotal : preserves P updateTotal.
Proof.
  unfold updateTotal. apply preserves_bind; [repeat preserves_step|intros s].
  apply preserves_bind; [apply preserves_updateTotal_each|intros currency].
  apply preserves_bind; [apply preserves_rerenderTotal|intros total].
  apply preserves_updateButtonLabel.
Qed.

Lemma preserves_displayPaymentSummary_each es currency :
  preserves P (displayPaymentSummary_each es currency).
Proof.
  revert currency. induction es as [|[id product] es IH]; intros currency; simpl.
  - constructor.
  - repeat preserves_step. apply IH.
Qed.

Lemma preserves_displayPaymentSummary_rest :
  preserves P
    (let* s := this in
     let* currency := displayPaymentSummary_each (entries (products s)) None in
     let* _ := rerenderTotal currency in
     Ret tt).
Proof.
  apply preserves_bind; [repeat preserves_step|intros s].
  apply preserves_bind; [apply preserves_displayPaymentSummary_each|intros currency].
  apply preserves_bind; [apply preserves_rerenderTotal|intros total].
  constructor.
Qed.

Lemma preserves_loadProducts_each prods : preserves P (loadProducts_each prods).
Proof.
  induction prods as [|product prods IH]; simpl.
  - constructor.
  - repeat preserves_step.
Qed.

Lemma preserves_updateQuantity id : preserves P (updateQuantity id).
Proof.
  unfold updateQuantity.
  apply preserves_bind; [repeat preserves_step|intros d].
  apply preserves_bind; [repeat preserves_step|intros input].
  apply preserves_bind.
  { repeat preserves_step. }
  intros _. apply preserves_bind; [repeat preserves_step|intros _].
  apply preserves_bind; [apply preserves_updateTotal|intros _].
  apply preserves_bind; [repeat preserves_step|intros s].
  apply preserves_bind; [repeat preserves_step|intros cfg].
  apply preserves_Spawn; [|constructor].
  apply preserves_bind; [apply preserves_createPaymentIntent|intros _; constructor].
Qed.

Lemma preserves_createCharge token metadata : preserves P (createCharge token metadata).
Proof.
  unfold createCharge.
  apply preserves_bind; [repeat preserves_step|intros s].
  apply preserves_bind; [apply preserves_liftR|intros amount].
  apply preserves_try_catch; [|intros e; unfold console_error; repeat preserves_step].
  apply preserves_bind; [repeat preserves_step|intros s'].
  apply preserves_bind; [repeat preserves_step|intros cfg].
  apply preserves_bind; [unfold fetch; repeat preserves_step|intros response].
  apply preserves_bind; [unfold await_json; repeat preserves_step|intros result].
  constructor.
Qed.

(** [loadProducts], for an invariant that allows a first call. *)
Lemma preserves_loadProducts_first :
  (forall h, P h -> P (with_requests (fun l => l ++ [GET_products]) h)) ->
  (forall v h, P h -> P (with_store (set_productsFetchPromise v) h)) ->
  preserves P loadProducts.
Proof.
  intros Hrequest Hpromise. pose proof preserves_loadProducts_each as Heach.
  unfold loadProducts.
  apply preserves_bind; [repeat preserves_step|intros s].
  apply preserves_bind; [|intros _; repeat preserves_step].
  destruct (productsFetchPromise s); [constructor|].
  apply preserves_bind; [|intros p; constructor; [apply Hpromise|constructor]].
  unfold new_Promise. apply preserves_Get. intros h Ph.
  apply preserves_Modify; [solve [stability]|].
  apply preserves_Spawn; [|constructor].
  unfold loadProducts_executor.
  apply preserves_bind; [apply preserves_Fetch; [exact Hrequest|intros r; repeat preserves_step]|].
  intros response. apply preserves_bind; [apply preserves_await_json|intros body].
  destruct (list_data body); [constructor|].
  apply preserves_bind; [apply Heach|intros _]. unfold resolve. repeat preserves_step.
Qed.

(** The two calls the constructor leaves suspended: the executor of
    [loadProducts] waiting for the catalog, [displayPaymentSummary]
    waiting for the promise. *)
Lemma boot_jobs_ok : Forall (job_ok P) (jobs boot).
Proof.
  unfold boot, run. cbn.
  pose proof preserves_loadProducts_each as Heach.
  pose proof preserves_displayPaymentSummary_each as Hdisplay.
  constructor; [|constructor; [|constructor]]; simpl.
  - intros r. repeat preserves_step; apply Heach.
  - repeat preserves_step; apply Hdisplay.
Qed.

Hypothesis L : preserves P loadProducts.

Lemma preserves_displayPaymentSummary : preserves P displayPaymentSummary.
Proof.
  unfold displayPaymentSummary.
  apply preserves_bind; [exact L|intros promise].
  apply preserves_bind; [destruct promise; repeat constructor|intros _].
  apply preserves_displayPaymentSummary_rest.
Qed.

Lemma preserves_call (c : Call) : preserves P (call_task c).
Proof.
  destruct c; simpl; unfold discard;
    try (apply preserves_bind; [|intros ?; constructor]).
  - apply preserves_getConfig.
  - apply preserves_loadSkus.
  - exact L.
  - apply preserves_createPaymentIntent.
  - apply preserves_updatePaymentIntentWithShippingCost.
  - apply preserves_displayPaymentSummary.
  - apply preserves_updateQuantity.
  - apply preserves_updateTotal.
  - apply preserves_rerenderTotal.
  - apply preserves_updateButtonLabel.
  - apply preserves_createCharge.
Qed.

Lemma fire_ok (e : Event) (w w' : World) :
  world_ok P w -> fire e w = Some w' -> world_ok P w'.
Proof.
  intros Hw Hfire. destruct e as [id raw|i a|i|c]; simpl in Hfire.
  - destruct (getElementById id (dom (heap w))); [|discriminate].
    inversion Hfire; subst. apply run_ok; [apply preserves_updateQuantity|].
    destruct Hw as [Ph Hjobs]. split; simpl; [apply (stable_dom P S); assumption|assumption].
  - destruct (jobs w !! i) as [[req k|p k]|] eqn:Hjob; try discriminate.
    destruct (answer_for req a) as [r|]; [|discriminate].
    inversion Hfire; subst. apply run_ok; [|apply without_job_ok; assumption].
    destruct Hw as [_ Hjobs]. rewrite Forall_lookup in Hjobs.
    apply (Hjobs i _ Hjob).
  - destruct (jobs w !! i) as [[req k|p k]|] eqn:Hjob; try discriminate.
    destruct (promises (heap w) !! p) as [[|]|]; try discriminate.
    inversion Hfire; subst. apply run_ok; [|apply without_job_ok; assumption].
    destruct Hw as [_ Hjobs]. rewrite Forall_lookup in Hjobs.
    apply (Hjobs i _ Hjob).
  - inversion Hfire; subst. apply run_ok; [apply preserves_call|assumption].
Qed.

(** An invariant that holds once the page has booted holds in every
    reachable world. *)
Lemma reachable_ok (w : World) : P (heap boot) -> reachable w -> world_ok P w.
Proof.
  intros Hboot Hw. induction Hw as [|e w w' Hw IH Hfire].
  - split; [assumption|apply boot_jobs_ok].
  - apply (fire_ok e w w'); assumption.
Qed.

End Invariant.

(** ** The quantity map *)

Lemma stable_number_quantities : stable number_quantities.
Proof.
  split; try (intros; assumption).
  intros id n h Hn Ph id' q. simpl. destruct (decide (id = id')) as [->|Hne].
  - rewrite lookup_insert_eq. intros E. inversion E. subst. exact Hn.
  - rewrite lookup_insert_ne by assumption. apply Ph.
Qed.

Lemma reachable_number_quantities (w : World) :
  reachable w -> number_quantities (heap w).
Proof.
  intros Hw.
  assert (L : preserves number_quantities loadProducts).
  { apply preserves_loadProducts_first; [apply stable_number_quantities| |];
      intros; assumption. }
  assert (Hboot : number_quantities (heap boot)).
  { intros id q H. vm_compute in H. discriminate. }
  apply (reachable_ok number_quantities stable_number_quantities L w Hboot Hw).
Qed.

(** The loop of [loadProducts] writes zeros only. *)
Lemma loadProducts_each_keeps_zero (id : string) (prods : list Product) (h : Heap) :
  quantity (store h) !! id = Some (Int 0) ->
  quantity (store (heap_after (exec (loadProducts_each prods) h))) !! id = Some (Int 0).
Proof.
  revert h. induction prods as [|product prods IH]; intros h Hzero; simpl; [assumption|].
  assert (Hnext : <[product_id product := Int 0]> (quantity (store h)) !! id = Some (Int 0)).
  { destruct (decide (product_id product = id)) as [->|Hne].
    - apply lookup_insert_eq.
    - rewrite lookup_insert_ne by assumption. assumption. }
  destruct (product_skus product); simpl.
  - apply IH. exact Hnext.
  - exact Hnext.
Qed.

(** C8, as the code has it: in every reachable state every value of the
    quantity map is a number other than NaN, an integer or an infinity,
    not necessarily non-negative; the loop of [loadProducts] records each
    product with quantity 0, and [updateQuantity] stores what [parseInt]
    reads from the input, or 0 when the input is not a number. *)
Theorem quantities_are_numbers :
  (forall w, reachable w ->
     forall id q, quantity (store (heap w)) !! id = Some q ->
       (exists z, q = Int z) \/ (exists negative, q = Inf negative))
  /\ (forall h product rest,
        quantity (store (heap_after (exec (loadProducts_each (product :: rest)) h)))
          !! product_id product = Some (Int 0))
  /\ (forall h id el,
        getElementById id (dom h) = Some el ->
        let stored := quantity (store (heap_after (exec (updateQuantity id) h))) !! id in
        (parseInt (el_value el) = NaN -> stored = Some (Int 0))
        /\ (parseInt (el_value el) <> NaN -> stored = Some (parseInt (el_value el)))).
Proof.
  split; [|split].
  - intros w Hw id q Hq. pose proof (reachable_number_quantities w Hw id q Hq) as Hn.
    destruct q as [|z|negative]; [contradiction|eauto|eauto].
  - intros h product rest. simpl.
    assert (Hset : <[product_id product := Int 0]> (quantity (store h)) !! product_id product
                   = Some (Int 0)) by apply lookup_insert_eq.
    destruct (product_skus product); simpl.
    + apply loadProducts_each_keeps_zero. exact Hset.
    + exact Hset.
  - intros h id el Hel stored. subst stored.
    destruct (updateQuantity_heap h id el Hel) as (d' & rq & E & _).
    rewrite E. cbn [store edited quantity set_lineItems set_quantity].
    rewrite lookup_insert_eq. split.
    + intros ->. reflexivity.
    + intros Hn. f_equal. destruct (parseInt (el_value el)) as [|z|negative];
        [contradiction| |reflexivity].
      unfold or_zero. simpl. destruct (Z.eqb_spec z 0); subst; reflexivity.
Qed.

Lemma quantities_are_numbers_witness :
  let h := with_dom (set_input_value "shirt" "abc") (heap (after page_ready boot)) in
  ((exists z, Int (-3) = Int z) \/ (exists negative, Int (-3) = Inf negative))
  /\ quantity (store (heap_after (exec (updateQuantity "shirt") h))) !! "shirt"
     = Some (Int 0).
Proof.
  intros h.
  pose (w := after (page_ready ++ [Input "shirt" "-3"]) boot).
  assert (Hw : reachable w).
  { apply (reachable_after (page_ready ++ [Input "shirt" "-3"]) boot reachable_boot). vm_compute. reflexivity. }
  assert (Hq : quantity (store (heap w)) !! "shirt" = Some (Int (-3)))
    by (vm_compute; reflexivity).
  pose (el := {| el_product := "shirt"; el_name := "Shirt"; el_value := "abc";
                 el_count := " x $1,000.00"; el_price := "$0.00"; el_sku := "Small" |}).
  assert (Hel : getElementById "shirt" (dom h) = Some el) by (vm_compute; reflexivity).
  split.
  - exact (proj1 quantities_are_numbers w Hw "shirt" (Int (-3)) Hq).
  - exact (proj1 (proj2 (proj2 quantities_are_numbers) h "shirt" el Hel) eq_refl).
Defined.

(** C8 as stated fails: typing -3 into the quantity input of the sample
    session stores -3 in the quantity map. *)
Lemma negative_quantity_reachable :
  let w := after (page_ready ++ [Input "shirt" "-3"]) boot in
  reachable w
  /\ quantity (store (heap w)) !! "shirt" = Some (Int (-3))
  /\ ~ (exists n, Int (-3) = Int n /\ 0 <= n).
Proof.
  intros w. split; [|split].
  - apply (reachable_after (page_ready ++ [Input "shirt" "-3"]) boot reachable_boot). vm_compute. reflexivity.
  - vm_compute. reflexivity.
  - intros (n & E & Hn). inversion E. lia.
Qed.

(** Nor is a stored quantity always an integer: a number of 310 digits
    is read as Infinity, and stored. *)
Lemma infinite_quantity_reachable :
  let w := after (page_ready ++ [Input "shirt" ("1" +:+ zeros 309)]) boot in
  reachable w
  /\ quantity (store (heap w)) !! "shirt" = Some (Inf false).
Proof.
  intros w. split.
  - apply (reachable_after (page_ready ++ [Input "shirt" ("1" +:+ zeros 309)]) boot
             reachable_boot).
    vm_compute. reflexivity.
  - vm_compute. reflexivity.
Qed.

(** An infinite price makes the total NaN before anything is ordered:
    0 times Infinity is NaN.  The page renders, the line item is priced,
    no payment intent would be requested, and the total is shown as
    $0.00. *)
Lemma infinite_price_total :
  let h := heap (after gem_shown boot) in
  reachable (after gem_shown boot)
  /\ renderable h = true
  /\ forallb (priced (store h)) (lineItems (store h)) = true
  /\ exec (createPaymentIntent "usd" (getLineItems (store h))) h = finished h RUndefined
  /\ getPaymentTotal (store h) = Ok NaN
  /\ formatPrice NaN (Some "usd") = Ok "$NaN"
  /\ data_total (dom h) = "$0.00".
Proof.
  intros h. split.
  - apply (reachable_after gem_shown boot reachable_boot). vm_compute. reflexivity.
  - repeat split; vm_compute; reflexivity.
Qed.

(** ** The memoized catalog load *)

Lemma stable_memoized : stable memoized.
Proof.
  split; try (intros; assumption).
  intros req h Hreq [Hp Hc]. split; [assumption|].
  unfold catalog_requests in *. simpl. rewrite List.filter_app, length_app, Hc.
  destruct req; simpl; try reflexivity. contradiction.
Qed.

Lemma loadProducts_again (h : Heap) (p : nat) :
  productsFetchPromise (store h) = Some p ->
  exec loadProducts h = finished h (Some p).
Proof.
  intros Hp. unfold loadProducts. simpl. rewrite Hp. simpl. rewrite Hp. reflexivity.
Qed.

Lemma preserves_memoized_loadProducts : preserves memoized loadProducts.
Proof.
  unfold loadProducts. simpl. apply preserves_Get. intros h [Hp _].
  destruct (productsFetchPromise (store h)); [|contradiction].
  simpl. repeat constructor.
Qed.

Lemma reachable_memoized (w : World) : reachable w -> memoized (heap w).
Proof.
  intros Hw.
  assert (Hboot : memoized (heap boot)).
  { split; [vm_compute; discriminate|vm_compute; reflexivity]. }
  apply (reachable_ok memoized stable_memoized preserves_memoized_loadProducts w Hboot Hw).
Qed.

(** C6: [loadProducts] is memoized.  A first call creates the promise,
    pending, and issues the one request for the catalog; a call made
    while a promise is stored returns that promise and does nothing else:
    no request, no write, nothing suspended.  In every reachable state
    the promise of the constructor's call is stored, so every later call
    returns it, and the catalog has been requested exactly once. *)
Theorem loadProducts_memoizes :
  (forall h,
     productsFetchPromise (store h) = None ->
     let r := exec loadProducts h in
     let p := length (promises h) in
     outcome r = Returned (Some p)
     /\ requests (heap_after r) = requests h ++ [GET_products]
     /\ promises (heap_after r) !! p = Some false
     /\ exec loadProducts (heap_after r) = finished (heap_after r) (Some p))
  /\ (forall h p,
        productsFetchPromise (store h) = Some p ->
        exec loadProducts h = finished h (Some p))
  /\ (forall w,
        reachable w ->
        exists p,
          productsFetchPromise (store (heap w)) = Some p
          /\ exec loadProducts (heap w) = finished (heap w) (Some p)
          /\ catalog_requests (heap w) = 1%nat).
Proof.
  split; [|split].
  - intros h Hnone r p. subst r. unfold loadProducts. simpl. rewrite Hnone. simpl.
    repeat split.
    apply list_lookup_middle. reflexivity.
  - apply loadProducts_again.
  - intros w Hw. destruct (reachable_memoized w Hw) as [Hp Hc].
    destruct (productsFetchPromise (store (heap w))) as [p|] eqn:E; [|contradiction].
    exists p. repeat split; [apply loadProducts_again|]; assumption.
Qed.

Lemma loadProducts_memoizes_witness :
  let r := exec loadProducts blank in
  (outcome r = Returned (Some 0%nat)
   /\ requests (heap_after r) = [GET_products]
   /\ promises (heap_after r) !! 0%nat = Some false
   /\ exec loadProducts (heap_after r) = finished (heap_after r) (Some 0%nat))
  /\ exec loadProducts (heap (after page_ready boot))
     = finished (heap (after page_ready boot)) (Some 0%nat).
Proof.
  intros r. split.
  - exact (proj1 loadProducts_memoizes blank eq_refl).
  - apply (proj1 (proj2 loadProducts_memoizes)). vm_compute. reflexivity.
Defined.

(** * Further properties *)

(** ** When the payment intent request is sent *)

Lemma no_quantity_falsy (q : option Number) : no_quantity q -> truthy q = false.
Proof. intros [->|[->| ->]]; reflexivity. Qed.

Lemma some_quantity_truthy (q : option Number) : some_quantity q -> truthy q = true.
Proof.
  intros [(z & -> & Hz)|(negative & ->)]; [|reflexivity].
  simpl. destruct (Z.eqb_spec z 0); [contradiction|reflexivity].
Qed.

Lemma falsy_or_zero (q : option Number) : truthy q = false -> or_zero q = Int 0.
Proof. unfold or_zero. intros ->. reflexivity. Qed.

Lemma all_zero_Forall (items : list Item) :
  Forall (fun i => no_quantity (item_quantity i)) items -> all_zero items = true.
Proof.
  induction 1 as [|i items Hi _ IH]; simpl; [reflexivity|].
  rewrite (no_quantity_falsy _ Hi). exact IH.
Qed.

Lemma all_zero_Exists (items : list Item) :
  Exists (fun i => some_quantity (item_quantity i)) items -> all_zero items = false.
Proof.
  induction 1 as [i items Hi|i items _ IH]; simpl.
  - rewrite (some_quantity_truthy _ Hi). reflexivity.
  - fold (all_zero items). rewrite IH. apply andb_false_r.
Qed.

(** X1: [createPaymentIntent] returns undefined without a request when
    every item's quantity is undefined, NaN or 0, and issues exactly one
    request, [POST /payment_intents] with the currency and the items it
    was given, as soon as one item has a non-zero number, negative
    numbers included; issuing the request writes nothing else. *)
Theorem createPaymentIntent_requests (h : Heap) (currency : string) (items : list Item) :
  let r := exec (createPaymentIntent currency items) h in
  (Forall (fun i => no_quantity (item_quantity i)) items -> r = finished h RUndefined)
  /\ (Exists (fun i => some_quantity (item_quantity i)) items ->
      awaiting (outcome r) = Some (POST_payment_intents currency items)
      /\ heap_after r = with_requests (fun l => l ++ [POST_payment_intents currency items]) h
      /\ spawned r = []).
Proof.
  intros r. subst r. unfold createPaymentIntent. fold (all_zero items). split.
  - intros H. rewrite (all_zero_Forall items H). reflexivity.
  - intros H. rewrite (all_zero_Exists items H). repeat split.
Qed.

Lemma createPaymentIntent_requests_witness :
  let undefined_and_NaN :=
    [ {| item_type := "sku"; item_parent := "sku_1"; item_quantity := None |};
      {| item_type := "sku"; item_parent := "sku_2"; item_quantity := Some NaN |} ] in
  let negative :=
    [ {| item_type := "sku"; item_parent := "sku_1"; item_quantity := Some (Int 0) |};
      {| item_type := "sku"; item_parent := "sku_2"; item_quantity := Some (Int (-2)) |} ] in
  exec (createPaymentIntent "usd" undefined_and_NaN) blank = finished blank RUndefined
  /\ awaiting (outcome (exec (createPaymentIntent "usd" negative) blank))
     = Some (POST_payment_intents "usd" negative).
Proof.
  intros l1 l2. split.
  - apply (proj1 (createPaymentIntent_requests blank "usd" l1)).
    constructor; [left; reflexivity|]. constructor; [right; left; reflexivity|]. constructor.
  - apply (proj2 (createPaymentIntent_requests blank "usd" l2)).
    apply Exists_cons_tl, Exists_cons_hd. left. exists (-2). split; [reflexivity|lia].
Defined.

(** ** Network operations return *)



(** ** The payment total: failure, edits, skipped requests *)


Lemma update_first_miss {A} (p : A -> bool) (f : A -> A) (l : list A) :
  forallb (fun x => negb (p x)) l = true -> update_first p f l = l.
Proof.
  induction l as [|x l IH]; simpl; [reflexivity|].
  intros H. apply andb_true_iff in H. destruct H as [Hx Hl].
  destruct (p x); [discriminate|]. rewrite IH by assumption. reflexivity.
Qed.

Lemma update_first_hit {A} (p : A -> bool) (f : A -> A) (l1 l2 : list A) (x : A) :
  forallb (fun x => negb (p x)) l1 = true ->
  p x = true ->
  update_first p f (l1 ++ x :: l2) = l1 ++ f x :: l2.
Proof.
  intros H1 Hx. induction l1 as [|y l1 IH]; simpl in *.
  - rewrite Hx. reflexivity.
  - apply andb_true_iff in H1. destruct H1 as [Hy Hl].
    destruct (p y); [discriminate|]. rewrite IH by assumption. reflexivity.
Qed.

(** X4: within the range in which the total is computed exactly, an edit
    moves the payment total by the change of the quantity times the
    price of the product's first SKU.  The line item of the product is
    the first one naming it; a value that is not a number counts as
    zero. *)
Theorem updateQuantity_moves_total
    (h : Heap) (id : string) (el : LineItemElement) (l1 l2 : list LineItem) (item : LineItem)
    (price : Z) :
  getElementById id (dom h) = Some el ->
  lineItems (store h) = l1 ++ item :: l2 ->
  li_product item = id ->
  forallb (fun i => negb (String.eqb (li_product i) id)) l1 = true ->
  first_sku_price (products (store h)) id = Some price ->
  exact_range (products (store h)) (lineItems (store h)) ->
  exact_range (products (store h))
              (l1 ++ set_li_quantity (Some (parseInt (el_value el))) item :: l2) ->
  exists total,
    getPaymentTotal (store h) = Ok (Int total)
    /\ getPaymentTotal (store (heap_after (exec (updateQuantity id) h)))
       = Ok (Int (total
                  + (quantity_value (Some (parseInt (el_value el)))
                     - quantity_value (li_quantity item)) * price)).
Proof.
  intros Hel Hsplit Hitem Hl1 Hprice Hbefore Hafter.
  exists (sum_of_line_items (products (store h)) (lineItems (store h))).
  split; [apply getPaymentTotal_sum, Hbefore|].
  destruct (updateQuantity_heap h id el Hel) as (d' & rq & E & _). rewrite E.
  cbn [store]. set (q := parseInt (el_value el)) in *.
  assert (Hitems : lineItems (edited id q (store h)) = l1 ++ set_li_quantity (Some q) item :: l2).
  { unfold edited. cbn [lineItems set_lineItems]. rewrite Hsplit.
    apply update_first_hit; [assumption|]. rewrite Hitem. apply String.eqb_refl. }
  rewrite (getPaymentTotal_sum (edited id q (store h))).
  - change (products (edited id q (store h))) with (products (store h)).
    rewrite Hitems, Hsplit, !sum_of_line_items_app. do 2 f_equal.
    change (sum_of_line_items (products (store h)) (set_li_quantity (Some q) item :: l2))
      with (line_total (products (store h)) (set_li_quantity (Some q) item)
            + sum_of_line_items (products (store h)) l2).
    change (sum_of_line_items (products (store h)) (item :: l2))
      with (line_total (products (store h)) item + sum_of_line_items (products (store h)) l2).
    unfold line_total. cbn [li_quantity li_product set_li_quantity].
    rewrite Hitem, Hprice. simpl. lia.
  - change (products (edited id q (store h))) with (products (store h)).
    rewrite Hitems. exact Hafter.
Qed.

Lemma updateQuantity_moves_total_witness :
  let h := with_dom (set_input_value "shirt" "5") (heap (after page_ready boot)) in
  exists total,
    getPaymentTotal (store h) = Ok (Int total)
    /\ getPaymentTotal (store (heap_after (exec (updateQuantity "shirt") h)))
       = Ok (Int (total + (5 - 0) * 1000)).
Proof.
  intros h.
  apply (updateQuantity_moves_total h "shirt"
           {| el_product := "shirt"; el_name := "Shirt"; el_value := "5";
              el_count := " x $1,000.00"; el_price := "$0.00"; el_sku := "Small" |}
           [] []
           {| li_product := "shirt"; li_sku := "sku_shirt"; li_quantity := Some (Int 0) |}
           1000);
    try reflexivity.
  - split; [|vm_compute; discriminate].
    repeat constructor; [|intros negative; discriminate].
    exists 1000. split; [reflexivity|vm_compute; discriminate].
  - split; [|vm_compute; discriminate].
    repeat constructor; [|intros negative; discriminate].
    exists 1000. split; [reflexivity|vm_compute; discriminate].
Defined.

(** X5: when no line item names the product, [updateQuantity] still
    records the quantity in the quantity map, coerced to 0 when it is not
    a number, but leaves the line items, and with them the payment total,
    as they were. *)
Theorem updateQuantity_without_line_item (h : Heap) (id : string) (el : LineItemElement) :
  getElementById id (dom h) = Some el ->
  forallb (fun i => negb (String.eqb (li_product i) id)) (lineItems (store h)) = true ->
  let s' := store (heap_after (exec (updateQuantity id) h)) in
  lineItems s' = lineItems (store h)
  /\ getPaymentTotal s' = getPaymentTotal (store h)
  /\ quantity s' !! id = Some (or_zero (Some (parseInt (el_value el))))
  /\ ((forall negative, parseInt (el_value el) <> Inf negative) ->
      quantity s' !! id = Some (Int (quantity_value (Some (parseInt (el_value el)))))).
Proof.
  intros Hel Hmiss s'. subst s'.
  destruct (updateQuantity_heap h id el Hel) as (d' & rq & E & _). rewrite E. cbn [store].
  assert (Hitems : lineItems (edited id (parseInt (el_value el)) (store h))
                   = lineItems (store h)).
  { unfold edited. cbn [lineItems set_lineItems]. apply update_first_miss. exact Hmiss. }
  split; [exact Hitems|]. split; [|split].
  - unfold getPaymentTotal. rewrite Hitems. reflexivity.
  - unfold edited. cbn [quantity set_lineItems set_quantity]. apply lookup_insert_eq.
  - intros Hfinite. unfold edited. cbn [quantity set_lineItems set_quantity].
    rewrite lookup_insert_eq, or_zero_finite; [reflexivity|].
    intros negative E'. inversion E' as [E'']. exact (Hfinite negative E'').
Qed.

Lemma updateQuantity_without_line_item_witness :
  let h := with_store (set_lineItems [])
             (with_dom (set_input_value "shirt" "4") (heap (after page_ready boot))) in
  let s' := store (heap_after (exec (updateQuantity "shirt") h)) in
  lineItems s' = []
  /\ getPaymentTotal s' = getPaymentTotal (store h)
  /\ quantity s' !! "shirt" = Some (Int 4)
  /\ ((forall negative, parseInt "4" <> Inf negative) ->
      quantity s' !! "shirt" = Some (Int 4)).
Proof.
  intros h.
  apply (updateQuantity_without_line_item h "shirt"
           {| el_product := "shirt"; el_name := "Shirt"; el_value := "4";
              el_count := " x $1,000.00"; el_price := "$0.00"; el_sku := "Small" |});
    reflexivity.
Defined.

Lemma forallb_map_items {A B} (p : B -> bool) (g : A -> B) (l : list A) :
  forallb p (map g l) = forallb (fun x => p (g x)) l.
Proof. induction l as [|x l IH]; simpl; [reflexivity|]. rewrite IH. reflexivity. Qed.

(** A [reduce] over line items without a quantity, at finite prices. *)
Lemma reduce_zero (s : Store) (items : list LineItem) :
  forallb (fun i => negb (truthy (li_quantity i))) items = true ->
  forallb (finite_price s) items = true ->
  fold_left
    (fun acc item =>
       match acc with
       | Raise e => Raise e
       | Ok total =>
           match unit_price s (li_product item) with
           | Ok p => Ok (add total (mul (or_zero (li_quantity item)) p))
           | Raise e => Raise e
           end
       end)
    items (Ok (Int 0))
  = Ok (Int 0).
Proof.
  induction items as [|item items IH]; intros Hzero Hfinite; [reflexivity|].
  simpl in Hzero, Hfinite.
  apply andb_true_iff in Hzero. destruct Hzero as [Hq Hzero].
  apply andb_true_iff in Hfinite. destruct Hfinite as [Hp Hfinite].
  cbn [fold_left]. unfold finite_price in Hp.
  destruct (unit_price s (li_product item)) as [[|p|negative]|e]; try discriminate.
  rewrite falsy_or_zero by (destruct (truthy (li_quantity item)); [discriminate|reflexivity]).
  exact (IH Hzero Hfinite).
Qed.

(** X6: the request for a payment intent is skipped only when there is
    nothing to pay: if [createPaymentIntent], called as [updateQuantity]
    calls it with the items of [getLineItems], returns without a request,
    and every line item is priced at a finite price, the payment total
    is 0. *)
Theorem skipped_intent_total_zero (h : Heap) (currency : string) :
  forallb (finite_price (store h)) (lineItems (store h)) = true ->
  exec (createPaymentIntent currency (getLineItems (store h))) h = finished h RUndefined ->
  getPaymentTotal (store h) = Ok (Int 0).
Proof.
  intros Hpriced Hskip.
  assert (Hzero : forallb (fun i => negb (truthy (li_quantity i))) (lineItems (store h)) = true).
  { unfold createPaymentIntent, getLineItems in Hskip. rewrite forallb_map_items in Hskip.
    cbn [item_quantity] in Hskip.
    destruct (forallb (fun i => negb (truthy (li_quantity i))) (lineItems (store h)))
      eqn:Hz; [reflexivity|].
    simpl in Hskip. inversion Hskip. }
  unfold getPaymentTotal. apply reduce_zero; assumption.
Qed.

Lemma skipped_intent_total_zero_witness :
  let h := heap (after page_ready boot) in
  getPaymentTotal (store h) = Ok (Int 0).
Proof.
  intros h. apply (skipped_intent_total_zero h "usd"); reflexivity.
Defined.

(** ** The catalog *)

Lemma obj_get_set_eq {V} (k : string) (v : V) (o : JsObject V) :
  obj_get k (obj_set k v o) = Some v.
Proof.
  induction o as [|[k' v'] o IH]; simpl.
  - rewrite String.eqb_refl. reflexivity.
  - destruct (String.eqb k' k) eqn:E; simpl; rewrite E; [reflexivity|exact IH].
Qed.

Lemma obj_get_set_ne {V} (k k' : string) (v : V) (o : JsObject V) :
  k <> k' -> obj_get k' (obj_set k v o) = obj_get k' o.
Proof.
  intros Hne. induction o as [|[k0 v0] o IH]; simpl.
  - destruct (String.eqb_spec k k'); [contradiction|reflexivity].
  - destruct (String.eqb_spec k0 k) as [->|Hk]; simpl.
    + destruct (String.eqb_spec k k'); [contradiction|reflexivity].
    + destruct (String.eqb k0 k'); [reflexivity|exact IH].
Qed.

Lemma obj_set_keys {V} (k : string) (v : V) (o : JsObject V) :
  map fst (obj_set k v o)
  = if present (obj_get k o) then map fst o else map fst o ++ [k].
Proof.
  induction o as [|[k' v'] o IH]; simpl; [reflexivity|].
  destruct (String.eqb k' k) eqn:E; simpl; [reflexivity|].
  rewrite IH. destruct (present (obj_get k o)); reflexivity.
Qed.

(** X7: when the SKUs of a product arrive, [loadSkus] attaches them to
    that product of the catalog and to no other, keeps the order of the
    catalog, and returns undefined; for an id that is not in the catalog
    it returns an error object and writes nothing. *)
Theorem loadSkus_attaches (h h' : Heap) (id : string) (skus : Skus) :
  match obj_get id (products (store h')) with
  | Some p =>
      exists h1,
        settle (outcome (exec (loadSkus id) h)) (ASkus (respond skus)) h'
        = Some (finished h1 RUndefined)
        /\ obj_get id (products (store h1)) = Some (set_product_skus skus p)
        /\ (forall id', id <> id' ->
              obj_get id' (products (store h1)) = obj_get id' (products (store h')))
        /\ map fst (products (store h1)) = map fst (products (store h'))
        /\ quantity (store h1) = quantity (store h')
        /\ lineItems (store h1) = lineItems (store h')
        /\ dom h1 = dom h'
  | None =>
      settle (outcome (exec (loadSkus id) h)) (ASkus (respond skus)) h'
      = Some (finished h'
                (RError (VString "Cannot set properties of undefined (setting 'skus')")))
  end.
Proof.
  simpl. destruct (obj_get id (products (store h'))) as [p|] eqn:Hp; simpl; [|reflexivity].
  eexists. split; [reflexivity|]. simpl. repeat split.
  - apply obj_get_set_eq.
  - intros id' Hne. apply obj_get_set_ne. exact Hne.
  - rewrite obj_set_keys, Hp. reflexivity.
Qed.

Lemma exec_loadProducts_each (prods : list Product) (h : Heap) :
  forallb has_skus prods = true ->
  exec (loadProducts_each prods) h = finished (with_store (recorded prods) h) tt.
Proof.
  revert h. induction prods as [|product prods IH]; intros h Hskus.
  - destruct h as [s d rq pr c]. reflexivity.
  - simpl in Hskus. apply andb_true_iff in Hskus. destruct Hskus as [Hp Hrest].
    unfold has_skus in Hp. simpl. destruct (product_skus product); [|discriminate].
    simpl. rewrite IH by assumption. reflexivity.
Qed.

Lemma recorded_other (prods : list Product) (s : Store) (id : string) :
  ~ In id (map product_id prods) ->
  obj_get id (products (recorded prods s)) = obj_get id (products s)
  /\ quantity (recorded prods s) !! id = quantity s !! id.
Proof.
  revert s. induction prods as [|product prods IH]; intros s Hnot; simpl in *; [auto|].
  destruct (IH (record_product s product)) as [Hp Hq]; [tauto|].
  unfold recorded in *. rewrite Hp, Hq. unfold record_product. simpl. split.
  - apply obj_get_set_ne. tauto.
  - apply lookup_insert_ne. tauto.
Qed.

Lemma recorded_frame (prods : list Product) (s : Store) :
  lineItems (recorded prods s) = lineItems s
  /\ config (recorded prods s) = config s
  /\ productsFetchPromise (recorded prods s) = productsFetchPromise s
  /\ paymentIntent (recorded prods s) = paymentIntent s.
Proof.
  revert s. induction prods as [|product prods IH]; intros s; simpl; [auto|].
  destruct (IH (record_product s product)) as (H1 & H2 & H3 & H4).
  unfold recorded in *. rewrite H1, H2, H3, H4. auto.
Qed.

Lemma recorded_product (prods : list Product) (s : Store) (product : Product) :
  NoDup (map product_id prods) ->
  In product prods ->
  obj_get (product_id product) (products (recorded prods s)) = Some product
  /\ quantity (recorded prods s) !! product_id product = Some (Int 0).
Proof.
  revert s. induction prods as [|p prods IH]; intros s Hnodup Hin; simpl in *; [contradiction|].
  apply NoDup_cons in Hnodup. destruct Hnodup as [Hfresh Hnodup].
  destruct Hin as [->|Hin].
  - destruct (recorded_other prods (record_product s product) (product_id product))
      as [Hp Hq].
    { rewrite <- list_elem_of_In. exact Hfresh. }
    unfold recorded in *. rewrite Hp, Hq. unfold record_product. simpl. split.
    + apply obj_get_set_eq.
    + apply lookup_insert_eq.
  - apply IH; assumption.
Qed.

(** X8: when the catalog arrives and every product carries its SKUs, the
    executor of [loadProducts] records every product under its id with
    quantity 0, issues no further request, resolves the promise and
    finishes; the line items, the configuration and the payment intent
    are not touched.  (Ids are distinct, as in a Stripe product list.) *)
Theorem loadProducts_records_catalog (h h' : Heap) (p : nat) (prods : list Product) :
  prods <> [] ->
  forallb has_skus prods = true ->
  NoDup (map product_id prods) ->
  exists s1,
    settle (outcome (exec (loadProducts_executor p) h))
           (AProducts (respond {| list_data := prods |})) h'
    = Some (finished {| store := s1; dom := dom h'; requests := requests h';
                        promises := <[p := true]> (promises h'); console := console h' |} tt)
    /\ (forall product, In product prods ->
          obj_get (product_id product) (products s1) = Some product
          /\ quantity s1 !! product_id product = Some (Int 0))
    /\ lineItems s1 = lineItems (store h')
    /\ config s1 = config (store h')
    /\ paymentIntent s1 = paymentIntent (store h').
Proof.
  intros Hne Hskus Hnodup. exists (recorded prods (store h')).
  destruct (recorded_frame prods (store h')) as (H1 & H2 & _ & H4).
  split; [|split; [|auto]].
  - simpl. destruct prods as [|product prods]; [contradiction|].
    rewrite (exec_bind_finished _ _ _ _ _ (exec_loadProducts_each (product :: prods) h' Hskus)).
    reflexivity.
  - intros product Hin. apply recorded_product; assumption.
Qed.

Lemma loadProducts_records_catalog_witness :
  exists s1,
    settle (outcome (exec (loadProducts_executor 0) blank))
           (AProducts (respond {| list_data := [shirt] |})) (heap boot)
    = Some (finished {| store := s1; dom := dom (heap boot); requests := requests (heap boot);
                        promises := <[0%nat := true]> (promises (heap boot));
                        console := console (heap boot) |} tt)
    /\ (forall product, In product [shirt] ->
          obj_get (product_id product) (products s1) = Some product
          /\ quantity s1 !! product_id product = Some (Int 0))
    /\ lineItems s1 = lineItems (store (heap boot))
    /\ config s1 = config (store (heap boot))
    /\ paymentIntent s1 = paymentIntent (store (heap boot)).
Proof.
  apply (loadProducts_records_catalog blank (heap boot) 0 [shirt]).
  - discriminate.
  - reflexivity.
  - apply NoDup_cons. split; [apply not_elem_of_nil|apply NoDup_nil_2].
Defined.

Lemma exec_loadProducts_each_app (l1 l2 : list Product) (h : Heap) :
  forallb has_skus l1 = true ->
  exec (loadProducts_each (l1 ++ l2)) h
  = exec (loadProducts_each l2) (with_store (recorded l1) h).
Proof.
  revert h. induction l1 as [|q l1 IH]; intros h Hskus.
  - destruct h; reflexivity.
  - simpl in Hskus. apply andb_true_iff in Hskus. destruct Hskus as [Hq Hrest].
    unfold has_skus in Hq. simpl. destruct (product_skus q); [|discriminate].
    simpl. rewrite (IH _ Hrest). reflexivity.
Qed.

Lemma executor_nonempty (prods : list Product) (p : nat) (h : Heap) :
  prods <> [] ->
  exec match prods with
       | [] => Throw (JS.Error
           "No products on Stripe account! Make sure the setup script has run properly.")
       | _ :: _ => let* _ := loadProducts_each prods in resolve p
       end h
  = exec (let* _ := loadProducts_each prods in resolve p) h.
Proof. destruct prods; [contradiction|reflexivity]. Qed.

(** X9: the SKUs are fetched for the products that lack them, one at a
    time and in the order of the list: with the products before it
    carrying their SKUs, the executor records them and the first product
    without SKUs, requests that product's SKUs and waits, the promise
    still pending. *)
Theorem loadProducts_fetches_missing_skus
    (h h' : Heap) (p : nat) (l1 l2 : list Product) (product : Product) :
  forallb has_skus l1 = true ->
  product_skus product = None ->
  exists r,
    settle (outcome (exec (loadProducts_executor p) h))
           (AProducts (respond {| list_data := l1 ++ product :: l2 |})) h'
    = Some r
    /\ awaiting (outcome r) = Some (GET_product_skus (product_id product))
    /\ heap_after r
       = {| store := recorded (l1 ++ [product]) (store h'); dom := dom h';
            requests := requests h' ++ [GET_product_skus (product_id product)];
            promises := promises h'; console := console h' |}
    /\ spawned r = [].
Proof.
  intros Hskus Hnone. eexists. split; [reflexivity|].
  simpl. rewrite executor_nonempty by (destruct l1; discriminate).
  rewrite exec_bind, (exec_loadProducts_each_app l1 (product :: l2) h' Hskus).
  simpl. rewrite Hnone. simpl.
  unfold recorded. rewrite fold_left_app. repeat split.
Qed.

Lemma loadProducts_fetches_missing_skus_witness :
  let bare := {| product_id := "pins"; product_name := "Pins"; product_skus := None |} in
  exists r,
    settle (outcome (exec (loadProducts_executor 0) blank))
           (AProducts (respond {| list_data := [shirt] ++ bare :: [] |})) (heap boot)
    = Some r
    /\ awaiting (outcome r) = Some (GET_product_skus "pins")
    /\ heap_after r
       = {| store := recorded ([shirt] ++ [bare]) (store (heap boot)); dom := dom (heap boot);
            requests := requests (heap boot) ++ [GET_product_skus "pins"];
            promises := promises (heap boot); console := console (heap boot) |}
    /\ spawned r = [].
Proof.
  intros bare.
  apply (loadProducts_fetches_missing_skus blank (heap boot) 0 [shirt] [] bare); reflexivity.
Defined.

(** *** A stalled page stays stalled *)

Section Stalled.

Variable p : nat.

Ltac stalled_write :=
  let h := fresh "h" in
  let H1 := fresh in let H2 := fresh in let H3 := fresh in
  let H4 := fresh in let H5 := fresh in
  intros h (H1 & H2 & H3 & H4 & H5); unfold stalled; cbn;
  rewrite ?H4; repeat split; assumption.

Ltac stalled_step :=
  first
    [ apply preserves_Ret
    | apply preserves_Throw
    | apply preserves_liftR
    | apply preserves_await_json
    | apply preserves_Modify; [solve [stalled_write]|]
    | apply preserves_Fetch; [solve [stalled_write]|intros ?]
    | apply preserves_bind; [|intros ?]
    | apply preserves_try_catch; [|intros ?]
    | match goal with
      | |- preserves _ (match ?x with _ => _ end) => destruct x
      end ].

Lemma stalled_this {A} (f : Store -> Task A) :
  (forall s, productsFetchPromise s = Some p -> products s = [] -> lineItems s = [] ->
             preserves (stalled p) (f s)) ->
  preserves (stalled p) (let* s := this in f s).
Proof.
  intros Hf. cbn [this bind]. apply preserves_Get. intros h (H1 & _ & H3 & H4 & _).
  apply Hf; assumption.
Qed.

Lemma stalled_getConfig : preserves (stalled p) getConfig.
Proof. unfold getConfig, fetch, update_document, update_this. repeat stalled_step. Qed.

Lemma stalled_loadSkus id : preserves (stalled p) (loadSkus id).
Proof.
  unfold loadSkus. apply preserves_try_catch; [|intros e; constructor].
  apply preserves_bind; [unfold fetch; repeat stalled_step|].
  intros response. apply preserves_bind; [apply preserves_await_json|intros skus].
  apply stalled_this. intros s _ Hproducts _. rewrite Hproducts. constructor.
Qed.

Lemma stalled_loadProducts : preserves (stalled p) loadProducts.
Proof.
  unfold loadProducts. apply stalled_this. intros s Hp _ _. rewrite Hp.
  cbn [bind]. apply stalled_this. intros s' _ _ _. constructor.
Qed.

Lemma stalled_createPaymentIntent currency items :
  preserves (stalled p) (createPaymentIntent currency items).
Proof.
  unfold createPaymentIntent, fetch, update_this. repeat stalled_step.
Qed.

Lemma stalled_updatePaymentIntentWithShippingCost intent items option_ :
  preserves (stalled p) (updatePaymentIntentWithShippingCost intent items option_).
Proof.
  unfold updatePaymentIntentWithShippingCost, fetch. repeat stalled_step.
Qed.

Lemma stalled_rerenderTotal currency : preserves (stalled p) (rerenderTotal currency).
Proof.
  unfold rerenderTotal. apply stalled_this. intros s _ _ _.
  unfold update_document. repeat stalled_step.
Qed.

Lemma stalled_updateButtonLabel amount : preserves (stalled p) (updateButtonLabel amount).
Proof. unfold updateButtonLabel, update_document. repeat stalled_step. Qed.

Lemma stalled_updateTotal : preserves (stalled p) updateTotal.
Proof.
  unfold updateTotal. apply stalled_this. intros s _ Hproducts _. rewrite Hproducts.
  cbn [entries index_entries map List.filter app updateTotal_each bind].
  apply preserves_bind; [apply stalled_rerenderTotal|intros total].
  apply stalled_updateButtonLabel.
Qed.

(** Without a quantity input [updateQuantity] throws at once. *)
Lemma stalled_updateQuantity id : preserves (stalled p) (updateQuantity id).
Proof.
  unfold updateQuantity. cbn [document bind]. apply preserves_Get.
  intros h (_ & _ & _ & _ & Hdom). unfold getElementById. rewrite Hdom. constructor.
Qed.

Lemma stalled_createCharge token metadata : preserves (stalled p) (createCharge token metadata).
Proof.
  unfold createCharge. apply stalled_this. intros s _ _ _.
  apply preserves_bind; [apply preserves_liftR|intros amount].
  apply preserves_try_catch;
    [|intros e; unfold console_error; repeat stalled_step].
  apply stalled_this. intros s' _ _ _.
  apply preserves_bind; [destruct (config s'); constructor|intros cfg].
  apply preserves_bind; [unfold fetch; repeat stalled_step|].
  intros response. apply preserves_bind; [apply preserves_await_json|intros result].
  constructor.
Qed.

(** [displayPaymentSummary] finds the promise stored and waits for it. *)
Lemma stalled_displayPaymentSummary (h : Heap) :
  stalled p h ->
  exists k,
    exec displayPaymentSummary h
    = {| heap_after := h; spawned := []; outcome := OnPromise p k |}.
Proof.
  intros (Hp & _). unfold displayPaymentSummary, loadProducts. cbn [this bind exec].
  rewrite Hp. cbn [bind exec productsFetchPromise]. rewrite Hp.
  eexists. reflexivity.
Qed.

Lemma job_ok_stalled (j : Job) : job_ok (stalled p) j -> job_stalled p j.
Proof. destruct j; simpl; auto. Qed.

Lemma run_stalled (t : Task unit) (w : World) :
  preserves (stalled p) t -> world_stalled p w -> world_stalled p (run t w).
Proof.
  intros Ht [Ph Hjobs].
  destruct (preserves_exec (stalled p) t Ht (heap w) Ph) as (P1 & J1 & O1).
  split; [exact P1|]. cbn [run jobs].
  apply Forall_app; split; [assumption|].
  apply Forall_app; split.
  - eapply Forall_impl; [exact J1|]. intros j. apply job_ok_stalled.
  - apply suspended_ok in O1. eapply Forall_impl; [exact O1|]. intros j. apply job_ok_stalled.
Qed.

Lemma fire_stalled (e : Event) (w w' : World) :
  world_stalled p w -> fire e w = Some w' -> world_stalled p w'.
Proof.
  intros Hw Hfire. destruct e as [id raw|i a|i|c]; simpl in Hfire.
  - destruct Hw as [(_ & _ & _ & _ & Hdom) _]. unfold getElementById in Hfire.
    rewrite Hdom in Hfire. discriminate.
  - destruct (jobs w !! i) as [[req k|q k]|] eqn:Hjob; try discriminate.
    destruct (answer_for req a) as [r|]; [|discriminate].
    inversion Hfire; subst. destruct Hw as [Ph Hjobs]. apply run_stalled.
    + rewrite Forall_lookup in Hjobs. apply (Hjobs i _ Hjob).
    + split; [exact Ph|]. cbn [without_job jobs]. apply Forall_delete. exact Hjobs.
  - destruct (jobs w !! i) as [[req k|q k]|] eqn:Hjob; try discriminate.
    destruct (promises (heap w) !! q) as [[|]|] eqn:Hq; try discriminate.
    inversion Hfire; subst. destruct Hw as [Ph Hjobs].
    assert (Hk : preserves (stalled p) k).
    { rewrite Forall_lookup in Hjobs. destruct (Hjobs i _ Hjob) as [->|Hk]; [|exact Hk].
      destruct Ph as (_ & Hpending & _). congruence. }
    apply run_stalled; [exact Hk|].
    split; [exact Ph|]. cbn [without_job jobs]. apply Forall_delete. exact Hjobs.
  - inversion Hfire; subst. destruct c; cbn [call_task]; unfold discard;
      try (apply run_stalled;
           [first [ apply stalled_updateQuantity | apply stalled_updateTotal
                  | apply stalled_updateButtonLabel
                  | apply preserves_bind; [|intros ?; constructor] ]|exact Hw]).
    + apply stalled_getConfig.
    + apply stalled_loadSkus.
    + apply stalled_loadProducts.
    + apply stalled_createPaymentIntent.
    + apply stalled_updatePaymentIntentWithShippingCost.
    + destruct Hw as [Ph Hjobs].
      destruct (stalled_displayPaymentSummary (heap w) Ph) as [k E].
      unfold run. rewrite E. cbn [heap_after spawned outcome suspended].
      split; [exact Ph|]. cbn [jobs].
      apply Forall_app; split; [exact Hjobs|]. repeat constructor.
    + apply stalled_rerenderTotal.
    + apply stalled_createCharge.
Qed.

Lemma follows_stalled (w0 w : World) :
  world_stalled p w0 -> follows w0 w -> world_stalled p w.
Proof.
  intros H0 Hw. induction Hw as [|e w w' Hw IH Hfire]; [exact H0|].
  apply (fire_stalled e w w'); assumption.
Qed.

End Stalled.

Lemma follows_after (evs : list Event) (w0 w : World) :
  follows w0 w -> enabled evs w = true -> follows w0 (after evs w).
Proof.
  revert w. induction evs as [|e evs IH]; intros w Hw Hrun; simpl in *; [assumption|].
  destruct (fire e w) as [w1|] eqn:Hfire; [|discriminate].
  apply IH; [|assumption]. apply (follows_fire w0 e w w1); assumption.
Qed.

(** X10: an empty catalog stops the page for good.  The executor throws
    and writes nothing.  In the world that leaves, and in every world
    that follows it, whatever is answered, called or typed, the promise
    of [loadProducts] is pending, the catalog and the line items are
    empty, no quantity input is on the page, no edit can happen, and a
    call waiting for the promise cannot be resumed. *)
Theorem empty_catalog_stops_the_page :
  (forall h h' p,
     settle (outcome (exec (loadProducts_executor p) h))
            (AProducts (respond {| list_data := [] |})) h'
     = Some {| heap_after := h'; spawned := [];
               outcome := Threw (JS.Error
                 "No products on Stripe account! Make sure the setup script has run properly.") |})
  /\ reachable (after empty_catalog boot)
  /\ forall w,
       follows (after empty_catalog boot) w ->
       productsFetchPromise (store (heap w)) = Some 0%nat
       /\ promises (heap w) !! 0%nat = Some false
       /\ products (store (heap w)) = []
       /\ lineItems (store (heap w)) = []
       /\ order_items (dom (heap w)) = []
       /\ (forall id raw, fire (Input id raw) w = None)
       /\ (forall i k, jobs w !! i = Some (JPromise 0 k) -> fire (Wake i) w = None).
Proof.
  split; [reflexivity|]. split.
  - apply (reachable_after empty_catalog boot reachable_boot). reflexivity.
  - intros w Hw.
    assert (H0 : world_stalled 0 (after empty_catalog boot)).
    { split; [repeat split|]. repeat constructor. }
    destruct (follows_stalled 0 _ w H0 Hw) as [(Hp & Hpending & Hproducts & Hitems & Hdom) _].
    repeat split; try assumption.
    + intros id raw. simpl. unfold getElementById. rewrite Hdom. reflexivity.
    + intros i k Hjob. simpl. rewrite Hjob, Hpending. reflexivity.
Qed.

Lemma empty_catalog_stops_the_page_witness :
  let w := after [External call_getConfig; Settle 1 (AConfig (respond test_config));
                  External (call_updateQuantity "shirt")]
                 (after empty_catalog boot) in
  promises (heap w) !! 0%nat = Some false
  /\ order_items (dom (heap w)) = []
  /\ config (store (heap w)) = Some test_config.
Proof.
  intros w.
  assert (Hw : follows (after empty_catalog boot) w).
  { apply follows_after; [apply follows_here|reflexivity]. }
  destruct (proj2 (proj2 empty_catalog_stops_the_page) w Hw) as (_ & H1 & _ & _ & H2 & _).
  split; [exact H1|]. split; [exact H2|reflexivity].
Defined.

(** ** createCharge *)

(** X11: [createCharge] computes the amount before its [try]: when the
    payment total cannot be computed the exception escapes and nothing is
    requested.  Otherwise, with the configuration loaded it posts the
    token, the payment total, the configured currency and the metadata to
    [/charges]; without it the failure is caught, logged, and the call
    returns undefined without a request. *)
Theorem createCharge_request (h : Heap) (token metadata : Value) :
  let r := exec (createCharge token metadata) h in
  match getPaymentTotal (store h), config (store h) with
  | Raise e, _ => r = {| heap_after := h; spawned := []; outcome := Threw e |}
  | Ok amount, Some cfg =>
      awaiting (outcome r) = Some (POST_charges token amount (config_currency cfg) metadata)
      /\ heap_after r
         = with_requests
             (fun l => l ++ [POST_charges token amount (config_currency cfg) metadata]) h
      /\ spawned r = []
  | Ok amount, None =>
      r = finished (with_console (fun l => l ++ ["failed to create a charge"]) h) RUndefined
  end.
Proof.
  unfold createCharge. simpl.
  destruct (getPaymentTotal (store h)) as [amount|e]; simpl; [|reflexivity].
  destruct (config (store h)) as [cfg|]; simpl; [repeat split|reflexivity].
Qed.

(** ** Editing without the configuration *)

(** X12: [updateQuantity] reads the configuration last.  On a renderable
    page whose configuration is not loaded the edit is recorded and the
    page shows the new total (a total that is NaN is shown as 0), then
    the call throws a TypeError and no payment intent is requested. *)
Theorem updateQuantity_without_config (h : Heap) (id : string) (el : LineItemElement) :
  getElementById id (dom h) = Some el ->
  renderable h = true ->
  config (store h) = None ->
  let r := exec (updateQuantity id) h in
  outcome r = Threw (TypeError "Cannot read properties of null (reading 'currency')")
  /\ store (heap_after r) = edited id (parseInt (el_value el)) (store h)
  /\ requests (heap_after r) = requests h
  /\ exists total currency text,
       getPaymentTotal (store (heap_after r)) = Ok total
       /\ formatPrice (or_zero (Some total)) (Some currency) = Ok text
       /\ data_total (dom (heap_after r)) = text
       /\ submit_label (dom (heap_after r)) = "Pay " +:+ text.
Proof.
  intros Hel Hr Hcfg r.
  destruct (updateQuantity_ok h id el Hel Hr)
    as (d' & z & currency & text & E & Ho & Hz & _ & Htext & _ & Htot & Hlabel & _).
  subst r. rewrite Ho, E, Hcfg. cbn [store dom requests]. repeat split.
  exists z, currency, text. repeat split; assumption.
Qed.

Lemma updateQuantity_without_config_witness :
  let h := with_dom (set_input_value "shirt" "2") (heap (after catalog_shown boot)) in
  let r := exec (updateQuantity "shirt") h in
  outcome r = Threw (TypeError "Cannot read properties of null (reading 'currency')")
  /\ store (heap_after r) = edited "shirt" (parseInt "2") (store h)
  /\ requests (heap_after r) = requests h
  /\ exists total currency text,
       getPaymentTotal (store (heap_after r)) = Ok total
       /\ formatPrice (or_zero (Some total)) (Some currency) = Ok text
       /\ data_total (dom (heap_after r)) = text
       /\ submit_label (dom (heap_after r)) = "Pay " +:+ text.
Proof.
  intros h.
  apply (updateQuantity_without_config h "shirt"
           {| el_product := "shirt"; el_name := "Shirt"; el_value := "2";
              el_count := " x $1,000.00"; el_price := "$0.00"; el_sku := "Small" |});
    reflexivity.
Defined.

(** ** What repainting leaves alone *)

Section Repaint.

Variable P : Heap -> Prop.
Hypothesis R : repaint_stable P.

Ltac repaint_step :=
  first
    [ apply preserves_Ret
    | apply preserves_Throw
    | assumption
    | apply preserves_liftR
    | apply preserves_await_json
    | apply preserves_Get; intros ? ?
    | apply preserves_Modify;
      [ intros ? ?;
        first [ apply (repaint_store P R) | apply (repaint_price P R)
              | apply (repaint_subtotal P R) | apply (repaint_total P R)
              | apply (repaint_label P R) ]; assumption |]
    | apply preserves_Fetch; [intros ? ?; apply (repaint_requests P R); assumption|intros ?]
    | apply preserves_Spawn
    | apply preserves_bind; [|intros ?]
    | apply preserves_try_catch; [|intros ?]
    | match goal with
      | |- preserves _ (match ?x with _ => _ end) => destruct x
      end ].

Lemma repaint_rerenderTotal currency : preserves P (rerenderTotal currency).
Proof. unfold rerenderTotal. repeat repaint_step. Qed.

Lemma repaint_updateTotal_each es currency : preserves P (updateTotal_each es currency).
Proof.
  revert currency. induction es as [|[id product] es IH]; intros currency; simpl.
  - constructor.
  - repeat repaint_step. apply IH.
Qed.

Lemma repaint_updateTotal : preserves P updateTotal.
Proof.
  unfold updateTotal. apply preserves_bind; [repeat repaint_step|intros s].
  apply preserves_bind; [apply repaint_updateTotal_each|intros currency].
  apply preserves_bind; [apply repaint_rerenderTotal|intros total].
  unfold updateButtonLabel. repeat repaint_step.
Qed.

Lemma repaint_createPaymentIntent currency items :
  preserves P (createPaymentIntent currency items).
Proof. unfold createPaymentIntent. repeat repaint_step. Qed.

Lemma repaint_updateQuantity id : preserves P (updateQuantity id).
Proof.
  unfold updateQuantity.
  apply preserves_bind; [repeat repaint_step|intros d].
  apply preserves_bind; [repeat repaint_step|intros input].
  apply preserves_bind; [repeat repaint_step|intros _].
  apply preserves_bind; [repeat repaint_step|intros _].
  apply preserves_bind; [apply repaint_updateTotal|intros _].
  apply preserves_bind; [repeat repaint_step|intros s].
  apply preserves_bind; [repeat repaint_step|intros cfg].
  apply preserves_Spawn; [|constructor].
  apply preserves_bind; [apply repaint_createPaymentIntent|intros _; constructor].
Qed.

End Repaint.

Lemma inputs_update_price (id text : string) (d : Dom) :
  inputs (set_price_text id text d) = inputs d.
Proof. unfold inputs. simpl. apply map_update_first. reflexivity. Qed.

Lemma same_inputs_stable (i : list (string * string)) (v : string) :
  repaint_stable (fun h => inputs (dom h) = i /\ demo_display (dom h) = v).
Proof.
  split; try (intros; assumption).
  intros id text h [Hi Hv]. split; [|assumption].
  simpl. rewrite inputs_update_price. assumption.
Qed.

(** X13: [updateTotal] only repaints.  Whether it completes or throws on
    the way, it leaves the controller, the list of requests, the promises
    and the console as they were, suspends on nothing and starts nothing,
    and on the page it keeps every quantity input with the value the
    user typed. *)
Theorem updateTotal_only_repaints (h : Heap) :
  let r := exec updateTotal h in
  unpainted (heap_after r) = unpainted h
  /\ spawned r = []
  /\ ((exists a, outcome r = Returned a) \/ (exists e, outcome r = Threw e)).
Proof.
  intros r. subst r.
  destruct (renders_exec updateTotal h renders_updateTotal) as (d' & res & E & Hres).
  destruct (preserves_exec _ updateTotal
              (repaint_updateTotal _ (same_inputs_stable (inputs (dom h)) (demo_display (dom h))))
              h (conj eq_refl eq_refl)) as ([Hi Hv] & _).
  rewrite E in *. simpl in Hi, Hv. unfold unpainted. simpl. rewrite Hi, Hv.
  repeat split. exact Hres.
Qed.

(** ** What an edit leaves alone *)

Lemma update_first_In_other {A} (p : A -> bool) (f : A -> A) (l : list A) (x : A) :
  In x l -> p x = false -> In x (update_first p f l).
Proof.
  intros Hin Hp. induction l as [|y l IH]; simpl in *; [contradiction|].
  destruct Hin as [->|Hin].
  - rewrite Hp. left. reflexivity.
  - destruct (p y); [right; assumption|right; auto].
Qed.

Lemma updateQuantity_inputs (h : Heap) (id : string) :
  inputs (dom (heap_after (exec (updateQuantity id) h))) = inputs (dom h).
Proof.
  destruct (preserves_exec _ (updateQuantity id)
              (repaint_updateQuantity _
                 (same_inputs_stable (inputs (dom h)) (demo_display (dom h))) id)
              h (conj eq_refl eq_refl)) as ([Hi _] & _).
  exact Hi.
Qed.

(** X14: an edit touches one product.  Without the quantity input of the
    product, [updateQuantity] throws before it writes anything.  With it,
    the quantities of the other products, the line items that name other
    products, the product and the SKU of every line item, the catalog,
    the configuration, the memoized promise and the stored payment intent
    are left as they were, and so are the values typed into the inputs. *)
Theorem updateQuantity_touches_one_product (h : Heap) (id : string) :
  let r := exec (updateQuantity id) h in
  let s := store h in
  let s' := store (heap_after r) in
  match getElementById id (dom h) with
  | None =>
      r = {| heap_after := h; spawned := [];
             outcome := Threw (TypeError "Cannot read properties of null (reading 'value')") |}
  | Some _ =>
      (forall id', id <> id' -> quantity s' !! id' = quantity s !! id')
      /\ (forall item, In item (lineItems s) -> li_product item <> id -> In item (lineItems s'))
      /\ map li_product (lineItems s') = map li_product (lineItems s)
      /\ map li_sku (lineItems s') = map li_sku (lineItems s)
      /\ products s' = products s
      /\ config s' = config s
      /\ productsFetchPromise s' = productsFetchPromise s
      /\ paymentIntent s' = paymentIntent s
      /\ promises (heap_after r) = promises h
      /\ console (heap_after r) = console h
      /\ inputs (dom (heap_after r)) = inputs (dom h)
  end.
Proof.
  intros r s s'. destruct (getElementById id (dom h)) as [el|] eqn:Hel.
  - pose proof (updateQuantity_inputs h id) as Hinputs.
    destruct (updateQuantity_heap h id el Hel) as (d' & rq & E & _).
    subst s' r. rewrite E in *. cbn [store promises console dom] in *.
    unfold edited. cbn [quantity lineItems products config productsFetchPromise
                        paymentIntent set_lineItems set_quantity].
    repeat split; try assumption.
    + intros id' Hne. apply lookup_insert_ne. exact Hne.
    + intros item Hin Hne. apply update_first_In_other; [assumption|].
      destruct (String.eqb_spec (li_product item) id); [contradiction|reflexivity].
    + apply map_update_first. reflexivity.
    + apply map_update_first. reflexivity.
  - subst r. unfold updateQuantity. simpl. rewrite Hel. reflexivity.
Qed.

Lemma update_first_idempotent {A} (p : A -> bool) (f : A -> A) (l : list A) :
  (forall x, p (f x) = p x) ->
  (forall x, f (f x) = f x) ->
  update_first p f (update_first p f l) = update_first p f l.
Proof.
  intros Hp Hf. induction l as [|x l IH]; simpl; [reflexivity|].
  destruct (p x) eqn:Hx; simpl.
  - rewrite Hp, Hx, Hf. reflexivity.
  - rewrite Hx, IH. reflexivity.
Qed.

Lemma edited_idempotent (id : string) (q : Number) (s : Store) :
  edited id q (edited id q s) = edited id q s.
Proof.
  unfold edited, set_lineItems, set_quantity. simpl.
  rewrite update_first_idempotent by reflexivity.
  rewrite insert_insert_eq. reflexivity.
Qed.

Lemma same_inputs_value (id : string) (l l' : list LineItemElement) (el : LineItemElement) :
  map (fun el => (el_product el, el_value el)) l'
  = map (fun el => (el_product el, el_value el)) l ->
  List.find (fun el => String.eqb (el_product el) id) l = Some el ->
  exists el',
    List.find (fun el => String.eqb (el_product el) id) l' = Some el'
    /\ el_value el' = el_value el.
Proof.
  revert l'. induction l as [|x l IH]; intros [|x' l'] E Hfind; simpl in *; try discriminate.
  inversion E as [[Ep Ev El]]. rewrite Ep.
  destruct (String.eqb (el_product x) id).
  - inversion Hfind; subst. eauto.
  - apply IH; assumption.
Qed.

(** X15: editing twice with the same input is editing once, as far as the
    controller goes: a second [updateQuantity] on the page the first one
    left finds the same value in the input and leaves the quantity map,
    the line items and the rest of the controller as the first left
    them. *)
Theorem updateQuantity_twice (h : Heap) (id : string) (el : LineItemElement) :
  getElementById id (dom h) = Some el ->
  let h1 := heap_after (exec (updateQuantity id) h) in
  store (heap_after (exec (updateQuantity id) h1)) = store h1.
Proof.
  intros Hel h1.
  destruct (same_inputs_value id (order_items (dom h)) (order_items (dom h1)) el
              (updateQuantity_inputs h id) Hel) as (el1 & Hel1 & Hv).
  destruct (updateQuantity_heap h1 id el1 Hel1) as (d2 & rq2 & E2 & _).
  rewrite E2. cbn [store]. rewrite Hv.
  destruct (updateQuantity_heap h id el Hel) as (d1 & rq1 & E1 & _).
  subst h1. rewrite E1. cbn [store]. apply edited_idempotent.
Qed.

Lemma updateQuantity_twice_witness :
  let h := with_dom (set_input_value "shirt" "7") (heap (after page_ready boot)) in
  let h1 := heap_after (exec (updateQuantity "shirt") h) in
  store (heap_after (exec (updateQuantity "shirt") h1)) = store h1.
Proof.
  intros h.
  apply (updateQuantity_twice h "shirt"
           {| el_product := "shirt"; el_name := "Shirt"; el_value := "7";
              el_count := " x $1,000.00"; el_price := "$0.00"; el_sku := "Small" |}).
  reflexivity.
Defined.

(** ** Displaying the payment summary *)

Lemma first_sku_reading (p : Product) (r1 r2 : string) (sku : Sku) :
  first_sku p r1 = Ok sku -> first_sku p r2 = Ok sku.
Proof.
  unfold first_sku. destruct (product_skus p) as [skus|]; [|discriminate].
  destruct (skus_data skus); [discriminate|auto].
Qed.

Lemma listed_parts (s : Store) (e : string * Product) :
  listed s e = true ->
  product_id (snd e) = fst e
  /\ (exists sku, first_sku (snd e) "price" = Ok sku
                  /\ well_formed_currency (sku_currency sku) = true)
  /\ exists price, unit_price s (fst e) = Ok price.
Proof.
  unfold listed. intros H.
  apply andb_true_iff in H. destruct H as [H Hunit].
  apply andb_true_iff in H. destruct H as [Hid Hsku].
  split; [apply String.eqb_eq; assumption|]. split.
  - destruct (first_sku (snd e) "price") as [sku|]; [eauto|discriminate].
  - destruct (unit_price s (fst e)) as [price|]; [eauto|discriminate].
Qed.

(** The loop of [displayPaymentSummary]: one element and one line item per
    entry, in order. *)
Lemma displayPaymentSummary_each_ok
    (es : list (string * Product)) (s0 : Store) (h : Heap) (c0 : option string) :
  forallb (listed s0) es = true ->
  quantity (store h) = quantity s0 ->
  exists d',
    exec (displayPaymentSummary_each es c0) h
    = finished {| store := set_lineItems (lineItems (store h) ++ map (line_item_of s0) es)
                                         (store h);
                  dom := d'; requests := requests h; promises := promises h;
                  console := console h |}
               (last_currency es c0)
    /\ map el_product (order_items d')
       = map el_product (order_items (dom h)) ++ map (fun e => product_id (snd e)) es.
Proof.
  revert h c0. induction es as [|[id product] es IH]; intros h c0 Hl Hq.
  - exists (dom h). simpl. rewrite !app_nil_r. split; [|reflexivity].
    destruct h as [[] ? ? ? ?]. reflexivity.
  - simpl in Hl. apply andb_true_iff in Hl. destruct Hl as [He Hes].
    destruct (listed_parts s0 (id, product) He) as (Hid & (sku & Hsku & Hwf) & _).
    simpl in Hid, Hsku.
    destruct (formatPrice_ok (price_of sku) _ Hwf) as [skuPrice HskuPrice].
    destruct (formatPrice_ok (mul (price_of sku) (to_number (quantity (store h) !! id)))
                             _ Hwf) as [linePrice HlinePrice].
    set (el := {| el_product := product_id product; el_name := product_name product;
                  el_value := number_attribute (quantity (store h) !! product_id product);
                  el_count := " x " +:+ skuPrice; el_price := linePrice;
                  el_sku := sku_description sku |}).
    set (li := {| li_product := product_id product; li_sku := sku_id sku;
                  li_quantity := quantity (store h) !! id |}).
    set (h1 := with_store (fun s => set_lineItems (lineItems s ++ [li]) s)
                 (with_dom (fun d => set_order_items (order_items d ++ [el]) d) h)).
    destruct (IH h1 (Some (sku_currency sku)) Hes Hq) as (d' & E & Hd').
    exists d'. split.
    + cbn [displayPaymentSummary_each this bind exec]. rewrite Hsku.
      cbn [liftR bind exec]. rewrite HskuPrice. cbn [liftR bind exec].
      rewrite HlinePrice. cbn [liftR bind exec update_document update_this].
      fold el. fold li. fold h1. rewrite E.
      unfold last_currency. simpl. rewrite (first_sku_reading _ _ "currency" _ Hsku).
      unfold line_item_of. simpl. rewrite Hsku, <- Hq. fold li.
      rewrite <- app_assoc. reflexivity.
    + rewrite Hd'. simpl. rewrite map_app, <- app_assoc. reflexivity.
Qed.

Lemma present_find (id : string) (l : list LineItemElement) :
  In id (map el_product l) ->
  present (List.find (fun el => String.eqb (el_product el) id) l) = true.
Proof.
  induction l as [|x l IH]; simpl; [contradiction|].
  intros [E|Hin].
  - rewrite E, String.eqb_refl. reflexivity.
  - destruct (String.eqb (el_product x) id); [reflexivity|auto].
Qed.

Lemma rerenderTotal_ok (h : Heap) (total : Number) (c text : string) :
  getPaymentTotal (store h) = Ok total ->
  formatPrice (or_zero (Some total)) (Some c) = Ok text ->
  exec (rerenderTotal (Some c)) h
  = finished (with_dom (fun d => set_data_total text (set_data_subtotal text d)) h) text.
Proof.
  intros Hz Htext. unfold rerenderTotal. cbn [this bind exec]. rewrite Hz.
  cbn [liftR bind exec]. rewrite Htext. reflexivity.
Qed.

(** [displayPaymentSummary] resumed on a loaded catalog: the line items
    and the blocks are appended to those the page has. *)
Lemma displayPaymentSummary_resumed (h0 h : Heap) :
  entries (products (store h)) <> [] ->
  forallb (listed (store h)) (entries (products (store h))) = true ->
  forallb (priced (store h)) (lineItems (store h)) = true ->
  exists r,
    wake (outcome (exec displayPaymentSummary h0)) h = Some r
    /\ outcome r = Returned tt
    /\ lineItems (store (heap_after r))
       = lineItems (store h) ++ map (line_item_of (store h)) (entries (products (store h)))
    /\ map el_product (order_items (dom (heap_after r)))
       = map el_product (order_items (dom h))
         ++ map (fun e => product_id (snd e)) (entries (products (store h)))
    /\ requests (heap_after r) = requests h
    /\ renderable (heap_after r) = true.
Proof.
  intros Hne Hlisted Hold.
  set (es := entries (products (store h))) in *.
  destruct (displayPaymentSummary_each_ok es (store h) h None Hlisted eq_refl)
    as (d1 & Eloop & Hd1).
  set (s1 := set_lineItems (lineItems (store h) ++ map (line_item_of (store h)) es) (store h))
    in *.
  set (h1 := {| store := s1; dom := d1; requests := requests h; promises := promises h;
                console := console h |}) in *.
  assert (Hkeys : forall e, In e es -> product_id (snd e) = fst e).
  { intros e He. rewrite forallb_forall in Hlisted.
    apply (listed_parts (store h) e (Hlisted e He)). }
  assert (Hr1 : renderable h1 = true).
  { unfold renderable. cbn [store dom h1 products s1 set_lineItems lineItems]. fold es.
    apply andb_true_iff. split; [apply andb_true_iff; split|].
    - destruct es; [contradiction|reflexivity].
    - apply forallb_forall. intros e He. rewrite forallb_forall in Hlisted.
      destruct (listed_parts (store h) e (Hlisted e He)) as (Hid & (sku & Hsku & Hwf) & _).
      unfold entry_ok. rewrite (first_sku_reading _ _ "currency" _ Hsku), Hwf. simpl.
      unfold getElementById. apply present_find. rewrite Hd1.
      apply in_or_app. right.
      apply in_map_iff. exists e. split; [apply Hkeys|]; assumption.
    - rewrite forallb_app. apply andb_true_iff. split; [exact Hold|].
      apply forallb_forall. intros item Hitem. apply in_map_iff in Hitem.
      destruct Hitem as (e & <- & He). rewrite forallb_forall in Hlisted.
      destruct (listed_parts (store h) e (Hlisted e He)) as (Hid & _ & (price & Hprice)).
      unfold priced, line_item_of. cbn [li_product]. rewrite Hid.
      change (unit_price s1 (fst e)) with (unit_price (store h) (fst e)).
      rewrite Hprice. reflexivity. }
  assert (Hr1' := Hr1). unfold renderable in Hr1'.
  apply andb_true_iff in Hr1'. destruct Hr1' as [Hr1' Hpriced].
  apply andb_true_iff in Hr1'. destruct Hr1' as [_ Hentries].
  destruct (getPaymentTotal_priced _ Hpriced) as [z Hz].
  destruct (last_currency_ok (dom h1) _ None Hentries) as (c & Hc & Hwf).
  { left. exact Hne. }
  destruct (formatPrice_ok (or_zero (Some z)) c Hwf) as [text Htext].
  eexists. split.
  - assert (Hwake : wake (outcome (exec displayPaymentSummary h0)) h
                    = Some (exec (let* s := this in
                                  let* currency :=
                                    displayPaymentSummary_each (entries (products s)) None in
                                  let* _ := rerenderTotal currency in
                                  Ret tt) h)).
    { unfold displayPaymentSummary, loadProducts. cbn [this bind exec].
      destruct (productsFetchPromise (store h0)) eqn:Hp.
      - cbn [bind exec productsFetchPromise]. rewrite Hp. reflexivity.
      - reflexivity. }
    rewrite Hwake. cbn [this bind exec]. fold es.
    rewrite (exec_bind_finished _ _ _ _ _ Eloop).
    fold s1. fold h1. cbn [products store h1 s1 set_lineItems] in Hc. fold es in Hc. rewrite Hc.
    rewrite (exec_bind_finished _ _ _ _ _ (rerenderTotal_ok h1 z c text Hz Htext)).
    reflexivity.
  - cbn [outcome heap_after finished store dom requests with_dom h1 s1 set_lineItems lineItems].
    repeat split; assumption.
Qed.

(** X16: once the catalog is loaded, [displayPaymentSummary] renders it.
    Whether it started the load itself or found it started, it waits for
    the promise.  Resumed with a catalog that is not empty and whose
    entries can all be displayed, on a page without line items yet, it
    returns; it has pushed one line item per entry of the catalog, in the
    order of [Object.entries], with the product's id, its first SKU and
    its quantity from the quantity map; it has appended one block per
    entry to the page; it issues no request; and it leaves the page
    renderable, which is what every later edit needs. *)
Theorem displayPaymentSummary_renders (h0 h : Heap) :
  lineItems (store h) = [] ->
  order_items (dom h) = [] ->
  entries (products (store h)) <> [] ->
  forallb (listed (store h)) (entries (products (store h))) = true ->
  exists r,
    wake (outcome (exec displayPaymentSummary h0)) h = Some r
    /\ outcome r = Returned tt
    /\ lineItems (store (heap_after r))
       = map (line_item_of (store h)) (entries (products (store h)))
    /\ map el_product (order_items (dom (heap_after r)))
       = map (fun e => product_id (snd e)) (entries (products (store h)))
    /\ requests (heap_after r) = requests h
    /\ renderable (heap_after r) = true.
Proof.
  intros Hitems Hdom Hne Hlisted.
  destruct (displayPaymentSummary_resumed h0 h Hne Hlisted) as (r & Hr & Hout & Hli & Hel & Hrq).
  - rewrite Hitems. reflexivity.
  - exists r. rewrite Hitems in Hli. rewrite Hdom in Hel. cbn [List.map app] in Hli, Hel. auto.
Qed.

Lemma displayPaymentSummary_renders_witness :
  let h := heap (after [Settle 0 (AProducts (respond {| list_data := [shirt] |}))] boot) in
  exists r,
    wake (outcome (exec displayPaymentSummary (heap boot))) h = Some r
    /\ outcome r = Returned tt
    /\ lineItems (store (heap_after r))
       = map (line_item_of (store h)) (entries (products (store h)))
    /\ map el_product (order_items (dom (heap_after r)))
       = map (fun e => product_id (snd e)) (entries (products (store h)))
    /\ requests (heap_after r) = requests h
    /\ renderable (heap_after r) = true.
Proof.
  intros h.
  apply (displayPaymentSummary_renders (heap boot) h); try reflexivity.
  discriminate.
Defined.

(** ** The catalog on the page, in the order served *)

Lemma obj_set_fresh {V} (k : string) (v : V) (o : JsObject V) :
  ~ In k (map fst o) -> obj_set k v o = o ++ [(k, v)].
Proof.
  induction o as [|[k' v'] o IH]; simpl; intros Hfresh; [reflexivity|].
  destruct (String.eqb_spec k' k) as [->|Hk]; [tauto|].
  rewrite IH by tauto. reflexivity.
Qed.

Lemma recorded_products_fresh (prods : list Product) (s : Store) :
  NoDup (map product_id prods) ->
  (forall id, In id (map product_id prods) -> ~ In id (map fst (products s))) ->
  products (recorded prods s) = products s ++ map (fun product => (product_id product, product)) prods.
Proof.
  revert s. induction prods as [|product prods IH]; intros s Hnodup Hfresh; simpl.
  - rewrite app_nil_r. reflexivity.
  - apply NoDup_cons in Hnodup. destruct Hnodup as [Hhead Hnodup].
    unfold recorded in IH. rewrite IH; [|assumption|].
    + unfold record_product. simpl. rewrite obj_set_fresh by (apply Hfresh; left; reflexivity).
      rewrite <- app_assoc. reflexivity.
    + intros id Hid. unfold record_product. simpl.
      rewrite obj_set_fresh by (apply Hfresh; left; reflexivity).
      rewrite map_app, in_app_iff. simpl. intros [Hin|[<-|[]]].
      * apply (Hfresh id); [right|]; assumption.
      * apply Hhead. apply list_elem_of_In. assumption.
Qed.

Lemma recorded_quantity (prods : list Product) (s : Store) (id : string) :
  In id (map product_id prods) -> quantity (recorded prods s) !! id = Some (Int 0).
Proof.
  unfold recorded.
  revert s. induction prods as [|product prods IH]; intros s Hin; simpl in *; [contradiction|].
  destruct (in_dec string_dec id (map product_id prods)) as [Hlater|Hnot].
  - apply IH. assumption.
  - destruct Hin as [<-|Hin]; [|contradiction].
    destruct (recorded_other prods (record_product s product) _ Hnot) as [_ Hq].
    unfold recorded in Hq. rewrite Hq. unfold record_product. simpl.
    apply lookup_insert_eq.
Qed.

Lemma entries_plain {V} (o : JsObject V) :
  forallb (fun e => plain_id (fst e)) o = true -> entries o = o.
Proof.
  intros Hplain. unfold entries.
  assert (Hindex : index_entries o = []).
  { induction o as [|[k v] o IH]; simpl in *; [reflexivity|].
    apply andb_true_iff in Hplain. destruct Hplain as [Hk Ho]. unfold plain_id in Hk.
    destruct (array_index k); [discriminate|auto]. }
  rewrite Hindex. simpl.
  induction o as [|[k v] o IH]; simpl in *; [reflexivity|].
  apply andb_true_iff in Hplain. destruct Hplain as [Hk Ho]. unfold plain_id in Hk.
  destruct (array_index k); [discriminate|].
  f_equal. apply IH; [assumption|].
  clear IH Hindex. induction o as [|[k' v'] o IH]; simpl in *; [reflexivity|].
  apply andb_true_iff in Ho. destruct Ho as [Hk' Ho]. unfold plain_id in Hk'.
  destruct (array_index k'); [discriminate|auto].
Qed.

(** X17: from the answer of [/products] to the page.  On a fresh page,
    when the backend serves a non-empty list of products with distinct
    ids, none of them an array index, each with a first SKU in a
    well-formed currency, the executor of [loadProducts] returns, and
    [displayPaymentSummary], resumed after it, returns with exactly one
    line item and one block per product, in the order served, every
    quantity 0. *)
Theorem catalog_displayed_in_order (h0 h : Heap) (p : nat) (prods : list Product) :
  products (store h) = [] ->
  lineItems (store h) = [] ->
  order_items (dom h) = [] ->
  prods <> [] ->
  NoDup (map product_id prods) ->
  forallb (fun product => plain_id (product_id product) && sellable product) prods = true ->
  exists r1 r,
    settle (outcome (exec (loadProducts_executor p) h0))
           (AProducts (respond {| list_data := prods |})) h = Some r1
    /\ outcome r1 = Returned tt
    /\ requests (heap_after r1) = requests h
    /\ wake (outcome (exec displayPaymentSummary h0)) (heap_after r1) = Some r
    /\ outcome r = Returned tt
    /\ lineItems (store (heap_after r)) = map first_line_item prods
    /\ map el_product (order_items (dom (heap_after r))) = map product_id prods.
Proof.
  intros Hproducts Hitems Hdom Hne Hnodup Hprods.
  assert (Hskus : forallb has_skus prods = true).
  { apply forallb_forall. intros product Hin. rewrite forallb_forall in Hprods.
    specialize (Hprods product Hin). apply andb_true_iff in Hprods.
    destruct Hprods as [_ Hsell]. unfold sellable, first_sku, has_skus in *.
    destruct (product_skus product); [reflexivity|discriminate]. }
  set (h1 := with_promises (fun l => <[p := true]> l) (with_store (recorded prods) h)).
  assert (Hcatalog : products (store h1) = map (fun product => (product_id product, product)) prods).
  { destruct h as [s d rq pr c]. simpl in *.
    rewrite recorded_products_fresh; [rewrite Hproducts; reflexivity|assumption|].
    intros id _. rewrite Hproducts. simpl. tauto. }
  assert (Hentries : entries (products (store h1))
                     = map (fun product => (product_id product, product)) prods).
  { rewrite <- Hcatalog. apply entries_plain. rewrite Hcatalog.
    apply forallb_forall. intros e He. apply in_map_iff in He. destruct He as (product & <- & Hin).
    rewrite forallb_forall in Hprods. specialize (Hprods product Hin).
    apply andb_true_iff in Hprods. apply Hprods. }
  assert (Hquantity : forall product, In product prods ->
                        quantity (store h1) !! product_id product = Some (Int 0)).
  { intros product Hin. destruct h as [s d rq pr c]. simpl.
    apply recorded_quantity. apply in_map. assumption. }
  assert (Hget : forall product, In product prods ->
                   obj_get (product_id product) (products (store h1)) = Some product).
  { intros product Hin. destruct h as [s d rq pr c]. simpl.
    apply recorded_product; assumption. }
  assert (Hitems1 : lineItems (store h1) = []).
  { destruct h as [s d rq pr c]. simpl in *.
    destruct (recorded_frame prods s) as (-> & _). assumption. }
  assert (Hdom1 : order_items (dom h1) = [])
    by (destruct h as [s d rq pr c]; assumption).
  destruct (displayPaymentSummary_resumed h0 h1) as (r & Hr & Hout & Hli & Hel & _);
    [| |rewrite Hitems1; reflexivity|rewrite Hitems1 in Hli; rewrite Hdom1 in Hel;
                                      cbn [List.map app] in Hli, Hel].
  - rewrite Hentries. destruct prods; [contradiction|discriminate].
  - rewrite Hentries. apply forallb_forall. intros e He. apply in_map_iff in He.
    destruct He as (product & <- & Hin). rewrite forallb_forall in Hprods.
    specialize (Hprods product Hin). apply andb_true_iff in Hprods.
    destruct Hprods as [_ Hsell]. unfold listed, unit_price. cbn [fst snd].
    rewrite String.eqb_refl, (Hget product Hin). unfold sellable in Hsell.
    destruct (first_sku product "price"); [|discriminate]. rewrite Hsell. reflexivity.
  - exists (finished h1 tt), r. split; [|split; [reflexivity|split; [|split; [exact Hr|]]]].
    + simpl. destruct prods as [|product prods]; [contradiction|].
      rewrite (exec_bind_finished _ _ _ _ _ (exec_loadProducts_each (product :: prods) h Hskus)).
      destruct h as [s d rq pr c]. reflexivity.
    + destruct h as [s d rq pr c]. reflexivity.
    + split; [exact Hout|]. rewrite Hli, Hel, Hentries, !map_map. split; [|reflexivity].
      apply map_ext_in. intros product Hin. unfold line_item_of, first_line_item. cbn [fst snd].
      rewrite (Hquantity product Hin). reflexivity.
Qed.

Lemma catalog_displayed_in_order_witness :
  exists r1 r,
    settle (outcome (exec (loadProducts_executor 0) blank))
           (AProducts (respond {| list_data := [shirt] |})) (heap boot) = Some r1
    /\ outcome r1 = Returned tt
    /\ requests (heap_after r1) = requests (heap boot)
    /\ wake (outcome (exec displayPaymentSummary blank)) (heap_after r1) = Some r
    /\ outcome r = Returned tt
    /\ lineItems (store (heap_after r)) = map first_line_item [shirt]
    /\ map el_product (order_items (dom (heap_after r))) = map product_id [shirt].
Proof.
  apply (catalog_displayed_in_order blank (heap boot) 0 [shirt]); try reflexivity.
  - discriminate.
  - repeat constructor. intros H. inversion H.
Defined.

(** ** Numbers on the page: what is written is what is read *)

Lemma of_uint_acc_value (u : Decimal.uint) (acc : positive) :
  Z.pos (Pos.of_uint_acc u acc) = uint_value (Z.pos acc) u.
Proof.
  revert acc. induction u; intros acc; simpl; try reflexivity;
    rewrite IHu; f_equal; lia.
Qed.

Lemma of_uint_value (u : Decimal.uint) : Z.of_N (N.of_uint u) = uint_value 0 u.
Proof.
  unfold N.of_uint.
  induction u; simpl; try reflexivity; try assumption;
    rewrite of_uint_acc_value; reflexivity.
Qed.

Lemma parse_digits_uint (u : Decimal.uint) (acc : Z) :
  parse_digits 10 (Some acc) (NilEmpty.string_of_uint u) = Some (uint_value acc u).
Proof.
  revert acc. induction u; intros acc; simpl; try reflexivity; apply IHu.
Qed.

Lemma parse_digits_string_of_uint (u : Decimal.uint) :
  parse_digits 10 None (NilZero.string_of_uint u) = Some (uint_value 0 u).
Proof.
  destruct u; try reflexivity; simpl; apply parse_digits_uint.
Qed.

Lemma parse_digits_digits (n : Z) :
  0 <= n -> parse_digits 10 None (digits n) = Some n.
Proof.
  intros Hn. unfold digits. rewrite parse_digits_string_of_uint, <- of_uint_value.
  rewrite DecimalN.Unsigned.of_to. f_equal. lia.
Qed.

(** A string of decimal digits has no sign, no blank and no [0x] in
    front: [parseInt] reads it in base 10, also behind a minus sign. *)
Lemma parseInt_string_of_uint (u : Decimal.uint) :
  parseInt (NilZero.string_of_uint u)
  = match parse_digits 10 None (NilZero.string_of_uint u) with
    | Some n => round_double n
    | None => NaN
    end
  /\ parseInt (String "-" (NilZero.string_of_uint u))
     = match parse_digits 10 None (NilZero.string_of_uint u) with
       | Some n => round_double (- n)
       | None => NaN
       end.
Proof.
  destruct u as [|u|u|u|u|u|u|u|u|u|u]; (split; [try reflexivity|try reflexivity]);
    destruct u; reflexivity.
Qed.

(** X18: the quantity written into an input is the quantity read back.
    For every safe integer, [parseInt] of the [value] that
    [displayPaymentSummary] writes for it is that integer; for
    [undefined], NaN and the infinities the input stays empty and
    [parseInt] gives NaN. *)
Theorem parseInt_number_attribute (z : Z) :
  Z.abs z <= max_safe_integer ->
  parseInt (number_attribute (Some (Int z))) = Int z
  /\ parseInt (number_attribute None) = NaN
  /\ parseInt (number_attribute (Some NaN)) = NaN
  /\ forall negative, parseInt (number_attribute (Some (Inf negative))) = NaN.
Proof.
  intros Hsafe. split; [|repeat split].
  unfold number_attribute, to_string. cbv zeta.
  destruct (Z.leb_spec (Z.abs z) max_safe_integer) as [_|Hlt]; [|lia].
  destruct (parseInt_string_of_uint (N.to_uint (Z.to_N (Z.abs z)))) as [Hplus Hminus].
  fold (digits (Z.abs z)) in Hplus, Hminus.
  rewrite parse_digits_digits in Hplus, Hminus by lia.
  destruct (Z.ltb_spec z 0).
  - change ("-" +:+ digits (Z.abs z)) with (String "-" (digits (Z.abs z))).
    rewrite Hminus. replace (- Z.abs z) with z by lia. apply round_double_safe, Hsafe.
  - change ("" +:+ digits (Z.abs z)) with (digits (Z.abs z)).
    rewrite Hplus. replace (Z.abs z) with z by lia. apply round_double_safe, Hsafe.
Qed.

Lemma parseInt_number_attribute_witness :
  parseInt (number_attribute (Some (Int (-12)))) = Int (-12).
Proof.
  apply (parseInt_number_attribute (-12)). vm_compute. discriminate.
Defined.

(** From 10^21 on the text carries an exponent, and [parseInt] reads its
    first digit. *)
Example attribute_exponent :
  number_attribute (Some (Int (10 ^ 21))) = "1e+21"
  /\ parseInt (number_attribute (Some (Int (10 ^ 21)))) = Int 1.
Proof. split; vm_compute; reflexivity. Qed.

(** ** What a formatted price looks like *)

Lemma append_cons (c : ascii) (a b : string) : String c a +:+ b = String c (a +:+ b).
Proof. reflexivity. Qed.

Lemma append_empty (a : string) : "" +:+ a = a.
Proof. reflexivity. Qed.

Lemma append_nil (a : string) : a +:+ "" = a.
Proof. induction a as [|c a IH]; [reflexivity|]. rewrite append_cons, IH. reflexivity. Qed.

Lemma split_at_uint (c : ascii) (u : Decimal.uint) (s : string) :
  is_digit c = false ->
  split_at c (NilEmpty.string_of_uint u +:+ s)
  = (NilEmpty.string_of_uint u +:+ fst (split_at c s), snd (split_at c s)).
Proof.
  intros Hc.
  assert (Hd : forall d, is_digit d = true -> Ascii.eqb d c = false).
  { intros d Hd. destruct (Ascii.eqb_spec d c); [congruence|reflexivity]. }
  induction u; cbn [NilEmpty.string_of_uint]; rewrite ?append_empty, ?append_cons;
    try (destruct (split_at c s); reflexivity);
    cbn [split_at]; rewrite Hd by reflexivity; rewrite IHu; reflexivity.
Qed.

Lemma split_at_digits (c : ascii) (a : Z) (s : string) :
  is_digit c = false ->
  split_at c (digits a +:+ s) = (digits a +:+ fst (split_at c s), snd (split_at c s)).
Proof.
  intros Hc. unfold digits. destruct (N.to_uint (Z.to_N a)) as [|u|u|u|u|u|u|u|u|u|u];
    try apply (split_at_uint c _ s Hc).
  cbn [NilZero.string_of_uint]. rewrite append_cons. cbn [split_at].
  destruct (Ascii.eqb_spec "0" c) as [<-|_]; [discriminate|].
  rewrite append_empty. destruct (split_at c s); reflexivity.
Qed.

Lemma all_digits_uint (u : Decimal.uint) : all_digits (NilEmpty.string_of_uint u) = true.
Proof. induction u; simpl; auto. Qed.

Lemma all_digits_digits (a : Z) : all_digits (digits a) = true.
Proof.
  unfold digits. destruct (N.to_uint (Z.to_N a)); try apply all_digits_uint. reflexivity.
Qed.

Lemma take_string_append (s t : string) : take_string (String.length s + 0) (s +:+ t) = s.
Proof.
  induction s as [|c s IH]; [destruct t; reflexivity|].
  rewrite append_cons. simpl. rewrite IH. reflexivity.
Qed.

Lemma drop_string_append (s t : string) : drop_string (String.length s + 0) (s +:+ t) = t.
Proof.
  induction s as [|c s IH]; [destruct t; reflexivity|].
  rewrite append_cons. simpl. exact IH.
Qed.

(** The head of a string of digits: a digit. *)
Lemma digits_head (a : Z) :
  exists c r, digits a = String c r /\ is_digit c = true.
Proof.
  unfold digits. destruct (N.to_uint (Z.to_N a)); simpl; eauto.
Qed.

(** What the formatter reads in the two-decimal string of an amount. *)
Lemma read_unsigned_digits (negative : bool) (a : Z) :
  0 <= a ->
  read_unsigned negative (digits a +:+ ".00") = RDecimal negative (digits a) "00".
Proof.
  intros Ha. unfold read_unsigned.
  assert (Hinf : String.eqb (digits a +:+ ".00") "Infinity" = false).
  { destruct (digits_head a) as (c & r & -> & Hc). rewrite append_cons. cbn [String.eqb].
    destruct (Ascii.eqb_spec c "I") as [->|_]; [discriminate|reflexivity]. }
  rewrite Hinf, (split_at_digits "e" a ".00") by reflexivity.
  cbn [split_at Ascii.eqb Bool.eqb fst snd].
  unfold split_point. rewrite (split_at_digits "." a ".00") by reflexivity.
  cbn [split_at Ascii.eqb Bool.eqb fst snd drop_string].
  rewrite append_nil.
  rewrite all_digits_digits. cbn [all_digits is_digit andb].
  replace (String.eqb (digits a) "" && String.eqb "00" "") with false
    by (rewrite andb_false_r; reflexivity).
  cbn [negb]. cbv zeta.
  rewrite take_string_append, drop_string_append, (parse_digits_digits a Ha).
  reflexivity.
Qed.

Lemma read_price_digits (a : Z) :
  0 <= a ->
  read_price (digits a +:+ ".00") = RDecimal false (digits a) "00"
  /\ read_price (String "-" (digits a +:+ ".00")) = RDecimal true (digits a) "00".
Proof.
  intros Ha. split; [|apply (read_unsigned_digits true a Ha)].
  rewrite <- (read_unsigned_digits false a Ha).
  unfold digits. destruct (N.to_uint (Z.to_N a)); reflexivity.
Qed.

(** A code that spells USD, EUR or GBP is well formed. *)
Lemma well_formed_uppercase (code : string) (a b c : ascii) :
  uppercase code = String a (String b (String c EmptyString)) ->
  is_alpha a && is_alpha b && is_alpha c = true ->
  well_formed_currency code = true.
Proof.
  destruct code as [|x [|y [|z [|w code]]]]; try discriminate.
  simpl. intros E. inversion E. subst. unfold is_alpha.
  assert (Hup : forall x, upper (upper x) = upper x).
  { intros x0. destruct x0 as [[] [] [] [] [] [] [] []]; reflexivity. }
  rewrite !Hup. auto.
Qed.

(** X19: the amount is printed as it is, in whole units.  For an integer
    amount below 10^21 in US dollars, euros or pounds (the code in any
    case), [formatPrice] returns the sign, the currency symbol, the
    digits of the amount in groups of three, and [.00]: the amount is
    never divided by 100, so an amount in minor units is shown as that
    many whole units. *)
Theorem formatPrice_whole_units (z : Z) (code symbol : string) :
  In (uppercase code, symbol) [("USD", "$"); ("EUR", "€"); ("GBP", "£")] ->
  Z.abs z < 10 ^ 21 ->
  formatPrice (Int z) (Some code)
  = Ok ((if z <? 0 then "-" else "") +:+ symbol +:+ group3 (digits (Z.abs z)) +:+ ".00").
Proof.
  intros Hcode Hrange.
  destruct (read_price_digits (Z.abs z)) as [Hplus Hminus]; [lia|].
  assert (Hfixed : toFixed2 (Int z)
                   = (if z <? 0 then "-" else "") +:+ digits (Z.abs z) +:+ ".00").
  { unfold toFixed2. destruct (Z.ltb_spec (Z.abs z) (10 ^ 21)); [reflexivity|lia]. }
  unfold formatPrice. rewrite Hfixed. unfold format, currency_symbol, fraction_digits.
  destruct Hcode as [E|[E|[E|[]]]]; inversion E as [[Hup Hsym]]; symmetry in Hup;
    rewrite (well_formed_uppercase code _ _ _ Hup eq_refl), ?Hup;
    (destruct (z <? 0);
     [change ("-" +:+ digits (Z.abs z) +:+ ".00")
        with (String "-" (digits (Z.abs z) +:+ ".00")); rewrite Hminus
     |rewrite append_empty, Hplus]);
    reflexivity.
Qed.

Lemma formatPrice_whole_units_witness :
  formatPrice (Int 3000) (Some "usd")
  = Ok ((if 3000 <? 0 then "-" else "") +:+ "$" +:+ group3 (digits (Z.abs 3000)) +:+ ".00").
Proof.
  apply (formatPrice_whole_units 3000 "usd" "$"); [left; reflexivity|reflexivity].
Defined.

(** Other currencies have other symbols and other numbers of decimals. *)
Example formatPrice_other_currencies :
  formatPrice (Int 1000) (Some "jpy") = Ok "¥1,000"
  /\ formatPrice (Int 1000) (Some "cad") = Ok "CA$1,000.00"
  /\ formatPrice (Int 1000) (Some "bhd") = Ok ("BHD" +:+ nbsp +:+ "1,000.000").
Proof. repeat split; vm_compute; reflexivity. Qed.

(** ** A product whose SKUs cannot be loaded *)

(** X20: the error [loadSkus] returns is dropped by [loadProducts].  When
    the catalog holds one product without SKUs and the request for its
    SKUs fails, the executor still returns and resolves the promise;
    [displayPaymentSummary], resumed after it, then throws a TypeError at
    [product.skus.data] and the page stays as it was: no block, no
    total. *)
Theorem failed_skus_break_the_summary
    (h0 h : Heap) (p : nat) (product : Product) (e : Exn) (at_json : bool) :
  product_skus product = None ->
  products (store h) = [] ->
  (p < length (promises h))%nat ->
  exists r1 r2 r3,
    settle (outcome (exec (loadProducts_executor p) h0))
           (AProducts (respond {| list_data := [product] |})) h = Some r1
    /\ awaiting (outcome r1) = Some (GET_product_skus (product_id product))
    /\ fail_request (outcome r1) e at_json (heap_after r1) = Some r2
    /\ outcome r2 = Returned tt
    /\ promises (heap_after r2) !! p = Some true
    /\ wake (outcome (exec displayPaymentSummary h0)) (heap_after r2) = Some r3
    /\ outcome r3 = Threw (TypeError "Cannot read properties of undefined (reading 'data')")
    /\ dom (heap_after r3) = dom h.
Proof.
  intros Hnone Hproducts Hp.
  assert (Hwake : forall h2, wake (outcome (exec displayPaymentSummary h0)) h2
                    = Some (exec (let* s := this in
                                  let* currency :=
                                    displayPaymentSummary_each (entries (products s)) None in
                                  let* _ := rerenderTotal currency in
                                  Ret tt) h2)).
  { intros h2. unfold displayPaymentSummary, loadProducts. cbn [this bind exec].
    destruct (productsFetchPromise (store h0)) eqn:Hpromise.
    - cbn [bind exec productsFetchPromise]. rewrite Hpromise. reflexivity.
    - reflexivity. }
  eexists _, _, _. split; [reflexivity|].
  simpl. rewrite Hnone. simpl. split; [reflexivity|].
  split; [destruct at_json; reflexivity|].
  assert (Hresolved : <[p := true]> (promises h) !! p = Some true)
    by (apply list_lookup_insert_eq; assumption).
  destruct at_json; simpl; (split; [reflexivity|]); (split; [exact Hresolved|]);
    rewrite Hwake; simpl; rewrite Hproducts; simpl; rewrite entries_singleton; simpl;
    unfold first_sku; rewrite Hnone; simpl; auto.
Qed.

Lemma failed_skus_break_the_summary_witness :
  let bare := {| product_id := "pins"; product_name := "Pins"; product_skus := None |} in
  exists r1 r2 r3,
    settle (outcome (exec (loadProducts_executor 0) blank))
           (AProducts (respond {| list_data := [bare] |})) (heap boot) = Some r1
    /\ awaiting (outcome r1) = Some (GET_product_skus (product_id bare))
    /\ fail_request (outcome r1) (JS.Error "Failed to fetch") false (heap_after r1) = Some r2
    /\ outcome r2 = Returned tt
    /\ promises (heap_after r2) !! 0%nat = Some true
    /\ wake (outcome (exec displayPaymentSummary blank)) (heap_after r2) = Some r3
    /\ outcome r3 = Threw (TypeError "Cannot read properties of undefined (reading 'data')")
    /\ dom (heap_after r3) = dom (heap boot).
Proof.
  intros bare.
  apply (failed_skus_break_the_summary blank (heap boot) 0 bare (JS.Error "Failed to fetch") false);
    try reflexivity.
  vm_compute. lia.
Defined.

(** ** Answers that arrive out of order *)

Lemma createPaymentIntent_answered
    (h h' : Heap) (currency : string) (items : list Item) (data intent : Value) :
  Exists (fun i => some_quantity (item_quantity i)) items ->
  get_field data "paymentIntent" = Ok intent ->
  exists v,
    settle (outcome (exec (createPaymentIntent currency items) h)) (AValue (respond data)) h'
    = Some (finished (with_store (set_paymentIntent intent) h') v).
Proof.
  intros Hsome Hintent. unfold createPaymentIntent. fold (all_zero items).
  rewrite (all_zero_Exists items Hsome). simpl. rewrite Hintent. simpl.
  destruct data; try discriminate; simpl;
    match goal with
    | |- context [truthy_value ?x] => destruct (truthy_value x)
    | _ => idtac
    end; eexists; reflexivity.
Qed.

(** X21: the payment intent kept is that of the answer that arrives
    last, not that of the request issued last.  With two calls of
    [createPaymentIntent] in flight, answering the first and then the
    second leaves the second answer's [paymentIntent] in the store;
    answering them the other way round leaves the first answer's, that
    is the intent created for the older cart. *)
Theorem answers_out_of_order
    (h h' : Heap) (currency1 currency2 : string) (items1 items2 : list Item)
    (data1 data2 intent1 intent2 : Value) :
  Exists (fun i => some_quantity (item_quantity i)) items1 ->
  Exists (fun i => some_quantity (item_quantity i)) items2 ->
  get_field data1 "paymentIntent" = Ok intent1 ->
  get_field data2 "paymentIntent" = Ok intent2 ->
  let first := exec (createPaymentIntent currency1 items1) h in
  let second := exec (createPaymentIntent currency2 items2) (heap_after first) in
  requests (heap_after second)
  = requests h ++ [POST_payment_intents currency1 items1; POST_payment_intents currency2 items2]
  /\ (exists r1 r2,
        settle (outcome first) (AValue (respond data1)) h' = Some r1
        /\ settle (outcome second) (AValue (respond data2)) (heap_after r1) = Some r2
        /\ paymentIntent (store (heap_after r2)) = intent2)
  /\ (exists r2 r1,
        settle (outcome second) (AValue (respond data2)) h' = Some r2
        /\ settle (outcome first) (AValue (respond data1)) (heap_after r2) = Some r1
        /\ paymentIntent (store (heap_after r1)) = intent1).
Proof.
  intros Hsome1 Hsome2 Hintent1 Hintent2 first second. split; [|split].
  - subst first second. unfold createPaymentIntent. fold (all_zero items1) (all_zero items2).
    rewrite (all_zero_Exists items1 Hsome1), (all_zero_Exists items2 Hsome2). simpl.
    rewrite <- app_assoc. reflexivity.
  - destruct (createPaymentIntent_answered h h' currency1 items1 data1 intent1 Hsome1 Hintent1)
      as [v1 E1].
    destruct (createPaymentIntent_answered (heap_after first)
                (with_store (set_paymentIntent intent1) h')
                currency2 items2 data2 intent2 Hsome2 Hintent2) as [v2 E2].
    eexists _, _. split; [exact E1|]. split; [exact E2|]. reflexivity.
  - destruct (createPaymentIntent_answered (heap_after first) h'
                currency2 items2 data2 intent2 Hsome2 Hintent2) as [v2 E2].
    destruct (createPaymentIntent_answered h (with_store (set_paymentIntent intent2) h')
                currency1 items1 data1 intent1 Hsome1 Hintent1) as [v1 E1].
    eexists _, _. split; [exact E2|]. split; [exact E1|]. reflexivity.
Qed.

Lemma answers_out_of_order_witness :
  let items1 := [ {| item_type := "sku"; item_parent := "sku_shirt";
                     item_quantity := Some (Int 1) |} ] in
  let items2 := [ {| item_type := "sku"; item_parent := "sku_shirt";
                     item_quantity := Some (Int 2) |} ] in
  let data1 := VObject [("paymentIntent", VString "pi_1")] in
  let data2 := VObject [("paymentIntent", VString "pi_2")] in
  let first := exec (createPaymentIntent "usd" items1) blank in
  let second := exec (createPaymentIntent "usd" items2) (heap_after first) in
  requests (heap_after second)
  = requests blank ++ [POST_payment_intents "usd" items1; POST_payment_intents "usd" items2]
  /\ (exists r1 r2,
        settle (outcome first) (AValue (respond data1)) blank = Some r1
        /\ settle (outcome second) (AValue (respond data2)) (heap_after r1) = Some r2
        /\ paymentIntent (store (heap_after r2)) = VString "pi_2")
  /\ (exists r2 r1,
        settle (outcome second) (AValue (respond data2)) blank = Some r2
        /\ settle (outcome first) (AValue (respond data1)) (heap_after r2) = Some r1
        /\ paymentIntent (store (heap_after r1)) = VString "pi_1").
Proof.
  intros items1 items2 data1 data2.
  apply (answers_out_of_order blank blank "usd" "usd" items1 items2 data1 data2
           (VString "pi_1") (VString "pi_2")); try reflexivity.
  - constructor. left. exists 1. split; [reflexivity|lia].
  - constructor. left. exists 2. split; [reflexivity|lia].
Defined.

(** ** The configuration and the shipping change *)

(** X22: [getConfig] asks for [/config]; the configuration served is
    stored and returned as it is, and the demo notice is hidden exactly
    when the publishable key contains [live].  Nothing else is written:
    the catalog, the quantities, the line items, the payment intent and
    the rendered blocks are those of the page the answer finds. *)
Theorem getConfig_stores_config (h h' : Heap) (cfg : Config) :
  awaiting (outcome (exec getConfig h)) = Some GET_config
  /\ exists h1,
       settle (outcome (exec getConfig h)) (AConfig (respond cfg)) h'
       = Some (finished h1 (RData cfg))
       /\ config (store h1) = Some cfg
       /\ demo_display (dom h1)
          = (if includes (stripePublishableKey cfg) "live" then "none"
             else demo_display (dom h'))
       /\ set_config (config (store h')) (store h1) = store h'
       /\ set_demo_display (demo_display (dom h')) (dom h1) = dom h'
       /\ (requests h1, promises h1, console h1) = (requests h', promises h', console h').
Proof.
  split; [reflexivity|]. simpl.
  destruct h' as [[] [] rq pr c].
  destruct (includes (stripePublishableKey cfg) "live"); simpl;
    eexists; repeat split.
Qed.

(** X23: [updatePaymentIntentWithShippingCost] posts the shipping option
    and the items to the intent's [shipping_change] and, answered with an
    object, returns [{error}] when the payload has a truthy [error] and
    the payload otherwise.  Unlike [createPaymentIntent] it never writes
    to the controller: the heap is the one the answer found. *)
Theorem shipping_change_result
    (h h' : Heap) (intent option_ : Value) (items : list Item) (fields : list (string * Value)) :
  let r := exec (updatePaymentIntentWithShippingCost intent items option_) h in
  awaiting (outcome r) = Some (POST_shipping_change intent items option_)
  /\ requests (heap_after r) = requests h ++ [POST_shipping_change intent items option_]
  /\ settle (outcome r) (AValue (respond (VObject fields))) h'
     = Some (finished h' (if truthy_value (assoc "error" fields)
                          then RError (assoc "error" fields)
                          else RData (VObject fields))).
Proof.
  simpl. repeat split. destruct (truthy_value (assoc "error" fields)); reflexivity.
Qed.
